(** * Recruitment platform: accounts and profiles

    A shallow embedding of [Platform/models.py] and [Platform/serializers.py]
    and the properties of the account/profile layer stated over it.

    Conventions of the embedding.
    - A Python [str] is a [string]; a character is a code point below 256.
    - The relational store is a record of two tables (lists of rows) with
      their primary-key sequences; every operation threads it explicitly and
      keeps the writes made before an exception (autocommit, no rollback).
    - [timezone.now()] is the explicit argument [now] of an operation.
    - What the layer uses of the web framework and is not written in this
      repository (password hashing, the normalisers of [create_user], the
      regular expressions of the username, email and URL validators, the
      date parser, the integer range of the database) is an interface,
      [Framework]. [authenticate] is the default model backend, written over
      that interface.
    - A request payload is a JSON object: a key is absent, holds [null], or
      holds a value of the JSON type of its field (a string, an integer, a
      boolean). The serializer fields are the declared ones and those a
      [ModelSerializer] generates from the model; each runs its checks in
      the order of the serializer framework (required, null, blank, trim,
      then every validator of the field), the errors of all fields are
      collected, and the object-level [validate] runs only when no field
      failed. *)

From Stdlib Require Import ZArith List String Ascii Bool Lia DecimalString.
Import ListNotations.
Open Scope string_scope.
Open Scope Z_scope.

(** ** Python string primitives *)

Module Py.

(** [str.isspace] on one character, for code points below 256. *)
Definition isspace (c : ascii) : bool :=
  let n := N_of_ascii c in
  (((9 <=? n) && (n <=? 13)) || ((28 <=? n) && (n <=? 32))
   || (n =? 133) || (n =? 160))%N.

(** [bool(s)]: a string is truthy when it is not empty. *)
Definition truthy (s : string) : bool :=
  match s with
  | EmptyString => false
  | String _ _ => true
  end.

Fixpoint lstrip (s : string) : string :=
  match s with
  | EmptyString => EmptyString
  | String c s' => if isspace c then lstrip s' else s
  end.

Fixpoint rstrip (s : string) : string :=
  match s with
  | EmptyString => EmptyString
  | String c s' =>
      match rstrip s' with
      | EmptyString => if isspace c then EmptyString else String c EmptyString
      | r => String c r
      end
  end.

(** [s.strip()]. *)
Definition strip (s : string) : string := rstrip (lstrip s).

(** [s.split(sep)] for a one-character separator: never empty, keeps empty
    pieces. *)
Fixpoint split (sep : ascii) (s : string) : list string :=
  match s with
  | EmptyString => [EmptyString]
  | String c s' =>
      if Ascii.eqb c sep then EmptyString :: split sep s'
      else match split sep s' with
           | piece :: pieces => String c piece :: pieces
           | [] => [String c EmptyString]
           end
  end.

(** [sep.join(pieces)]. *)
Fixpoint join (sep : ascii) (pieces : list string) : string :=
  match pieces with
  | [] => EmptyString
  | [p] => p
  | p :: ps => p ++ String sep (join sep ps)
  end.

(** Every character of [s] is whitespace. *)
Fixpoint all_space (s : string) : bool :=
  match s with
  | EmptyString => true
  | String c s' => isspace c && all_space s'
  end.

Definition head_char (s : string) : option ascii :=
  match s with
  | EmptyString => None
  | String c _ => Some c
  end.

Fixpoint last_char (s : string) : option ascii :=
  match s with
  | EmptyString => None
  | String c EmptyString => Some c
  | String _ s' => last_char s'
  end.

Fixpoint contains_char (c : ascii) (s : string) : bool :=
  match s with
  | EmptyString => false
  | String d s' => Ascii.eqb d c || contains_char c s'
  end.

(** A string that neither starts nor ends with whitespace. *)
Definition trimmed (s : string) : Prop :=
  (forall c, head_char s = Some c -> isspace c = false) /\
  (forall c, last_char s = Some c -> isspace c = false).

End Py.

(** ** Data model ([models.py]) *)

(** A calendar date ([datetime.date]). *)
Record date := mkdate { year : Z; month : Z; day : Z }.

(** The identity record, [django.contrib.auth.models.User]: the columns this
    layer reads or writes. [id] is the primary key. *)
Module User.
Record t := mk {
  id : Z;
  username : string;
  email : string;
  first_name : string;
  last_name : string;
  password : string;
  is_active : bool
}.

Definition set_first_name (v : string) (u : t) : t :=
  mk (id u) (username u) (email u) v (last_name u) (password u) (is_active u).
Definition set_last_name (v : string) (u : t) : t :=
  mk (id u) (username u) (email u) (first_name u) v (password u) (is_active u).
End User.

(** [class UserProfile(models.Model)]. [user_id] is the column of the
    one-to-one field [user]; a nullable column is an [option]. *)
Module UserProfile.
Record t := mk {
  id : Z;
  user_id : Z;
  phone_number : option string;
  date_of_birth : option date;
  location : option string;
  bio : option string;
  skills : option string;
  experience_years : Z;
  linkedin_url : option string;
  github_url : option string;
  resume : option string;
  profile_picture : option string;
  is_recruiter : bool;
  company : option string;
  created_at : Z;
  updated_at : Z
}.

Definition set_phone_number v (p : t) : t :=
  let (i, u, _, dob, loc, b, sk, ex, li, gh, re, pic, rec, co, ca, ua) := p in
  mk i u v dob loc b sk ex li gh re pic rec co ca ua.
Definition set_date_of_birth v (p : t) : t :=
  let (i, u, ph, _, loc, b, sk, ex, li, gh, re, pic, rec, co, ca, ua) := p in
  mk i u ph v loc b sk ex li gh re pic rec co ca ua.
Definition set_location v (p : t) : t :=
  let (i, u, ph, dob, _, b, sk, ex, li, gh, re, pic, rec, co, ca, ua) := p in
  mk i u ph dob v b sk ex li gh re pic rec co ca ua.
Definition set_bio v (p : t) : t :=
  let (i, u, ph, dob, loc, _, sk, ex, li, gh, re, pic, rec, co, ca, ua) := p in
  mk i u ph dob loc v sk ex li gh re pic rec co ca ua.
Definition set_skills v (p : t) : t :=
  let (i, u, ph, dob, loc, b, _, ex, li, gh, re, pic, rec, co, ca, ua) := p in
  mk i u ph dob loc b v ex li gh re pic rec co ca ua.
Definition set_experience_years v (p : t) : t :=
  let (i, u, ph, dob, loc, b, sk, _, li, gh, re, pic, rec, co, ca, ua) := p in
  mk i u ph dob loc b sk v li gh re pic rec co ca ua.
Definition set_linkedin_url v (p : t) : t :=
  let (i, u, ph, dob, loc, b, sk, ex, _, gh, re, pic, rec, co, ca, ua) := p in
  mk i u ph dob loc b sk ex v gh re pic rec co ca ua.
Definition set_github_url v (p : t) : t :=
  let (i, u, ph, dob, loc, b, sk, ex, li, _, re, pic, rec, co, ca, ua) := p in
  mk i u ph dob loc b sk ex li v re pic rec co ca ua.
Definition set_is_recruiter v (p : t) : t :=
  let (i, u, ph, dob, loc, b, sk, ex, li, gh, re, pic, _, co, ca, ua) := p in
  mk i u ph dob loc b sk ex li gh re pic v co ca ua.
Definition set_company v (p : t) : t :=
  let (i, u, ph, dob, loc, b, sk, ex, li, gh, re, pic, rec, _, ca, ua) := p in
  mk i u ph dob loc b sk ex li gh re pic rec v ca ua.
Definition set_created_at v (p : t) : t :=
  let (i, u, ph, dob, loc, b, sk, ex, li, gh, re, pic, rec, co, _, ua) := p in
  mk i u ph dob loc b sk ex li gh re pic rec co v ua.
Definition set_updated_at v (p : t) : t :=
  let (i, u, ph, dob, loc, b, sk, ex, li, gh, re, pic, rec, co, ca, _) := p in
  mk i u ph dob loc b sk ex li gh re pic rec co ca v.

(** The row of [UserProfile(user=instance)] before its first save: every
    column at the default declared in the model. *)
Definition defaults (pk user now : Z) : t :=
  mk pk user None None None None None 0 None None None None false None now now.

(** The body of the property [full_name],
    [f"{self.user.first_name} {self.user.last_name}".strip()], at the row
    [user] that [self.user] resolves to. *)
Definition full_name_of (user : User.t) : string :=
  Py.strip (User.first_name user ++ " " ++ User.last_name user).

(** [skills_list]. *)
Definition skills_list (self : t) : list string :=
  match skills self with
  | Some s =>
      if Py.truthy s then
        map Py.strip
            (filter (fun skill => Py.truthy (Py.strip skill)) (Py.split "," s))
      else []
  | None => []
  end.
End UserProfile.

(** ** The store *)

Record DB := mkDB {
  users : list User.t;
  userprofiles : list UserProfile.t;
  user_seq : Z;           (* next primary key of the identity table *)
  userprofile_seq : Z     (* next primary key of the profile table *)
}.

Definition empty_db : DB := mkDB [] [] 1 1.

(** Exceptions. *)
Inductive detail :=
| Message (msg : string)
| FieldErrors (errors : list (string * list string)).

Inductive exn :=
| ValidationError (d : detail)
| IntegrityError (constraint : string)
| DoesNotExist (what : string)
| ValueError (msg : string)
| OverflowError (msg : string).

Inductive result (A : Type) :=
| Ok (a : A)
| Raise (e : exn).
Arguments Ok {A} a.
Arguments Raise {A} e.

(** Store operations: the state survives an exception. *)
Definition M (A : Type) : Type := DB -> result A * DB.

Definition ret {A} (a : A) : M A := fun db => (Ok a, db).
Definition raise {A} (e : exn) : M A := fun db => (Raise e, db).
Definition bind {A B} (m : M A) (k : A -> M B) : M B :=
  fun db =>
    match m db with
    | (Ok a, db') => k a db'
    | (Raise e, db') => (Raise e, db')
    end.

Notation "x <- m ;; k" := (bind m (fun x => k))
  (at level 61, m at next level, right associativity).
Notation "m ;;; k" := (bind m (fun _ => k))
  (at level 61, right associativity).

Definition is_ok {A} (r : result A) : bool :=
  match r with Ok _ => true | Raise _ => false end.

(** *** Tables *)

Definition has_user_pk (pk : Z) (rows : list User.t) : bool :=
  existsb (fun u => User.id u =? pk) rows.

Definition has_profile_pk (pk : Z) (rows : list UserProfile.t) : bool :=
  existsb (fun p => UserProfile.id p =? pk) rows.

(** [User.objects.get(pk=pk)], as an option. *)
Definition get_user (pk : Z) (db : DB) : option User.t :=
  find (fun u => User.id u =? pk) (users db).

(** [UserProfile.objects.get(user_id=pk)], as an option. *)
Definition get_profile_of (pk : Z) (db : DB) : option UserProfile.t :=
  find (fun p => UserProfile.user_id p =? pk) (userprofiles db).

(** [User.objects.filter(email=value).exists()]. *)
Definition email_exists (value : string) (db : DB) : bool :=
  existsb (fun u => String.eqb (User.email u) value) (users db).

(** SQL [UPDATE ... WHERE id = pk]: the row with the key of [r] becomes [r]. *)
Definition replace_row {A} (key : A -> Z) (r : A) (rows : list A) : list A :=
  map (fun x => if key x =? key r then r else x) rows.

Definition replace_user : User.t -> list User.t -> list User.t :=
  replace_row User.id.

Definition replace_profile : UserProfile.t -> list UserProfile.t -> list UserProfile.t :=
  replace_row UserProfile.id.

(** The unique constraint on [auth_user.username], checked against the rows
    other than the one being written ([self_pk], when it has one). The
    registration serializer has no check of its own for the username: a
    taken username is refused here, by the store. *)
Definition username_taken (self_pk : option Z) (name : string) (rows : list User.t)
  : bool :=
  existsb (fun u =>
             String.eqb (User.username u) name &&
             match self_pk with
             | Some pk => negb (User.id u =? pk)
             | None => true
             end) rows.

(** The unique constraint of the one-to-one column [user_id]. *)
Definition user_id_taken (self_pk : option Z) (user : Z) (rows : list UserProfile.t)
  : bool :=
  existsb (fun p =>
             (UserProfile.user_id p =? user) &&
             match self_pk with
             | Some pk => negb (UserProfile.id p =? pk)
             | None => true
             end) rows.

(** [self.user] on a profile: the forward accessor of the one-to-one field. *)
Definition profile_user (self : UserProfile.t) : M User.t :=
  fun db =>
    match get_user (UserProfile.user_id self) db with
    | Some u => (Ok u, db)
    | None => (Raise (DoesNotExist "User"), db)
    end.

(** The property [UserProfile.full_name] read against the store. *)
Definition full_name (self : UserProfile.t) (db : DB) : result string :=
  match fst (profile_user self db) with
  | Ok u => Ok (UserProfile.full_name_of u)
  | Raise e => Raise e
  end.


(** ** The web framework *)

(** What this layer uses of the framework and its database driver:
    - [make_password] and [check_password raw encoded], the password hasher;
    - [normalize_email] and [normalize_username], which [create_user]
      applies ([BaseUserManager.normalize_email],
      [AbstractBaseUser.normalize_username]);
    - [username_validator], [email_validator], [url_validator]: whether a
      value is matched by [UnicodeUsernameValidator], [EmailValidator],
      [URLValidator];
    - [parse_date]: the date a [DateField] reads in a string, if any;
    - [integer_min] and [integer_max]: the range of an integer column
      ([connection.ops.integer_field_range]); the model's [IntegerField]
      validates against it and the driver refuses to bind a value outside
      it. The default [0] of the model is in range. *)
Class Framework := {
  make_password : string -> string;
  check_password : string -> string -> bool;
  normalize_email : string -> string;
  normalize_username : string -> string;
  username_validator : string -> bool;
  email_validator : string -> bool;
  url_validator : string -> bool;
  parse_date : string -> option date;
  integer_min : Z;
  integer_max : Z;
  integer_range_zero : integer_min <= 0 <= integer_max
}.

Section Store.
Context `{Framework}.

(** The value fits an integer column. *)
Definition integer_fits (z : Z) : bool := (integer_min <=? z) && (z <=? integer_max).

(** [Model.save()] on a profile instance at time [now]. [auto_now] stamps
    [updated_at]; the row with the instance's key is updated, or, when no row
    has that key, inserted (and [auto_now_add] stamps [created_at]). An
    [experience_years] outside the integer range is refused by the driver
    when the statement is bound, before anything is written. Returns the
    instance as it is after the save. *)
Definition UserProfile_save (now : Z) (instance : UserProfile.t) : M UserProfile.t :=
  fun db =>
    let stamped := UserProfile.set_updated_at now instance in
    if negb (integer_fits (UserProfile.experience_years instance)) then
      (Raise (OverflowError "Python int too large to convert to SQLite INTEGER"), db)
    else if has_profile_pk (UserProfile.id instance) (userprofiles db) then
      if user_id_taken (Some (UserProfile.id instance))
                       (UserProfile.user_id instance) (userprofiles db)
      then (Raise (IntegrityError "userprofile.user_id"), db)
      else (Ok stamped,
            mkDB (users db) (replace_profile stamped (userprofiles db))
                 (user_seq db) (userprofile_seq db))
    else
      let added := UserProfile.set_created_at now stamped in
      if user_id_taken None (UserProfile.user_id instance) (userprofiles db)
      then (Raise (IntegrityError "userprofile.user_id"), db)
      else (Ok added,
            mkDB (users db) (userprofiles db ++ [added])
                 (user_seq db) (userprofile_seq db)).

(** [UserProfile.objects.create(user=instance)]: a row of defaults with the
    next primary key, inserted (its [experience_years] is [0]). *)
Definition UserProfile_objects_create (now : Z) (user : Z) : M UserProfile.t :=
  fun db =>
    let row := UserProfile.defaults (userprofile_seq db) user now in
    if user_id_taken None user (userprofiles db)
    then (Raise (IntegrityError "userprofile.user_id"), db)
    else (Ok row,
          mkDB (users db) (userprofiles db ++ [row])
               (user_seq db) (userprofile_seq db + 1)).

(** *** Signal receivers of [post_save] for [User] *)

(** [instance.userprofile]: the reverse accessor; the object cached on the
    instance when there is one, a query otherwise. *)
Definition reverse_userprofile (instance : User.t) (cache : option UserProfile.t)
  : M UserProfile.t :=
  fun db =>
    match cache with
    | Some p => (Ok p, db)
    | None =>
        match get_profile_of (User.id instance) db with
        | Some p => (Ok p, db)
        | None => (Raise (DoesNotExist "User has no userprofile."), db)
        end
    end.

(** [create_user_profile]. The created profile becomes the object cached
    as [instance.userprofile]; the result is that cache. *)
Definition create_user_profile (now : Z) (instance : User.t) (created : bool)
           (cache : option UserProfile.t) : M (option UserProfile.t) :=
  if created then
    p <- UserProfile_objects_create now (User.id instance) ;;
    ret (Some p)
  else ret cache.

(** [save_user_profile]. *)
Definition save_user_profile (now : Z) (instance : User.t)
           (cache : option UserProfile.t) : M unit :=
  p <- reverse_userprofile instance cache ;;
  UserProfile_save now p ;;;
  ret tt.

(** The receivers, in the order they are connected. *)
Definition post_save_User (now : Z) (instance : User.t) (created : bool)
           (cache : option UserProfile.t) : M unit :=
  cache' <- create_user_profile now instance created cache ;;
  save_user_profile now instance cache'.

(** [Model.save()] on an identity that has a primary key: update its row (or
    insert it when no row has that key), then send [post_save]. [cache] is the
    profile object cached on the instance, if any. *)
Definition User_save (now : Z) (instance : User.t) (cache : option UserProfile.t)
  : M unit :=
  created <-
    (fun db =>
       if has_user_pk (User.id instance) (users db) then
         if username_taken (Some (User.id instance)) (User.username instance) (users db)
         then (Raise (IntegrityError "auth_user.username"), db)
         else (Ok false,
               mkDB (replace_user instance (users db)) (userprofiles db)
                    (user_seq db) (userprofile_seq db))
       else
         if username_taken None (User.username instance) (users db)
         then (Raise (IntegrityError "auth_user.username"), db)
         else (Ok true,
               mkDB (users db ++ [instance]) (userprofiles db)
                    (user_seq db) (userprofile_seq db))) ;;
  post_save_User now instance created cache.

(** [Model.save()] on a new identity (no primary key yet): insert with the next
    key, then send [post_save] with [created=True]. Returns the saved row. *)
Definition User_save_new (now : Z) (username email first_name last_name password : string)
  : M User.t :=
  instance <-
    (fun db =>
       let row := User.mk (user_seq db) username email first_name last_name
                          password true in
       if username_taken None username (users db)
       then (Raise (IntegrityError "auth_user.username"), db)
       else (Ok row,
             mkDB (users db ++ [row]) (userprofiles db)
                  (user_seq db + 1) (userprofile_seq db))) ;;
  post_save_User now instance true None ;;;
  ret instance.

(** Deleting an identity; [on_delete=models.CASCADE] deletes its profile. *)
Definition User_delete (pk : Z) : M unit :=
  fun db =>
    (Ok tt,
     mkDB (filter (fun u => negb (User.id u =? pk)) (users db))
          (filter (fun p => negb (UserProfile.user_id p =? pk)) (userprofiles db))
          (user_seq db) (userprofile_seq db)).

(** *** [django.contrib.auth] *)

(** [User.objects.create_user(username, email=None, password=None,
    **extra_fields)]: [email or ""] is normalised, the username is
    normalised, the password is hashed, and the identity is saved; the extra
    fields an absent key leaves out take the model's default, [""]. *)
Definition create_user (now : Z) (username : string) (email : option string)
           (password : string) (first_name last_name : option string) : M User.t :=
  if Py.truthy username then
    User_save_new now (normalize_username username)
                  (normalize_email (match email with Some e => e | None => "" end))
                  (match first_name with Some v => v | None => "" end)
                  (match last_name with Some v => v | None => "" end)
                  (make_password password)
  else raise (ValueError "The given username must be set").

(** [User.objects.get_by_natural_key(username)], as an option. *)
Definition get_by_natural_key (username : string) (db : DB) : option User.t :=
  find (fun u => String.eqb (User.username u) username) (users db).

(** [authenticate(username=..., password=...)] with the default
    [AUTHENTICATION_BACKENDS], that is [ModelBackend.authenticate]: the
    identity with that username, when the password checks against its
    stored credential and the identity is active
    ([user_can_authenticate]); nothing otherwise. *)
Definition authenticate (db : DB) (username password : string) : option User.t :=
  match get_by_natural_key username db with
  | Some user =>
      if check_password password (User.password user) && User.is_active user
      then Some user
      else None
  | None => None
  end.

End Store.

(** ** Serializer fields ([rest_framework.fields]) *)

Module Fields.

(** What a payload holds under a key. *)
Inductive input (A : Type) :=
| Absent
| Null
| Given (v : A).
Arguments Absent {A}.
Arguments Null {A}.
Arguments Given {A} v.

(** The outcome of [field.run_validation]: the field is skipped
    ([SkipField]: the key is absent and the field is not required), a
    validated value, or the messages of a [ValidationError]. *)
Inductive outcome (A : Type) :=
| Skip
| Valid (v : A)
| Invalid (errors : list string).
Arguments Skip {A}.
Arguments Valid {A} v.
Arguments Invalid {A} errors.

(** The entry of the validated dictionary a field leaves, if any. *)
Definition value_of {A} (o : outcome A) : option A :=
  match o with
  | Valid v => Some v
  | _ => None
  end.

(** The entry of the error dictionary a field leaves, if any. *)
Definition errors_of {A} (name : string) (o : outcome A) : list (string * list string) :=
  match o with
  | Invalid errors => [(name, errors)]
  | _ => []
  end.

Definition map_outcome {A B} (f : A -> B) (o : outcome A) : outcome B :=
  match o with
  | Skip => Skip
  | Valid v => Valid (f v)
  | Invalid errors => Invalid errors
  end.

(** A validator: the message it raises on a value, if any. *)
Definition validator := string -> option string.

Definition nat_text (n : nat) : string := NilZero.string_of_uint (Nat.to_uint n).
Definition int_text (z : Z) : string := NilZero.string_of_int (Z.to_int z).

Definition MaxLengthValidator (n : nat) : validator :=
  fun value =>
    if Nat.ltb n (String.length value)
    then Some ("Ensure this field has no more than " ++ nat_text n ++ " characters.")
    else None.

Definition MinLengthValidator (n : nat) : validator :=
  fun value =>
    if Nat.ltb (String.length value) n
    then Some ("Ensure this field has at least " ++ nat_text n ++ " characters.")
    else None.

Definition ProhibitNullCharactersValidator : validator :=
  fun value =>
    if Py.contains_char zero value
    then Some "Null characters are not allowed."
    else None.

(** A validator that refuses what [matches] does not accept. *)
Definition RegexValidator (matches : string -> bool) (message : string) : validator :=
  fun value => if matches value then None else Some message.

(** A [CharField] ([trim_whitespace] at its default, [True]; no
    [allow_null]): [validators] is the keyword argument, [last_validators]
    what a subclass appends ([EmailField], [URLField]). *)
Record CharField := mkCharField {
  required : bool;
  allow_blank : bool;
  validators : list validator;
  max_length : option nat;
  min_length : option nat;
  last_validators : list validator
}.

(** [self.validators], in the order [__init__] builds it. No code point
    below 256 is a surrogate: [ProhibitSurrogateCharactersValidator] is left
    out. *)
Definition field_validators (f : CharField) : list validator :=
  (validators f
   ++ match max_length f with Some n => [MaxLengthValidator n] | None => [] end
   ++ match min_length f with Some n => [MinLengthValidator n] | None => [] end
   ++ [ProhibitNullCharactersValidator]
   ++ last_validators f)%list.

(** [Field.run_validators]: every validator runs, the messages are
    collected. *)
Definition run_validators (vs : list validator) (value : string) : list string :=
  flat_map (fun v => match v value with Some m => [m] | None => [] end) vs.

(** [data == '' or str(data).strip() == '']. *)
Definition is_blank (data : string) : bool :=
  String.eqb data "" || String.eqb (Py.strip data) "".

(** [CharField.run_validation]. *)
Definition run_validation (f : CharField) (data : input string) : outcome string :=
  match data with
  | Absent => if required f then Invalid ["This field is required."] else Skip
  | Null => Invalid ["This field may not be null."]
  | Given data =>
      if is_blank data then
        if allow_blank f then Valid "" else Invalid ["This field may not be blank."]
      else
        match run_validators (field_validators f) (Py.strip data) with
        | [] => Valid (Py.strip data)
        | errors => Invalid errors
        end
  end.

(** The same with [allow_null=True]: [null] is validated to [None]. *)
Definition run_validation_nullable (f : CharField) (data : input string)
  : outcome (option string) :=
  match data with
  | Null => Valid None
  | _ => map_outcome Some (run_validation f data)
  end.

Definition MaxValueValidator (max : Z) (z : Z) : option string :=
  if max <? z
  then Some ("Ensure this value is less than or equal to " ++ int_text max ++ ".")
  else None.

Definition MinValueValidator (min : Z) (z : Z) : option string :=
  if z <? min
  then Some ("Ensure this value is greater than or equal to " ++ int_text min ++ ".")
  else None.

(** [IntegerField(required=False, min_value=min, max_value=max)] on a JSON
    integer. *)
Definition IntegerField_run_validation (min max : Z) (data : input Z) : outcome Z :=
  match data with
  | Absent => Skip
  | Null => Invalid ["This field may not be null."]
  | Given z =>
      match flat_map (fun v : Z -> option string =>
                        match v z with Some m => [m] | None => [] end)
                     [MaxValueValidator max; MinValueValidator min] with
      | [] => Valid z
      | errors => Invalid errors
      end
  end.

(** [BooleanField(required=False)] on a JSON boolean. *)
Definition BooleanField_run_validation (data : input bool) : outcome bool :=
  match data with
  | Absent => Skip
  | Null => Invalid ["This field may not be null."]
  | Given b => Valid b
  end.

(** [DateField(required=False, allow_null=True)] on a JSON string, read by
    [parse]. *)
Definition DateField_run_validation (parse : string -> option date)
           (data : input string) : outcome (option date) :=
  match data with
  | Absent => Skip
  | Null => Valid None
  | Given s =>
      match parse s with
      | Some d => Valid (Some d)
      | None =>
          Invalid ["Date has wrong format. Use one of these formats instead: YYYY-MM-DD."]
      end
  end.

(** A method [validate_<field>] of the serializer, run on the validated
    value of its field. *)
Definition validate_method {A} (method : A -> option string) (o : outcome A)
  : outcome A :=
  match o with
  | Valid v =>
      match method v with
      | Some m => Invalid [m]
      | None => Valid v
      end
  | _ => o
  end.

End Fields.

(** ** [UserRegistrationSerializer] *)

Module UserRegistrationSerializer.

(** The request payload: the six declared fields ([Meta.fields]). *)
Record data := mk {
  username : Fields.input string;
  email : Fields.input string;
  first_name : Fields.input string;
  last_name : Fields.input string;
  password : Fields.input string;
  password_confirm : Fields.input string
}.

(** The validated dictionary [attrs]: [username], [password] and
    [password_confirm] are required; the key of an optional field is there
    when the payload had it. *)
Record validated := mkvalidated {
  v_username : string;
  v_email : option string;
  v_first_name : option string;
  v_last_name : option string;
  v_password : string;
  v_password_confirm : string
}.

(** [password = CharField(write_only=True, min_length=8)]. *)
Definition password_min_length : nat := 8.

Definition validate (attrs : validated) : result validated :=
  if negb (String.eqb (v_password attrs) (v_password_confirm attrs)) then
    Raise (ValidationError (Message "Passwords don't match"))
  else Ok attrs.

Definition validate_email (value : string) (db : DB) : result string :=
  if email_exists value db then
    Raise (ValidationError (Message "A user with this email already exists."))
  else Ok value.

(** The message of a [validate_<field>] method, if it raises one. *)
Definition raised {A} (r : result A) : option string :=
  match r with
  | Raise (ValidationError (Message m)) => Some m
  | _ => None
  end.

Section Validation.
Context `{Framework}.

(** [UniqueValidator(queryset=User.objects.all())] on [username]. *)
Definition UniqueValidator (db : DB) : Fields.validator :=
  fun value =>
    if existsb (fun u => String.eqb (User.username u) value) (users db)
    then Some "A user with that username already exists."
    else None.

(** The fields the [ModelSerializer] generates from [User]. *)
Definition username_field (db : DB) : Fields.CharField :=
  Fields.mkCharField true false
    [Fields.RegexValidator username_validator
       "Enter a valid username. This value may contain only letters, numbers, and @/./+/-/_ characters.";
     UniqueValidator db]
    (Some 150%nat) None [].

Definition email_field : Fields.CharField :=
  Fields.mkCharField false true [] (Some 254%nat) None
    [Fields.RegexValidator email_validator "Enter a valid email address."].

Definition first_name_field : Fields.CharField :=
  Fields.mkCharField false true [] (Some 150%nat) None [].

Definition last_name_field : Fields.CharField :=
  Fields.mkCharField false true [] (Some 150%nat) None [].

(** The declared fields. *)
Definition password_field : Fields.CharField :=
  Fields.mkCharField true false [] None (Some password_min_length) [].

Definition password_confirm_field : Fields.CharField :=
  Fields.mkCharField true false [] None None [].

(** Field-level validation: every field is run, in the order of
    [Meta.fields], [validate_email] on the validated value of [email], and
    the errors of all fields are raised together. *)
Definition to_internal_value (d : data) (db : DB) : result validated :=
  let o_username := Fields.run_validation (username_field db) (username d) in
  let o_email :=
    Fields.validate_method (fun value => raised (validate_email value db))
                           (Fields.run_validation email_field (email d)) in
  let o_first_name := Fields.run_validation first_name_field (first_name d) in
  let o_last_name := Fields.run_validation last_name_field (last_name d) in
  let o_password := Fields.run_validation password_field (password d) in
  let o_password_confirm :=
    Fields.run_validation password_confirm_field (password_confirm d) in
  match (Fields.errors_of "username" o_username
         ++ Fields.errors_of "email" o_email
         ++ Fields.errors_of "first_name" o_first_name
         ++ Fields.errors_of "last_name" o_last_name
         ++ Fields.errors_of "password" o_password
         ++ Fields.errors_of "password_confirm" o_password_confirm)%list with
  | [] =>
      match o_username, o_password, o_password_confirm with
      | Fields.Valid u, Fields.Valid p, Fields.Valid c =>
          Ok (mkvalidated u (Fields.value_of o_email)
                          (Fields.value_of o_first_name)
                          (Fields.value_of o_last_name) p c)
      | _, _, _ =>
          (* not reached: a required field is valid or in error *)
          Raise (ValidationError (FieldErrors []))
      end
  | errors => Raise (ValidationError (FieldErrors errors))
  end.

(** [run_validation] (what [is_valid()] runs): field-level validation, and
    only when it passes, the object-level [validate], whose error is
    reported under [non_field_errors]. *)
Definition run_validation (d : data) (db : DB) : result validated :=
  match to_internal_value d db with
  | Raise e => Raise e
  | Ok value =>
      match validate value with
      | Raise (ValidationError (Message m)) =>
          Raise (ValidationError (FieldErrors [("non_field_errors", [m])]))
      | r => r
      end
  end.

(** [create]: [password_confirm] is popped, the rest are the keyword
    arguments of [create_user]. *)
Definition create (now : Z) (validated_data : validated) : M User.t :=
  create_user now (v_username validated_data) (v_email validated_data)
              (v_password validated_data)
              (v_first_name validated_data) (v_last_name validated_data).

End Validation.
End UserRegistrationSerializer.

(** Modelled from the spec: the handler of [auth/register]; [views.register]
    is not among the sources. Section 4.6: the request goes through the
    registration validator; its errors are the response of a failure, and on
    success the identity is created. *)
Definition register `{Framework} (now : Z)
           (payload : UserRegistrationSerializer.data) : M User.t :=
  fun db =>
    match UserRegistrationSerializer.run_validation payload db with
    | Raise e => (Raise e, db)
    | Ok validated_data => UserRegistrationSerializer.create now validated_data db
    end.

(** ** [UserLoginSerializer] *)

Module UserLoginSerializer.

(** The dictionary [attrs]: a key that is absent reads as [None]. *)
Record data := mk {
  username : option string;
  password : option string;
  user : option User.t
}.

Section Validate.
Context `{Framework}.

(** [validate]. [attrs.get(...)] of an absent key and the empty string are
    both falsy; on success the identity is stored under the key [user]. *)
Definition validate (attrs : data) (db : DB) : result data :=
  match username attrs, password attrs with
  | Some username, Some password =>
      if Py.truthy username && Py.truthy password then
        match authenticate db username password with
        | None => Raise (ValidationError (Message "Invalid credentials"))
        | Some user =>
            if negb (User.is_active user) then
              Raise (ValidationError (Message "User account is disabled"))
            else Ok (mk (Some username) (Some password) (Some user))
        end
      else Raise (ValidationError (Message "Must include username and password"))
  | _, _ => Raise (ValidationError (Message "Must include username and password"))
  end.

End Validate.
End UserLoginSerializer.

(** ** [UserProfileUpdateSerializer] *)

Module UserProfileUpdateSerializer.

(** The twelve declared fields ([Meta.fields]), in their order. *)
Inductive field :=
| f_first_name | f_last_name | f_phone_number | f_date_of_birth | f_location
| f_bio | f_skills | f_experience_years | f_linkedin_url | f_github_url
| f_is_recruiter | f_company.

(** An entry [attr: value] of the nested dictionary under the key [user]
    (the fields declared with [source='user.<attr>']). *)
Inductive user_attr :=
| first_name (v : string)
| last_name (v : string).

(** An entry [attr: value] for a column of the profile, the value having
    the type of the column. *)
Inductive profile_attr :=
| phone_number (v : option string)
| date_of_birth (v : option date)
| location (v : option string)
| bio (v : option string)
| skills (v : option string)
| experience_years (v : Z)
| linkedin_url (v : option string)
| github_url (v : option string)
| is_recruiter (v : bool)
| company (v : option string).

(** [validated_data]: the key [user], when present, holds the nested
    dictionary; [attrs] are the other entries, in order. *)
Record validated := mk {
  user : option (list user_attr);
  attrs : list profile_attr
}.

(** [setattr(instance.user, attr, value)]. *)
Definition setattr_user (instance : User.t) (item : user_attr) : User.t :=
  match item with
  | first_name v => User.set_first_name v instance
  | last_name v => User.set_last_name v instance
  end.

(** [setattr(instance, attr, value)]. *)
Definition setattr (instance : UserProfile.t) (item : profile_attr)
  : UserProfile.t :=
  match item with
  | phone_number v => UserProfile.set_phone_number v instance
  | date_of_birth v => UserProfile.set_date_of_birth v instance
  | location v => UserProfile.set_location v instance
  | bio v => UserProfile.set_bio v instance
  | skills v => UserProfile.set_skills v instance
  | experience_years v => UserProfile.set_experience_years v instance
  | linkedin_url v => UserProfile.set_linkedin_url v instance
  | github_url v => UserProfile.set_github_url v instance
  | is_recruiter v => UserProfile.set_is_recruiter v instance
  | company v => UserProfile.set_company v instance
  end.

(** The value of [validated_data.pop('user', {})]; what is left of
    [validated_data] after it is [attrs]. *)
Definition pop_user (validated_data : validated) : list user_attr :=
  match user validated_data with
  | Some d => d
  | None => []
  end.

(** The request payload of [PUT profile/]: the twelve declared fields; a
    date is given as text. *)
Record request := mkrequest {
  r_first_name : Fields.input string;
  r_last_name : Fields.input string;
  r_phone_number : Fields.input string;
  r_date_of_birth : Fields.input string;
  r_location : Fields.input string;
  r_bio : Fields.input string;
  r_skills : Fields.input string;
  r_experience_years : Fields.input Z;
  r_linkedin_url : Fields.input string;
  r_github_url : Fields.input string;
  r_is_recruiter : Fields.input bool;
  r_company : Fields.input string
}.

Definition entry {A B} (key : A -> B) (given : option A) : list B :=
  match given with
  | Some v => [key v]
  | None => []
  end.

(** The declared fields: [CharField(source='user.first_name',
    required=False)] and its sibling take no option from the model. *)
Definition first_name_field : Fields.CharField :=
  Fields.mkCharField false false [] None None [].

Definition last_name_field : Fields.CharField :=
  Fields.mkCharField false false [] None None [].

(** The fields the [ModelSerializer] generates from [UserProfile]: text
    columns are optional, nullable, may be blank, and keep the [max_length]
    of the model. *)
Definition phone_number_field : Fields.CharField :=
  Fields.mkCharField false true [] (Some 15%nat) None [].

Definition location_field : Fields.CharField :=
  Fields.mkCharField false true [] (Some 100%nat) None [].

Definition bio_field : Fields.CharField :=
  Fields.mkCharField false true [] (Some 500%nat) None [].

Definition skills_field : Fields.CharField :=
  Fields.mkCharField false true [] None None [].

Definition company_field : Fields.CharField :=
  Fields.mkCharField false true [] (Some 100%nat) None [].

Section Serializer.
Context `{Framework}.

(** [URLField]: [max_length] is the model's default, 200. *)
Definition url_field : Fields.CharField :=
  Fields.mkCharField false true [] (Some 200%nat) None
    [Fields.RegexValidator url_validator "Enter a valid URL."].

(** [to_internal_value]: the declared fields are run in order, the errors
    of all of them are raised together; otherwise the validated value of
    each key that is present is stored under the field's [source]:
    [user.first_name] and [user.last_name] inside the dictionary [user]
    (created when the first of them is stored), the others at top level. *)
Definition to_internal_value (r : request) : result validated :=
  let o_first_name := Fields.run_validation first_name_field (r_first_name r) in
  let o_last_name := Fields.run_validation last_name_field (r_last_name r) in
  let o_phone_number :=
    Fields.run_validation_nullable phone_number_field (r_phone_number r) in
  let o_date_of_birth :=
    Fields.DateField_run_validation parse_date (r_date_of_birth r) in
  let o_location := Fields.run_validation_nullable location_field (r_location r) in
  let o_bio := Fields.run_validation_nullable bio_field (r_bio r) in
  let o_skills := Fields.run_validation_nullable skills_field (r_skills r) in
  let o_experience_years :=
    Fields.IntegerField_run_validation integer_min integer_max
                                       (r_experience_years r) in
  let o_linkedin_url := Fields.run_validation_nullable url_field (r_linkedin_url r) in
  let o_github_url := Fields.run_validation_nullable url_field (r_github_url r) in
  let o_is_recruiter := Fields.BooleanField_run_validation (r_is_recruiter r) in
  let o_company := Fields.run_validation_nullable company_field (r_company r) in
  match (Fields.errors_of "first_name" o_first_name
         ++ Fields.errors_of "last_name" o_last_name
         ++ Fields.errors_of "phone_number" o_phone_number
         ++ Fields.errors_of "date_of_birth" o_date_of_birth
         ++ Fields.errors_of "location" o_location
         ++ Fields.errors_of "bio" o_bio
         ++ Fields.errors_of "skills" o_skills
         ++ Fields.errors_of "experience_years" o_experience_years
         ++ Fields.errors_of "linkedin_url" o_linkedin_url
         ++ Fields.errors_of "github_url" o_github_url
         ++ Fields.errors_of "is_recruiter" o_is_recruiter
         ++ Fields.errors_of "company" o_company)%list with
  | [] =>
      Ok (mk (match (entry first_name (Fields.value_of o_first_name)
                     ++ entry last_name (Fields.value_of o_last_name))%list with
              | [] => None
              | d => Some d
              end)
             (entry phone_number (Fields.value_of o_phone_number)
              ++ entry date_of_birth (Fields.value_of o_date_of_birth)
              ++ entry location (Fields.value_of o_location)
              ++ entry bio (Fields.value_of o_bio)
              ++ entry skills (Fields.value_of o_skills)
              ++ entry experience_years (Fields.value_of o_experience_years)
              ++ entry linkedin_url (Fields.value_of o_linkedin_url)
              ++ entry github_url (Fields.value_of o_github_url)
              ++ entry is_recruiter (Fields.value_of o_is_recruiter)
              ++ entry company (Fields.value_of o_company))%list)
  | errors => Raise (ValidationError (FieldErrors errors))
  end.

(** [update]. [instance.user] is resolved (only) inside the first branch;
    the profile object cached on that identity is [instance] itself, so the
    hook of [instance.user.save()] saves [instance] as it is at that point;
    the stamp this leaves on [updated_at] is overwritten by the final save. *)
Definition update (now : Z) (instance : UserProfile.t)
           (validated_data : validated) : M UserProfile.t :=
  (* Update User fields *)
  let user_data := pop_user validated_data in
  match user_data with
  | _ :: _ =>
      instance_user <- profile_user instance ;;
      User_save now (fold_left setattr_user user_data instance_user)
                (Some instance)
  | [] => ret tt
  end ;;;
  (* Update UserProfile fields *)
  UserProfile_save now (fold_left setattr (attrs validated_data) instance).

End Serializer.

(** *** Reading a field by name, to state properties field by field *)

Inductive value :=
| v_str (s : string)
| v_opt_str (o : option string)
| v_opt_date (o : option date)
| v_int (z : Z)
| v_bool (b : bool).

(** The stored value of a field, on the identity row [u] and the profile
    row [p]. *)
Definition stored (u : User.t) (p : UserProfile.t) (f : field) : value :=
  match f with
  | f_first_name => v_str (User.first_name u)
  | f_last_name => v_str (User.last_name u)
  | f_phone_number => v_opt_str (UserProfile.phone_number p)
  | f_date_of_birth => v_opt_date (UserProfile.date_of_birth p)
  | f_location => v_opt_str (UserProfile.location p)
  | f_bio => v_opt_str (UserProfile.bio p)
  | f_skills => v_opt_str (UserProfile.skills p)
  | f_experience_years => v_int (UserProfile.experience_years p)
  | f_linkedin_url => v_opt_str (UserProfile.linkedin_url p)
  | f_github_url => v_opt_str (UserProfile.github_url p)
  | f_is_recruiter => v_bool (UserProfile.is_recruiter p)
  | f_company => v_opt_str (UserProfile.company p)
  end.

End UserProfileUpdateSerializer.

(** Modelled from the spec: the handler of [PUT profile/]; [views] is not
    among the sources. Sections 4.5 and 5: the request goes through the
    update validator; its errors are the response of a failure (400), and on
    success the profile is updated. *)
Definition update_profile `{Framework} (now : Z) (instance : UserProfile.t)
           (r : UserProfileUpdateSerializer.request) : M UserProfile.t :=
  fun db =>
    match UserProfileUpdateSerializer.to_internal_value r with
    | Raise e => (Raise e, db)
    | Ok validated_data =>
        UserProfileUpdateSerializer.update now instance validated_data db
    end.

(** ** An instance of the framework interface

    Used to run the model on examples. It follows the framework on ASCII
    text in the plain forms the examples use:
    - a stored credential is the password behind a fixed prefix (the
      framework's hashes are salted; only [check_password] reads them);
    - [normalize_email] lowercases what follows the last [@] of the
      trimmed address, and leaves an address without [@] as it is;
    - [normalize_username] (NFKC) is the identity, as it is on ASCII;
    - a username is one or more word characters or [.@+-];
    - an email address is a dot-atom, [@], and a host name with a top-level
      label or [localhost] (quoted local parts, address literals and
      internationalised domains are not recognised);
    - a URL is a scheme among [http], [https], [ftp], [ftps], [://], and
      such a host name, then anything without whitespace (user
      information, ports and address literals are not recognised);
    - a date is [YYYY-MM-DD], a day of the proleptic Gregorian calendar;
    - an integer column holds 64 bits, signed. *)

Fixpoint all_chars (f : ascii -> bool) (s : string) : bool :=
  match s with
  | EmptyString => true
  | String c s' => f c && all_chars f s'
  end.

Definition between (lo hi : N) (c : ascii) : bool :=
  ((lo <=? N_of_ascii c) && (N_of_ascii c <=? hi))%N.

Definition is_digit (c : ascii) : bool := between 48 57 c.

Definition is_ascii_alnum (c : ascii) : bool :=
  is_digit c || between 65 90 c || between 97 122 c.

(** [\w] on a code point below 256. *)
Definition is_word (c : ascii) : bool :=
  is_ascii_alnum c || Ascii.eqb c "_"
  || existsb (N.eqb (N_of_ascii c)) [170; 178; 179; 181; 185; 186; 188; 189; 190]%N
  || between 192 214 c || between 216 246 c || between 248 255 c.

(** [str.lower] on a code point below 256. *)
Definition lower_char (c : ascii) : ascii :=
  if between 65 90 c || between 192 214 c || between 216 222 c
  then ascii_of_N (N_of_ascii c + 32)
  else c.

Fixpoint lower (s : string) : string :=
  match s with
  | EmptyString => EmptyString
  | String c s' => String (lower_char c) (lower s')
  end.

(** [s.rsplit(sep, 1)] when [sep] occurs in [s]: what is before and after
    its last occurrence. *)
Fixpoint rsplit1 (sep : ascii) (s : string) : option (string * string) :=
  match s with
  | EmptyString => None
  | String c s' =>
      match rsplit1 sep s' with
      | Some (before, after) => Some (String c before, after)
      | None => if Ascii.eqb c sep then Some (EmptyString, s') else None
      end
  end.

(** [s.partition(sep)] when [sep] occurs in [s]: what is before and after
    its first occurrence. *)
Fixpoint partition1 (sep : ascii) (s : string) : option (string * string) :=
  match s with
  | EmptyString => None
  | String c s' =>
      if Ascii.eqb c sep then Some (EmptyString, s')
      else match partition1 sep s' with
           | Some (before, after) => Some (String c before, after)
           | None => None
           end
  end.

Definition example_normalize_email (email : string) : string :=
  match rsplit1 "@" (Py.strip email) with
  | Some (email_name, domain_part) => email_name ++ "@" ++ lower domain_part
  | None => email
  end.

Definition example_username_validator (value : string) : bool :=
  Py.truthy value
  && all_chars (fun c => is_word c || Py.contains_char c ".@+-") value.

Definition is_atext (c : ascii) : bool :=
  is_ascii_alnum c || Py.contains_char c "-!#$%&'*+/=?^_`{}|~".

Definition is_host_char (c : ascii) : bool := is_ascii_alnum c || Ascii.eqb c "-".

Definition ends_alnum (s : string) : bool :=
  match Py.last_char s with
  | Some c => is_ascii_alnum c
  | None => false
  end.

Definition starts_alnum (s : string) : bool :=
  match Py.head_char s with
  | Some c => is_ascii_alnum c
  | None => false
  end.

Definition label_ok (l : string) : bool :=
  Nat.leb (String.length l) 63 && starts_alnum l && ends_alnum l
  && all_chars is_host_char l.

Definition tld_ok (l : string) : bool :=
  Nat.leb 2 (String.length l) && Nat.leb (String.length l) 63
  && all_chars is_host_char l
  && negb (match Py.last_char l with Some c => Ascii.eqb c "-" | None => false end).

Definition host_ok (h : string) : bool :=
  String.eqb h "localhost"
  || match rev (Py.split "." h) with
     | tld :: (_ :: _) as labels => tld_ok tld && forallb label_ok labels
     | _ => false
     end.

Definition example_email_validator (value : string) : bool :=
  Nat.leb (String.length value) 320
  && match rsplit1 "@" value with
     | Some (user_part, domain_part) =>
         forallb (fun atom => Py.truthy atom && all_chars is_atext atom)
                 (Py.split "." user_part)
         && host_ok domain_part
     | None => false
     end.

(** What is before the first of the characters [/], [?], [#] of [s]. *)
Fixpoint authority (s : string) : string :=
  match s with
  | EmptyString => EmptyString
  | String c s' =>
      if Py.contains_char c "/?#" then EmptyString else String c (authority s')
  end.

Definition example_url_validator (value : string) : bool :=
  match partition1 ":" value with
  | Some (scheme, String "/" (String "/" rest)) =>
      existsb (String.eqb (lower scheme)) ["http"; "https"; "ftp"; "ftps"]
      && host_ok (authority rest)
      && all_chars (fun c => negb (Py.isspace c)) value
  | _ => false
  end.

Fixpoint digits_value (acc : Z) (s : string) : option Z :=
  match s with
  | EmptyString => Some acc
  | String c s' =>
      if is_digit c
      then digits_value (10 * acc + Z.of_N (N_of_ascii c) - 48) s'
      else None
  end.

Definition is_leap (y : Z) : bool :=
  ((y mod 4 =? 0) && negb (y mod 100 =? 0)) || (y mod 400 =? 0).

Definition days_in_month (y m : Z) : Z :=
  if m =? 2 then (if is_leap y then 29 else 28)
  else if (m =? 4) || (m =? 6) || (m =? 9) || (m =? 11) then 30
  else 31.

Definition example_parse_date (value : string) : option date :=
  match Py.split "-" value with
  | [y; m; d] =>
      if Nat.eqb (String.length y) 4 && Nat.eqb (String.length m) 2
         && Nat.eqb (String.length d) 2
      then
        match digits_value 0 y, digits_value 0 m, digits_value 0 d with
        | Some y, Some m, Some d =>
            if (1 <=? y) && (1 <=? m) && (m <=? 12)
               && (1 <=? d) && (d <=? days_in_month y m)
            then Some (mkdate y m d)
            else None
        | _, _, _ => None
        end
      else None
  | _ => None
  end.

#[local] Instance example_framework : Framework := {
  make_password := fun raw => "hashed$" ++ raw;
  check_password := fun raw encoded => String.eqb encoded ("hashed$" ++ raw);
  normalize_email := example_normalize_email;
  normalize_username := fun u => u;
  username_validator := example_username_validator;
  email_validator := example_email_validator;
  url_validator := example_url_validator;
  parse_date := example_parse_date;
  integer_min := -9223372036854775808;
  integer_max := 9223372036854775807;
  integer_range_zero := ltac:(lia)
}.

(** ** Reachable states of the store *)

Section Reachability.
Context `{Framework}.

(** One operation of the layer on the store: a registration request, a
    profile update through the serializer on a stored profile, a save of a
    stored identity, the deletion of an identity. *)
Inductive step : DB -> DB -> Prop :=
| step_register (now : Z) (payload : UserRegistrationSerializer.data) (db : DB) :
    step db (snd (register now payload db))
| step_update (now : Z) (instance : UserProfile.t)
              (validated_data : UserProfileUpdateSerializer.validated) (db : DB) :
    In instance (userprofiles db) ->
    step db (snd (UserProfileUpdateSerializer.update now instance validated_data db))
| step_save (now : Z) (instance : User.t) (db : DB) :
    has_user_pk (User.id instance) (users db) = true ->
    step db (snd (User_save now instance None db))
| step_delete (pk : Z) (db : DB) :
    step db (snd (User_delete pk db)).

Inductive reachable : DB -> Prop :=
| reachable_empty : reachable empty_db
| reachable_step (db db' : DB) : reachable db -> step db db' -> reachable db'.

(** The store invariant: primary keys and usernames are unique, the profile
    table has, row for row, one profile per identity, the sequences are
    ahead of the keys in use, and every stored [experience_years] fits its
    column. *)
Record consistent (db : DB) : Prop := {
  user_pks_nodup : NoDup (map User.id (users db));
  usernames_nodup : NoDup (map User.username (users db));
  profiles_match :
    map UserProfile.user_id (userprofiles db) = map User.id (users db);
  profile_pks_nodup : NoDup (map UserProfile.id (userprofiles db));
  user_pks_below :
    Forall (fun pk => pk < user_seq db) (map User.id (users db));
  profile_pks_below :
    Forall (fun pk => pk < userprofile_seq db)
           (map UserProfile.id (userprofiles db));
  profiles_fit :
    Forall (fun p => integer_fits (UserProfile.experience_years p) = true)
           (userprofiles db)
}.

End Reachability.

(** Number of profile rows that belong to the identity [pk]. *)
Definition profile_count (pk : Z) (db : DB) : nat :=
  List.length (filter (fun p => UserProfile.user_id p =? pk) (userprofiles db)).

(** ** Other members of the model and the read serializer *)

(** [UserProfile.__str__]: [f"{self.user.username}'s Profile"]. *)
Definition __str__ (self : UserProfile.t) (db : DB) : result string :=
  match fst (profile_user self db) with
  | Ok u => Ok (User.username u ++ "'s Profile")
  | Raise e => Raise e
  end.

(** [UserProfileSerializer]: the read view. Each declared field reads its
    [source] on the instance: the five identity fields through
    [instance.user], [full_name] and [skills_list] through the properties of
    the model, the others on the profile row. Dates and timestamps are kept
    as values (their rendering as text is left out). *)
Module UserProfileSerializer.

(** The nineteen declared fields ([Meta.fields]), in their order. *)
Record data := mk {
  user_id : Z;
  username : string;
  email : string;
  first_name : string;
  last_name : string;
  full_name : string;
  phone_number : option string;
  date_of_birth : option date;
  location : option string;
  bio : option string;
  skills : option string;
  skills_list : list string;
  experience_years : Z;
  linkedin_url : option string;
  github_url : option string;
  is_recruiter : bool;
  company : option string;
  created_at : Z;
  updated_at : Z
}.

Definition to_representation (instance : UserProfile.t) (db : DB) : result data :=
  match fst (profile_user instance db) with
  | Ok user =>
      Ok (mk (User.id user) (User.username user) (User.email user)
             (User.first_name user) (User.last_name user)
             (UserProfile.full_name_of user)
             (UserProfile.phone_number instance)
             (UserProfile.date_of_birth instance)
             (UserProfile.location instance)
             (UserProfile.bio instance)
             (UserProfile.skills instance)
             (UserProfile.skills_list instance)
             (UserProfile.experience_years instance)
             (UserProfile.linkedin_url instance)
             (UserProfile.github_url instance)
             (UserProfile.is_recruiter instance)
             (UserProfile.company instance)
             (UserProfile.created_at instance)
             (UserProfile.updated_at instance))
  | Raise e => Raise e
  end.

(** The value the view shows for a field of the update serializer. *)
Definition viewed (v : data) (f : UserProfileUpdateSerializer.field)
  : UserProfileUpdateSerializer.value :=
  match f with
  | UserProfileUpdateSerializer.f_first_name =>
      UserProfileUpdateSerializer.v_str (first_name v)
  | UserProfileUpdateSerializer.f_last_name =>
      UserProfileUpdateSerializer.v_str (last_name v)
  | UserProfileUpdateSerializer.f_phone_number =>
      UserProfileUpdateSerializer.v_opt_str (phone_number v)
  | UserProfileUpdateSerializer.f_date_of_birth =>
      UserProfileUpdateSerializer.v_opt_date (date_of_birth v)
  | UserProfileUpdateSerializer.f_location =>
      UserProfileUpdateSerializer.v_opt_str (location v)
  | UserProfileUpdateSerializer.f_bio =>
      UserProfileUpdateSerializer.v_opt_str (bio v)
  | UserProfileUpdateSerializer.f_skills =>
      UserProfileUpdateSerializer.v_opt_str (skills v)
  | UserProfileUpdateSerializer.f_experience_years =>
      UserProfileUpdateSerializer.v_int (experience_years v)
  | UserProfileUpdateSerializer.f_linkedin_url =>
      UserProfileUpdateSerializer.v_opt_str (linkedin_url v)
  | UserProfileUpdateSerializer.f_github_url =>
      UserProfileUpdateSerializer.v_opt_str (github_url v)
  | UserProfileUpdateSerializer.f_is_recruiter =>
      UserProfileUpdateSerializer.v_bool (is_recruiter v)
  | UserProfileUpdateSerializer.f_company =>
      UserProfileUpdateSerializer.v_opt_str (company v)
  end.

End UserProfileSerializer.


(** An identity that has no profile row (a store the hooks never produce). *)
Definition orphan_identity_db : DB :=
  mkDB [User.mk 1 "jane" "jane@example.org" "Jane" "Doe" "hashed$secret-pw" true]
       [] 2 1.

(** An entry as [skills_list] returns them: not empty, no whitespace at
    either end, no comma. *)
Definition clean_tag (e : string) : Prop :=
  e <> "" /\ Py.trimmed e /\ Py.contains_char "," e = false.

(** The identity that [bob_payload] registers on [jane_db]. *)
Definition bob : User.t :=
  User.mk 2 "bob" "bob@example.org" "Bob" "Burns" "hashed$correct-horse" true.

(** ** Definitions in the words of the specification *)

(** A [serializers.CharField] parses its input with the default
    [trim_whitespace=True]: what is stored is the input trimmed. *)
Definition CharField_to_internal_value (data : string) : string := Py.strip data.

(** The skills list as the specification words it: split on commas, trim
    each entry, drop the empty entries. *)
Definition skills_list_spec (s : string) : list string :=
  filter (fun entry => negb (String.eqb entry ""))
         (map Py.strip (Py.split "," s)).

(** The value given for a key, or the stored one when the key is absent. *)
Definition given_or {A} (given : option A) (stored : A) : A :=
  match given with
  | Some v => v
  | None => stored
  end.

(** What a request sets a column to, when its key is present: a name to the
    text trimmed; a nullable text column to nothing on [null], to the text
    trimmed otherwise; a number or a flag to the value given. *)
Definition parsed_name (i : Fields.input string) : option string :=
  match i with
  | Fields.Given s => Some (Py.strip s)
  | _ => None
  end.

Definition parsed_text (i : Fields.input string) : option (option string) :=
  match i with
  | Fields.Absent => None
  | Fields.Null => Some None
  | Fields.Given s => Some (Some (Py.strip s))
  end.

Definition parsed_value {A} (i : Fields.input A) : option A :=
  match i with
  | Fields.Given v => Some v
  | _ => None
  end.

Section Requests.
Context `{Framework}.

(** A date column is set to the date read in the text. *)
Definition parsed_date (i : Fields.input string) : option (option date) :=
  match i with
  | Fields.Absent => None
  | Fields.Null => Some None
  | Fields.Given s => Some (parse_date s)
  end.

(** The value a request sets a field to, if its key is present. *)
Definition requested (r : UserProfileUpdateSerializer.request)
           (f : UserProfileUpdateSerializer.field)
  : option UserProfileUpdateSerializer.value :=
  match f with
  | UserProfileUpdateSerializer.f_first_name =>
      option_map UserProfileUpdateSerializer.v_str
                 (parsed_name (UserProfileUpdateSerializer.r_first_name r))
  | UserProfileUpdateSerializer.f_last_name =>
      option_map UserProfileUpdateSerializer.v_str
                 (parsed_name (UserProfileUpdateSerializer.r_last_name r))
  | UserProfileUpdateSerializer.f_phone_number =>
      option_map UserProfileUpdateSerializer.v_opt_str
                 (parsed_text (UserProfileUpdateSerializer.r_phone_number r))
  | UserProfileUpdateSerializer.f_date_of_birth =>
      option_map UserProfileUpdateSerializer.v_opt_date
                 (parsed_date (UserProfileUpdateSerializer.r_date_of_birth r))
  | UserProfileUpdateSerializer.f_location =>
      option_map UserProfileUpdateSerializer.v_opt_str
                 (parsed_text (UserProfileUpdateSerializer.r_location r))
  | UserProfileUpdateSerializer.f_bio =>
      option_map UserProfileUpdateSerializer.v_opt_str
                 (parsed_text (UserProfileUpdateSerializer.r_bio r))
  | UserProfileUpdateSerializer.f_skills =>
      option_map UserProfileUpdateSerializer.v_opt_str
                 (parsed_text (UserProfileUpdateSerializer.r_skills r))
  | UserProfileUpdateSerializer.f_experience_years =>
      option_map UserProfileUpdateSerializer.v_int
                 (parsed_value (UserProfileUpdateSerializer.r_experience_years r))
  | UserProfileUpdateSerializer.f_linkedin_url =>
      option_map UserProfileUpdateSerializer.v_opt_str
                 (parsed_text (UserProfileUpdateSerializer.r_linkedin_url r))
  | UserProfileUpdateSerializer.f_github_url =>
      option_map UserProfileUpdateSerializer.v_opt_str
                 (parsed_text (UserProfileUpdateSerializer.r_github_url r))
  | UserProfileUpdateSerializer.f_is_recruiter =>
      option_map UserProfileUpdateSerializer.v_bool
                 (parsed_value (UserProfileUpdateSerializer.r_is_recruiter r))
  | UserProfileUpdateSerializer.f_company =>
      option_map UserProfileUpdateSerializer.v_opt_str
                 (parsed_text (UserProfileUpdateSerializer.r_company r))
  end.

(** An identity row patched by an update request: [first_name] and
    [last_name], by key presence. *)
Definition patched_user (r : UserProfileUpdateSerializer.request) (u : User.t)
  : User.t :=
  User.mk (User.id u) (User.username u) (User.email u)
          (given_or (parsed_name (UserProfileUpdateSerializer.r_first_name r))
                    (User.first_name u))
          (given_or (parsed_name (UserProfileUpdateSerializer.r_last_name r))
                    (User.last_name u))
          (User.password u) (User.is_active u).

(** A profile row patched by an update request saved at [now]: the ten
    profile columns of the request, by key presence. *)
Definition patched_profile (now : Z) (r : UserProfileUpdateSerializer.request)
           (p : UserProfile.t) : UserProfile.t :=
  UserProfile.mk
    (UserProfile.id p) (UserProfile.user_id p)
    (given_or (parsed_text (UserProfileUpdateSerializer.r_phone_number r))
              (UserProfile.phone_number p))
    (given_or (parsed_date (UserProfileUpdateSerializer.r_date_of_birth r))
              (UserProfile.date_of_birth p))
    (given_or (parsed_text (UserProfileUpdateSerializer.r_location r))
              (UserProfile.location p))
    (given_or (parsed_text (UserProfileUpdateSerializer.r_bio r)) (UserProfile.bio p))
    (given_or (parsed_text (UserProfileUpdateSerializer.r_skills r))
              (UserProfile.skills p))
    (given_or (parsed_value (UserProfileUpdateSerializer.r_experience_years r))
              (UserProfile.experience_years p))
    (given_or (parsed_text (UserProfileUpdateSerializer.r_linkedin_url r))
              (UserProfile.linkedin_url p))
    (given_or (parsed_text (UserProfileUpdateSerializer.r_github_url r))
              (UserProfile.github_url p))
    (UserProfile.resume p) (UserProfile.profile_picture p)
    (given_or (parsed_value (UserProfileUpdateSerializer.r_is_recruiter r))
              (UserProfile.is_recruiter p))
    (given_or (parsed_text (UserProfileUpdateSerializer.r_company r))
              (UserProfile.company p))
    (UserProfile.created_at p) now.

End Requests.

(** The messages a validation error carries. *)
Definition messages (d : detail) : list string :=
  match d with
  | Message m => [m]
  | FieldErrors errors => List.concat (map snd errors)
  end.

(** The result is a [ValidationError] that carries the message [msg]. *)
Definition fails_with {A} (r : result A) (msg : string) : bool :=
  match r with
  | Raise (ValidationError d) => existsb (String.eqb msg) (messages d)
  | _ => false
  end.

(** The store after the identity [row] was inserted and given a profile
    of defaults. *)
Definition with_new_identity (now : Z) (row : User.t) (db : DB) : DB :=
  mkDB (users db ++ [row])
       (userprofiles db ++ [UserProfile.defaults (userprofile_seq db) (User.id row) now])
       (user_seq db + 1) (userprofile_seq db + 1).

(** *** What the registration fields accept *)

(** A text the length and null-character checks of a field let through. *)
Definition within (n : nat) (value : string) : Prop :=
  (String.length value <= n)%nat /\ Py.contains_char zero value = false.

Section Acceptable.
Context `{Framework}.

(** [username]: present, not blank, and, once trimmed, a valid username
    no identity has, of at most 150 characters. *)
Definition username_acceptable (i : Fields.input string) (db : DB) : Prop :=
  exists s, i = Fields.Given s /\
    Py.strip s <> "" /\
    username_validator (Py.strip s) = true /\
    (forall u, In u (users db) -> User.username u <> Py.strip s) /\
    within 150 (Py.strip s).

(** [email]: absent, or a text that, once trimmed, no identity has as its
    email and that is empty or a valid address of at most 254 characters. *)
Definition email_acceptable (i : Fields.input string) (db : DB) : Prop :=
  i = Fields.Absent \/
  exists s, i = Fields.Given s /\
    (forall u, In u (users db) -> User.email u <> Py.strip s) /\
    (Py.strip s = "" \/ (within 254 (Py.strip s) /\ email_validator (Py.strip s) = true)).

(** [first_name], [last_name]: absent, or at most 150 characters once
    trimmed. *)
Definition name_acceptable (i : Fields.input string) : Prop :=
  i = Fields.Absent \/ exists s, i = Fields.Given s /\ within 150 (Py.strip s).

(** [password]: present and, once trimmed, at least 8 characters. *)
Definition password_acceptable (i : Fields.input string) : Prop :=
  exists s, i = Fields.Given s /\
    (8 <= String.length (Py.strip s))%nat /\
    Py.contains_char zero (Py.strip s) = false.

(** [password_confirm]: present and not blank. *)
Definition password_confirm_acceptable (i : Fields.input string) : Prop :=
  exists s, i = Fields.Given s /\
    Py.strip s <> "" /\ Py.contains_char zero (Py.strip s) = false.

(** The payload passes the checks of every field. *)
Definition fields_acceptable (d : UserRegistrationSerializer.data) (db : DB) : Prop :=
  username_acceptable (UserRegistrationSerializer.username d) db /\
  email_acceptable (UserRegistrationSerializer.email d) db /\
  name_acceptable (UserRegistrationSerializer.first_name d) /\
  name_acceptable (UserRegistrationSerializer.last_name d) /\
  password_acceptable (UserRegistrationSerializer.password d) /\
  password_confirm_acceptable (UserRegistrationSerializer.password_confirm d).

(** The text a payload gives under a key, trimmed; [""] when it gives
    none. *)
Definition trimmed_or_empty (i : Fields.input string) : string :=
  match i with
  | Fields.Given s => Py.strip s
  | _ => ""
  end.

(** The validated dictionary of a payload that passes: every text given,
    trimmed. *)
Definition validated_of (d : UserRegistrationSerializer.data)
  : UserRegistrationSerializer.validated :=
  UserRegistrationSerializer.mkvalidated
    (trimmed_or_empty (UserRegistrationSerializer.username d))
    (parsed_name (UserRegistrationSerializer.email d))
    (parsed_name (UserRegistrationSerializer.first_name d))
    (parsed_name (UserRegistrationSerializer.last_name d))
    (trimmed_or_empty (UserRegistrationSerializer.password d))
    (trimmed_or_empty (UserRegistrationSerializer.password_confirm d)).

(** An address the field [email] validates to itself: trimmed, and empty or
    a valid address of at most 254 characters. *)
Definition email_passes (e : string) : Prop :=
  Py.strip e = e /\
  (e = "" \/ (within 254 e /\ email_validator e = true)).

(** The identity row a payload registers with the key [pk]. *)
Definition registered (pk : Z) (d : UserRegistrationSerializer.data) : User.t :=
  User.mk pk
          (normalize_username (trimmed_or_empty (UserRegistrationSerializer.username d)))
          (normalize_email (trimmed_or_empty (UserRegistrationSerializer.email d)))
          (trimmed_or_empty (UserRegistrationSerializer.first_name d))
          (trimmed_or_empty (UserRegistrationSerializer.last_name d))
          (make_password (trimmed_or_empty (UserRegistrationSerializer.password d)))
          true.

End Acceptable.

(** ** Example data *)

Definition jane : User.t :=
  User.mk 1 "jane" "jane@example.org" (CharField_to_internal_value " Jane ")
          (CharField_to_internal_value "Doe") "hashed$secret-pw" true.

Definition jane_profile : UserProfile.t := UserProfile.defaults 1 1 100.

Definition jane_db : DB := mkDB [jane] [jane_profile] 2 2.

(** An identity whose account is disabled, with its profile. *)
Definition dan : User.t :=
  User.mk 1 "dan" "dan@example.org" "Dan" "Dorn" "hashed$secret-pw" false.

Definition dan_db : DB := mkDB [dan] [UserProfile.defaults 1 1 100] 2 2.

(** The registration payload with every key given. *)
Definition payload (username email first_name last_name password password_confirm : string)
  : UserRegistrationSerializer.data :=
  UserRegistrationSerializer.mk
    (Fields.Given username) (Fields.Given email) (Fields.Given first_name)
    (Fields.Given last_name) (Fields.Given password) (Fields.Given password_confirm).

(** A registration payload whose two passwords differ and are too short. *)
Definition short_mismatch_payload : UserRegistrationSerializer.data :=
  payload "bob" "bob@example.org" "Bob" "Burns" "short" "other".

(** A registration payload whose two passwords differ, long enough. *)
Definition mismatch_payload : UserRegistrationSerializer.data :=
  payload "bob" "bob@example.org" "Bob" "Burns" "correct-horse" "battery-staple".

(** A registration payload whose two passwords differ by a final space. *)
Definition padded_password_payload : UserRegistrationSerializer.data :=
  payload "bob" "bob@example.org" "Bob" "Burns" "correct-horse " "correct-horse".


(** The registration that leads from the empty store to [jane_db]. *)
Definition jane_payload : UserRegistrationSerializer.data :=
  payload "jane" "jane@example.org" "Jane" "Doe" "secret-pw" "secret-pw".

(** A valid registration payload for a second identity. *)
Definition bob_payload : UserRegistrationSerializer.data :=
  payload "bob" "bob@example.org" "Bob" "Burns" "correct-horse" "correct-horse".

(** A registration payload with a new email and the username of [jane]. *)
Definition taken_username_payload : UserRegistrationSerializer.data :=
  payload "jane" "janet@example.org" "Janet" "Doe" "correct-horse" "correct-horse".

(** A registration payload without the keys [email], [first_name] and
    [last_name]. *)
Definition no_email_payload (username : string) : UserRegistrationSerializer.data :=
  UserRegistrationSerializer.mk
    (Fields.Given username) Fields.Absent Fields.Absent Fields.Absent
    (Fields.Given "correct-horse") (Fields.Given "correct-horse").


(** The store after [bob_payload] was registered on [jane_db]. *)
Definition jane_bob_db : DB := with_new_identity 200 bob jane_db.

Definition bob_profile : UserProfile.t := UserProfile.defaults 2 2 200.

(** The update request [{bio: "hi"}]. *)
Definition bio_request : UserProfileUpdateSerializer.request :=
  UserProfileUpdateSerializer.mkrequest
    Fields.Absent Fields.Absent Fields.Absent Fields.Absent Fields.Absent
    (Fields.Given "hi")
    Fields.Absent Fields.Absent Fields.Absent Fields.Absent Fields.Absent Fields.Absent.

(** The update request [{bio: " hi "}]. *)
Definition padded_bio_request : UserProfileUpdateSerializer.request :=
  UserProfileUpdateSerializer.mkrequest
    Fields.Absent Fields.Absent Fields.Absent Fields.Absent Fields.Absent
    (Fields.Given " hi ")
    Fields.Absent Fields.Absent Fields.Absent Fields.Absent Fields.Absent Fields.Absent.

(** The update request [{first_name: "Janet"}]. *)
Definition first_name_request : UserProfileUpdateSerializer.request :=
  UserProfileUpdateSerializer.mkrequest
    (Fields.Given "Janet")
    Fields.Absent Fields.Absent Fields.Absent Fields.Absent Fields.Absent
    Fields.Absent Fields.Absent Fields.Absent Fields.Absent Fields.Absent Fields.Absent.

(** The update request [{first_name: ""}]. *)
Definition blank_first_name_request : UserProfileUpdateSerializer.request :=
  UserProfileUpdateSerializer.mkrequest
    (Fields.Given "")
    Fields.Absent Fields.Absent Fields.Absent Fields.Absent Fields.Absent
    Fields.Absent Fields.Absent Fields.Absent Fields.Absent Fields.Absent Fields.Absent.

(** The profile of [jane], working at the company "A". *)
Definition jane_at_A : UserProfile.t :=
  UserProfile.set_company (Some "A") jane_profile.

Definition jane_at_A_db : DB := mkDB [jane] [jane_at_A] 2 2.

(** The update request [{company: "A"}]. *)
Definition company_request : UserProfileUpdateSerializer.request :=
  UserProfileUpdateSerializer.mkrequest
    Fields.Absent Fields.Absent Fields.Absent Fields.Absent Fields.Absent Fields.Absent
    Fields.Absent Fields.Absent Fields.Absent Fields.Absent Fields.Absent
    (Fields.Given "A").

(** * Properties *)

(** *** Facts about the string primitives *)

Lemma append_nil_r (s : string) : s ++ "" = s.
Proof. induction s as [|c s IH]; simpl; [reflexivity | now rewrite IH]. Qed.

Lemma append_assoc (a b c : string) : (a ++ b) ++ c = a ++ (b ++ c).
Proof. induction a as [|x a IH]; simpl; [reflexivity | now rewrite IH]. Qed.

Lemma all_space_app (a b : string) :
  Py.all_space (a ++ b) = Py.all_space a && Py.all_space b.
Proof.
  induction a as [|c a IH]; simpl; [reflexivity|].
  rewrite IH. now rewrite andb_assoc.
Qed.

Lemma lstrip_decompose (s : string) :
  exists l, s = l ++ Py.lstrip s /\ Py.all_space l = true.
Proof.
  induction s as [|c s [l [E L]]]; simpl.
  - exists "". now split.
  - destruct (Py.isspace c) eqn:Hc.
    + exists (String c l). simpl. rewrite Hc, L. split; [now f_equal | reflexivity].
    + exists "". now split.
Qed.

Lemma rstrip_decompose (s : string) :
  exists r, s = Py.rstrip s ++ r /\ Py.all_space r = true.
Proof.
  induction s as [|c s [r [E R]]]; simpl.
  - exists "". now split.
  - destruct (Py.rstrip s) eqn:Hs.
    + destruct (Py.isspace c) eqn:Hc.
      * exists (String c r). simpl in *. rewrite Hc, R. split; [now f_equal | reflexivity].
      * exists r. simpl in *. split; [now f_equal | assumption].
    + exists r. simpl in *. split; [now f_equal | assumption].
Qed.

Lemma lstrip_head (s : string) (c : ascii) :
  Py.head_char (Py.lstrip s) = Some c -> Py.isspace c = false.
Proof.
  induction s as [|d s IH]; simpl; [discriminate|].
  destruct (Py.isspace d) eqn:Hd; [exact IH|].
  simpl. intros [= <-]. exact Hd.
Qed.

Lemma rstrip_last (s : string) (c : ascii) :
  Py.last_char (Py.rstrip s) = Some c -> Py.isspace c = false.
Proof.
  induction s as [|d s IH]; simpl; [discriminate|].
  destruct (Py.rstrip s) as [|e r] eqn:Hs.
  - destruct (Py.isspace d) eqn:Hd; simpl; [discriminate|].
    intros [= <-]. exact Hd.
  - intros H. apply IH. exact H.
Qed.

Lemma rstrip_head (s : string) (c : ascii) :
  Py.head_char (Py.rstrip s) = Some c -> Py.head_char s = Some c.
Proof.
  destruct s as [|d s]; simpl; [discriminate|].
  destruct (Py.rstrip s); [destruct (Py.isspace d)|]; simpl; congruence.
Qed.

Lemma strip_trimmed (s : string) : Py.trimmed (Py.strip s).
Proof.
  split; intros c H.
  - apply (lstrip_head s). now apply rstrip_head.
  - now apply (rstrip_last (Py.lstrip s)).
Qed.

(** [strip] removes a whitespace prefix and a whitespace suffix, and nothing
    else. *)
Lemma strip_decompose (s : string) :
  exists l r, s = l ++ Py.strip s ++ r /\
              Py.all_space l = true /\ Py.all_space r = true.
Proof.
  destruct (lstrip_decompose s) as [l [El Hl]].
  destruct (rstrip_decompose (Py.lstrip s)) as [r [Er Hr]].
  exists l, r. unfold Py.strip. now rewrite <- Er.
Qed.

Lemma lstrip_all_space (r : string) : Py.all_space r = true -> Py.lstrip r = "".
Proof.
  induction r as [|c r IH]; simpl; [reflexivity|].
  intros H. apply andb_prop in H as [Hc Hr]. rewrite Hc. now apply IH.
Qed.

Lemma lstrip_app_l (l x : string) :
  Py.all_space l = true -> Py.lstrip (l ++ x) = Py.lstrip x.
Proof.
  induction l as [|c l IH]; simpl; [reflexivity|].
  intros H. apply andb_prop in H as [Hc Hl]. rewrite Hc. now apply IH.
Qed.

Lemma lstrip_id (t : string) :
  (forall c, Py.head_char t = Some c -> Py.isspace c = false) -> Py.lstrip t = t.
Proof.
  destruct t as [|c t]; simpl; [reflexivity|].
  intros H. now rewrite (H c eq_refl).
Qed.

Lemma rstrip_all_space (r : string) : Py.all_space r = true -> Py.rstrip r = "".
Proof.
  induction r as [|c r IH]; simpl; [reflexivity|].
  intros H. apply andb_prop in H as [Hc Hr]. now rewrite (IH Hr), Hc.
Qed.

Lemma rstrip_app_r (t r : string) :
  Py.all_space r = true -> Py.rstrip (t ++ r) = Py.rstrip t.
Proof.
  intros Hr. induction t as [|c t IH]; simpl.
  - now apply rstrip_all_space.
  - now rewrite IH.
Qed.

Lemma rstrip_id (t : string) :
  (forall c, Py.last_char t = Some c -> Py.isspace c = false) -> Py.rstrip t = t.
Proof.
  induction t as [|c t IH]; simpl; [reflexivity|].
  intros H. destruct t as [|d t].
  - simpl. now rewrite (H c eq_refl).
  - rewrite IH; [reflexivity|]. intros e He. apply H. exact He.
Qed.

(** The decomposition determines the result: any trimmed middle part between
    two runs of whitespace is what [strip] returns. *)
Lemma strip_unique (s l t r : string) :
  s = l ++ t ++ r -> Py.all_space l = true -> Py.all_space r = true ->
  Py.trimmed t -> Py.strip s = t.
Proof.
  intros -> Hl Hr [Hh Ht]. unfold Py.strip. rewrite (lstrip_app_l _ _ Hl).
  destruct t as [|c t].
  - simpl. rewrite (lstrip_all_space _ Hr). reflexivity.
  - rewrite lstrip_id.
    + rewrite (rstrip_app_r _ _ Hr). now apply rstrip_id.
    + simpl. intros d [= <-]. now apply Hh.
Qed.

Lemma split_not_nil (sep : ascii) (s : string) : Py.split sep s <> [].
Proof.
  destruct s as [|c s]; simpl; [discriminate|].
  destruct (Ascii.eqb c sep); [discriminate|].
  destruct (Py.split sep s); discriminate.
Qed.

(** Joining the pieces with the separator gives the string back. *)
Lemma join_split (sep : ascii) (s : string) : Py.join sep (Py.split sep s) = s.
Proof.
  induction s as [|c s IH]; simpl; [reflexivity|].
  destruct (Ascii.eqb c sep) eqn:Hc.
  - apply Ascii.eqb_eq in Hc. subst c.
    pose proof (split_not_nil sep s) as Hne.
    destruct (Py.split sep s) as [|p ps]; [contradiction|].
    rewrite <- IH. reflexivity.
  - pose proof (split_not_nil sep s) as Hne.
    destruct (Py.split sep s) as [|p ps]; [contradiction|].
    destruct ps as [|q qs]; simpl in *; now rewrite <- IH.
Qed.

(** No piece contains the separator. *)
Lemma split_no_sep (sep : ascii) (s p : string) :
  In p (Py.split sep s) -> Py.contains_char sep p = false.
Proof.
  revert p. induction s as [|c s IH]; simpl; intros p H.
  - destruct H as [<-|[]]. reflexivity.
  - destruct (Ascii.eqb c sep) eqn:Hc.
    + destruct H as [<-|H]; [reflexivity | now apply IH].
    + destruct (Py.split sep s) as [|q qs].
      * destruct H as [<-|[]]. simpl. now rewrite Hc.
      * destruct H as [<-|H].
        -- simpl. rewrite Hc. apply IH. now left.
        -- apply IH. now right.
Qed.

Example split_skills_example :
  Py.split "," "Python, Go , ,Rust" = ["Python"; " Go "; " "; "Rust"].
Proof. reflexivity. Qed.

Example strip_example : Py.strip "  Go " = "Go".
Proof. reflexivity. Qed.


(** ** Derived values of a profile *)

Lemma truthy_not_empty (s : string) : Py.truthy s = negb (String.eqb s "").
Proof. destruct s; reflexivity. Qed.

(** The comprehension [[x.strip() for x in l if x.strip()]] trims first and
    drops the empty results. *)
Lemma comprehension_filter_map (l : list string) :
  map Py.strip (filter (fun skill => Py.truthy (Py.strip skill)) l)
  = filter (fun entry => negb (String.eqb entry "")) (map Py.strip l).
Proof.
  induction l as [|x l IH]; simpl; [reflexivity|].
  rewrite <- truthy_not_empty.
  destruct (Py.truthy (Py.strip x)); simpl; now rewrite IH.
Qed.

Lemma skills_list_empty_string : skills_list_spec "" = [].
Proof. reflexivity. Qed.

(** C2. For every profile whose identity is the row [u], [full_name] is the
    concatenation "first_name last_name" trimmed: it is [strip] of it, it
    has no whitespace at either end, and it is the concatenation less a
    whitespace prefix and a whitespace suffix. With first_name " Jane "
    stored trimmed and last_name "Doe", it is "Jane Doe". *)
Theorem full_name_trimmed_concatenation
        (db : DB) (self : UserProfile.t) (u : User.t) :
  get_user (UserProfile.user_id self) db = Some u ->
  let joined := User.first_name u ++ " " ++ User.last_name u in
  exists name,
    full_name self db = Ok name /\
    name = Py.strip joined /\
    Py.trimmed name /\
    (exists l r, joined = l ++ name ++ r /\
                 Py.all_space l = true /\ Py.all_space r = true) /\
    (User.first_name u = CharField_to_internal_value " Jane " ->
     User.last_name u = CharField_to_internal_value "Doe" ->
     name = "Jane Doe").
Proof.
  intros Hu joined. exists (Py.strip joined).
  split; [|split; [reflexivity|split; [apply strip_trimmed|split]]].
  - unfold full_name, profile_user. rewrite Hu. reflexivity.
  - apply strip_decompose.
  - intros Hf Hl. subst joined. rewrite Hf, Hl. reflexivity.
Qed.

Lemma full_name_trimmed_concatenation_witness :
  full_name jane_profile jane_db = Ok "Jane Doe".
Proof.
  destruct (full_name_trimmed_concatenation jane_db jane_profile
              jane eq_refl) as [name [Hn [_ [_ [_ Hj]]]]].
  rewrite Hn. f_equal. apply Hj; reflexivity.
Defined.

(** Without the trim of the stored first name the inner blank stays. *)
Example full_name_untrimmed_first_name :
  UserProfile.full_name_of (User.mk 1 "jane" "" " Jane " "Doe" "" true)
  = "Jane  Doe".
Proof. reflexivity. Qed.

(** C4. [skills_list] is a function of the stored [skills] column alone
    (nothing else is stored for it): the string split on commas, each entry
    trimmed, empty entries dropped; no list when the column is null. For
    "Python, Go , ,Rust" it is ["Python"; "Go"; "Rust"]. *)
Theorem skills_list_split_trim_drop (self : UserProfile.t) :
  UserProfile.skills_list self
  = match UserProfile.skills self with
    | Some s => skills_list_spec s
    | None => []
    end
  /\ UserProfile.skills_list
       (UserProfile.set_skills (Some "Python, Go , ,Rust") self)
     = ["Python"; "Go"; "Rust"].
Proof.
  split.
  - unfold UserProfile.skills_list, skills_list_spec.
    destruct (UserProfile.skills self) as [s|]; [|reflexivity].
    destruct s as [|c s]; [reflexivity|].
    cbn [Py.truthy]. apply comprehension_filter_map.
  - destruct self. reflexivity.
Qed.
(** ** The login validator *)

Section Login.
Context `{Framework}.

Import UserLoginSerializer.

(** What [authenticate] returns is an active identity with the username
    given, against whose credential the password checks. *)
Lemma authenticate_Some (db : DB) (name pw : string) (u : User.t) :
  authenticate db name pw = Some u <->
  get_by_natural_key name db = Some u /\
  check_password pw (User.password u) = true /\
  User.is_active u = true.
Proof.
  unfold authenticate. destruct (get_by_natural_key name db) as [user|].
  - destruct (check_password pw (User.password user)) eqn:Hc,
             (User.is_active user) eqn:Ha; cbn [andb]; split.
    all: try discriminate.
    all: try (intros [= <-]; auto).
    all: intros ([= <-] & Hc' & Ha'); congruence.
  - split; [discriminate|]. intros ([=] & _).
Qed.

(** C1 (the code misses the claim). A login attempt with the username of a
    stored identity whose [is_active] is false and a password that checks
    against its credential fails with "Invalid credentials": [authenticate]
    resolves the credentials of an inactive identity to nothing, so the test
    [if not user.is_active] never sees one, and "User account is disabled"
    is not raised on any attempt in any store. A successful validation
    returns an active identity whose credential the password checks
    against. *)
Theorem login_disabled_account_invalid_credentials (db : DB) (attrs : data) :
  (forall name pw u,
      username attrs = Some name -> password attrs = Some pw ->
      Py.truthy name = true -> Py.truthy pw = true ->
      get_by_natural_key name db = Some u ->
      check_password pw (User.password u) = true ->
      User.is_active u = false ->
      validate attrs db = Raise (ValidationError (Message "Invalid credentials")))
  /\ validate attrs db <> Raise (ValidationError (Message "User account is disabled"))
  /\ (forall out,
        validate attrs db = Ok out ->
        exists name pw u,
          username attrs = Some name /\ password attrs = Some pw /\
          get_by_natural_key name db = Some u /\
          check_password pw (User.password u) = true /\
          user out = Some u /\ User.is_active u = true).
Proof.
  unfold validate. split; [|split].
  - intros name pw u -> -> -> -> Hu Hc Ha. cbn [andb].
    unfold authenticate. rewrite Hu, Hc, Ha. reflexivity.
  - destruct (username attrs) as [name|], (password attrs) as [pw|];
      try discriminate.
    destruct (Py.truthy name && Py.truthy pw); [|discriminate].
    destruct (authenticate db name pw) as [u|] eqn:Hauth; [|discriminate].
    apply authenticate_Some in Hauth as (_ & _ & ->). discriminate.
  - intros out.
    destruct (username attrs) as [name|], (password attrs) as [pw|];
      try discriminate.
    destruct (Py.truthy name && Py.truthy pw); [|discriminate].
    destruct (authenticate db name pw) as [u|] eqn:Hauth; [|discriminate].
    apply authenticate_Some in Hauth as (Hu & Hc & Ha). rewrite Ha.
    intros [= <-]. exists name, pw, u. repeat split; assumption.
Qed.

End Login.

Lemma login_disabled_account_invalid_credentials_witness :
  UserLoginSerializer.validate
    (UserLoginSerializer.mk (Some "dan") (Some "secret-pw") None) dan_db
  = Raise (ValidationError (Message "Invalid credentials")).
Proof.
  apply (proj1 (login_disabled_account_invalid_credentials dan_db _)
               "dan" "secret-pw" dan);
    reflexivity.
Defined.

(** ** Serializer fields *)

Lemma is_blank_strip (s : string) :
  Fields.is_blank s = String.eqb (Py.strip s) "".
Proof. destruct s; reflexivity. Qed.

Lemma run_validators_nil (vs : list Fields.validator) (value : string) :
  Fields.run_validators vs value = [] <-> Forall (fun v => v value = None) vs.
Proof.
  unfold Fields.run_validators. induction vs as [|v vs IH]; simpl.
  - split; [constructor | reflexivity].
  - destruct (v value) as [m|] eqn:E; simpl.
    + split; [discriminate|]. intros Hall. inversion Hall; congruence.
    + rewrite IH. split; [now constructor|]. intros Hall. now inversion Hall.
Qed.

Lemma MaxLengthValidator_None (n : nat) (value : string) :
  Fields.MaxLengthValidator n value = None <-> (String.length value <= n)%nat.
Proof.
  unfold Fields.MaxLengthValidator.
  destruct (Nat.ltb n (String.length value)) eqn:E.
  - apply Nat.ltb_lt in E. split; [discriminate | lia].
  - apply Nat.ltb_ge in E. tauto.
Qed.

Lemma MinLengthValidator_None (n : nat) (value : string) :
  Fields.MinLengthValidator n value = None <-> (n <= String.length value)%nat.
Proof.
  unfold Fields.MinLengthValidator.
  destruct (Nat.ltb (String.length value) n) eqn:E.
  - apply Nat.ltb_lt in E. split; [discriminate | lia].
  - apply Nat.ltb_ge in E. tauto.
Qed.

Lemma ProhibitNullCharactersValidator_None (value : string) :
  Fields.ProhibitNullCharactersValidator value = None
  <-> Py.contains_char zero value = false.
Proof.
  unfold Fields.ProhibitNullCharactersValidator.
  destruct (Py.contains_char zero value); split; congruence.
Qed.

Lemma RegexValidator_None (matches : string -> bool) (message value : string) :
  Fields.RegexValidator matches message value = None <-> matches value = true.
Proof.
  unfold Fields.RegexValidator. destruct (matches value); split; congruence.
Qed.

(** A field validates exactly the texts given: to the text trimmed, which
    is empty only if the field may be blank, and passes every validator
    otherwise. *)
Lemma run_validation_Valid (f : Fields.CharField) (i : Fields.input string)
      (v : string) :
  Fields.run_validation f i = Fields.Valid v <->
  exists s, i = Fields.Given s /\ v = Py.strip s /\
            ((Py.strip s = "" /\ Fields.allow_blank f = true) \/
             (Py.strip s <> "" /\
              Fields.run_validators (Fields.field_validators f) (Py.strip s) = [])).
Proof.
  unfold Fields.run_validation. destruct i as [| |s].
  - split; [destruct (Fields.required f); discriminate|].
    intros (s & [=] & _).
  - split; [discriminate|]. intros (s & [=] & _).
  - rewrite is_blank_strip. destruct (String.eqb (Py.strip s) "") eqn:E.
    + apply String.eqb_eq in E. split.
      * destruct (Fields.allow_blank f) eqn:Hb; [|discriminate].
        intros [= <-]. exists s. rewrite E. auto.
      * intros (s' & [= <-] & -> & [[_ Hb]|[Hne _]]); [|contradiction].
        now rewrite Hb, E.
    + apply String.eqb_neq in E. split.
      * destruct (Fields.run_validators _ _) eqn:Hv; [|discriminate].
        intros [= <-]. exists s. auto.
      * intros (s' & [= <-] & -> & [[He _]|[_ Hv]]); [contradiction|].
        now rewrite Hv.
Qed.

Lemma run_validation_Skip (f : Fields.CharField) (i : Fields.input string) :
  Fields.run_validation f i = Fields.Skip <->
  i = Fields.Absent /\ Fields.required f = false.
Proof.
  unfold Fields.run_validation. destruct i as [| |s].
  - destruct (Fields.required f); split; try discriminate; auto.
    intros [_ [=]].
  - split; [discriminate | intros [[=] _]].
  - split; [|intros [[=] _]].
    destruct (Fields.is_blank s); [destruct (Fields.allow_blank f)|
      destruct (Fields.run_validators _ _)]; discriminate.
Qed.

(** A text that is not blank and that a validator of the field refuses is
    refused with the messages of the validators. *)
Lemma run_validation_Invalid (f : Fields.CharField) (s : string) :
  Py.strip s <> "" ->
  Fields.run_validators (Fields.field_validators f) (Py.strip s) <> [] ->
  Fields.run_validation f (Fields.Given s)
  = Fields.Invalid (Fields.run_validators (Fields.field_validators f) (Py.strip s)).
Proof.
  intros Hne Hv. unfold Fields.run_validation. rewrite is_blank_strip.
  apply String.eqb_neq in Hne. rewrite Hne.
  destruct (Fields.run_validators _ _); [contradiction | reflexivity].
Qed.

Lemma errors_of_nil {A} (name : string) (o : Fields.outcome A) :
  Fields.errors_of name o = [] <-> forall errors, o <> Fields.Invalid errors.
Proof.
  destruct o; simpl; split; try discriminate; auto.
  intros Hne. now destruct (Hne errors).
Qed.

Lemma errors_of_key {A} (name : string) (o : Fields.outcome A)
      (entry : string * list string) :
  In entry (Fields.errors_of name o) -> fst entry = name.
Proof. destruct o; simpl; try tauto. intros [<-|[]]. reflexivity. Qed.

(** ** The registration validator *)

Section Registration.
Context `{Framework}.

Import UserRegistrationSerializer.

Lemma email_exists_iff (value : string) (db : DB) :
  email_exists value db = true <->
  exists u, In u (users db) /\ User.email u = value.
Proof.
  unfold email_exists. rewrite existsb_exists.
  split; intros [u [Hin He]]; exists u; split; try assumption.
  - now apply String.eqb_eq.
  - now apply String.eqb_eq.
Qed.

Lemma email_exists_false (value : string) (db : DB) :
  email_exists value db = false <->
  forall u, In u (users db) -> User.email u <> value.
Proof.
  split.
  - intros Hf u Hin He. assert (email_exists value db = true); [|congruence].
    apply email_exists_iff. eauto.
  - intros Hall. destruct (email_exists value db) eqn:E; [|reflexivity].
    apply email_exists_iff in E as [u [Hin He]]. now destruct (Hall u Hin).
Qed.

Lemma UniqueValidator_None (db : DB) (value : string) :
  UniqueValidator db value = None <->
  forall u, In u (users db) -> User.username u <> value.
Proof.
  unfold UniqueValidator.
  destruct (existsb _ (users db)) eqn:E.
  - apply existsb_exists in E as [u [Hin Hu]]. apply String.eqb_eq in Hu.
    split; [discriminate|]. intros Hall. now destruct (Hall u Hin).
  - split; [|reflexivity]. intros _ u Hin Hu.
    assert (existsb (fun u => String.eqb (User.username u) value) (users db) = true);
      [|congruence].
    apply existsb_exists. exists u. split; [assumption | now apply String.eqb_eq].
Qed.

(** A failed validation leaves the store as it was. *)
Lemma register_invalid (now : Z) (payload : data) (db : DB) (e : exn) :
  run_validation payload db = Raise e ->
  register now payload db = (Raise e, db).
Proof. intros Hr. unfold register. now rewrite Hr. Qed.

(** *** Field by field *)

Ltac fields_in H :=
  apply run_validators_nil in H;
  cbn [Fields.field_validators Fields.validators Fields.max_length
       Fields.min_length Fields.last_validators app
       username_field email_field first_name_field last_name_field
       password_field password_confirm_field] in H.

Ltac fields_goal :=
  apply run_validators_nil;
  cbn [Fields.field_validators Fields.validators Fields.max_length
       Fields.min_length Fields.last_validators app
       username_field email_field first_name_field last_name_field
       password_field password_confirm_field].

Lemma username_Valid (i : Fields.input string) (db : DB) (v : string) :
  Fields.run_validation (username_field db) i = Fields.Valid v <->
  username_acceptable i db /\ v = trimmed_or_empty i.
Proof.
  rewrite run_validation_Valid. unfold username_acceptable, within.
  cbn [Fields.allow_blank username_field].
  split.
  - intros (s & -> & -> & [[_ [=]]|[Hne Hall]]).
    fields_in Hall.
    inversion Hall as [|? ? H1 Hall1]; subst.
    inversion Hall1 as [|? ? H2 Hall2]; subst.
    inversion Hall2 as [|? ? H3 Hall3]; subst.
    inversion Hall3 as [|? ? H4 _]; subst.
    apply RegexValidator_None in H1. pose proof (proj1 (UniqueValidator_None _ _) H2) as H2u.
    apply MaxLengthValidator_None in H3.
    apply ProhibitNullCharactersValidator_None in H4.
    split; [|reflexivity]. exists s. auto 10.
  - intros [(s & -> & Hne & Hre & Huniq & Hlen & Hnul) ->].
    exists s. split; [reflexivity|split; [reflexivity|right]].
    split; [assumption|].
    fields_goal. repeat constructor;
      [now apply RegexValidator_None | now apply UniqueValidator_None
      | now apply MaxLengthValidator_None
      | now apply ProhibitNullCharactersValidator_None].
Qed.

Lemma name_field_Valid (i : Fields.input string) (v : string) :
  Fields.run_validation first_name_field i = Fields.Valid v <->
  exists s, i = Fields.Given s /\ v = Py.strip s /\ within 150 (Py.strip s).
Proof.
  rewrite run_validation_Valid. unfold within.
  cbn [Fields.allow_blank first_name_field].
  split.
  - intros (s & -> & -> & [[He _]|[Hne Hall]]); exists s.
    + rewrite He. repeat split. simpl. lia.
    + fields_in Hall. inversion Hall as [|? ? H1 Hall1]; subst.
      inversion Hall1 as [|? ? H2 _]; subst.
      apply MaxLengthValidator_None in H1.
      apply ProhibitNullCharactersValidator_None in H2. auto.
  - intros (s & -> & -> & Hlen & Hnul). exists s.
    split; [reflexivity|split; [reflexivity|]].
    destruct (string_dec (Py.strip s) "") as [He|Hne]; [now left | right].
    split; [assumption|].
    fields_goal. repeat constructor;
      [now apply MaxLengthValidator_None
      | now apply ProhibitNullCharactersValidator_None].
Qed.

Lemma password_Valid (i : Fields.input string) (v : string) :
  Fields.run_validation password_field i = Fields.Valid v <->
  password_acceptable i /\ v = trimmed_or_empty i.
Proof.
  rewrite run_validation_Valid. unfold password_acceptable.
  cbn [Fields.allow_blank password_field]. unfold password_min_length.
  split.
  - intros (s & -> & -> & [[_ [=]]|[Hne Hall]]).
    fields_in Hall.
    inversion Hall as [|? ? H1 Hall1]; subst.
    inversion Hall1 as [|? ? H2 _]; subst.
    apply MinLengthValidator_None in H1.
    apply ProhibitNullCharactersValidator_None in H2.
    split; [|reflexivity]. exists s. auto.
  - intros [(s & -> & Hlen & Hnul) ->]. exists s.
    split; [reflexivity|split; [reflexivity|right]].
    split; [intros He; rewrite He in Hlen; simpl in Hlen; lia|].
    fields_goal. repeat constructor;
      [now apply MinLengthValidator_None
      | now apply ProhibitNullCharactersValidator_None].
Qed.

Lemma password_confirm_Valid (i : Fields.input string) (v : string) :
  Fields.run_validation password_confirm_field i = Fields.Valid v <->
  password_confirm_acceptable i /\ v = trimmed_or_empty i.
Proof.
  rewrite run_validation_Valid. unfold password_confirm_acceptable.
  cbn [Fields.allow_blank password_confirm_field].
  split.
  - intros (s & -> & -> & [[_ [=]]|[Hne Hall]]).
    fields_in Hall.
    inversion Hall as [|? ? H1 _]; subst.
    apply ProhibitNullCharactersValidator_None in H1.
    split; [|reflexivity]. exists s. auto.
  - intros [(s & -> & Hne & Hnul) ->]. exists s.
    split; [reflexivity|split; [reflexivity|right]].
    split; [assumption|].
    fields_goal. repeat constructor. now apply ProhibitNullCharactersValidator_None.
Qed.

Lemma name_field_ok (i : Fields.input string) :
  (forall errors, Fields.run_validation first_name_field i <> Fields.Invalid errors)
  <-> name_acceptable i.
Proof.
  unfold name_acceptable. split.
  - intros Hok. destruct (Fields.run_validation first_name_field i) as [|v|errors] eqn:E.
    + left. now apply run_validation_Skip in E.
    + right. apply name_field_Valid in E as (s & -> & _ & Hw). eauto.
    + now destruct (Hok errors).
  - intros [->|(s & -> & Hw)] errors.
    + discriminate.
    + rewrite (proj2 (name_field_Valid (Fields.Given s) (Py.strip s)));
        [discriminate|eauto].
Qed.

Lemma name_field_value (i : Fields.input string) :
  name_acceptable i ->
  Fields.value_of (Fields.run_validation first_name_field i) = parsed_name i.
Proof.
  intros [->|(s & -> & Hw)]; [reflexivity|].
  rewrite (proj2 (name_field_Valid (Fields.Given s) (Py.strip s)));
    [reflexivity|eauto].
Qed.

Lemma email_field_Valid (i : Fields.input string) (v : string) :
  Fields.run_validation email_field i = Fields.Valid v <->
  exists s, i = Fields.Given s /\ v = Py.strip s /\
            (Py.strip s = "" \/
             (within 254 (Py.strip s) /\ email_validator (Py.strip s) = true)).
Proof.
  rewrite run_validation_Valid. unfold within.
  cbn [Fields.allow_blank email_field].
  split.
  - intros (s & -> & -> & [[He _]|[Hne Hall]]); exists s; [auto|].
    fields_in Hall.
    inversion Hall as [|? ? H1 Hall1]; subst.
    inversion Hall1 as [|? ? H2 Hall2]; subst.
    inversion Hall2 as [|? ? H3 _]; subst.
    apply MaxLengthValidator_None in H1.
    apply ProhibitNullCharactersValidator_None in H2.
    apply RegexValidator_None in H3. auto 10.
  - intros (s & -> & -> & Hc). exists s.
    split; [reflexivity|split; [reflexivity|]].
    destruct (string_dec (Py.strip s) "") as [He|Hne]; [now left | right].
    destruct Hc as [He|[[Hlen Hnul] Hre]]; [contradiction|].
    split; [assumption|].
    fields_goal. repeat constructor;
      [now apply MaxLengthValidator_None
      | now apply ProhibitNullCharactersValidator_None
      | now apply RegexValidator_None].
Qed.

Lemma raised_validate_email (value : string) (db : DB) :
  raised (validate_email value db)
  = if email_exists value db
    then Some "A user with this email already exists."
    else None.
Proof. unfold validate_email. now destruct (email_exists value db). Qed.

Lemma email_ok (i : Fields.input string) (db : DB) :
  (forall errors,
      Fields.validate_method (fun value => raised (validate_email value db))
                             (Fields.run_validation email_field i)
      <> Fields.Invalid errors)
  <-> email_acceptable i db.
Proof.
  unfold email_acceptable. split.
  - intros Hok. destruct (Fields.run_validation email_field i) as [|v|errors] eqn:E.
    + left. now apply run_validation_Skip in E.
    + right. apply email_field_Valid in E as (s & -> & -> & Hc). exists s.
      split; [reflexivity|split; [|exact Hc]].
      apply email_exists_false. cbn [Fields.validate_method] in Hok.
      rewrite raised_validate_email in Hok.
      destruct (email_exists (Py.strip s) db); [|reflexivity].
      now destruct (Hok ["A user with this email already exists."]).
    + now destruct (Hok errors).
  - intros [->|(s & -> & Hfree & Hc)] errors.
    + discriminate.
    + rewrite (proj2 (email_field_Valid (Fields.Given s) (Py.strip s))) by eauto.
      cbn [Fields.validate_method]. rewrite raised_validate_email.
      apply email_exists_false in Hfree. rewrite Hfree. discriminate.
Qed.

Lemma email_value (i : Fields.input string) (db : DB) :
  email_acceptable i db ->
  Fields.value_of
    (Fields.validate_method (fun value => raised (validate_email value db))
                            (Fields.run_validation email_field i))
  = parsed_name i.
Proof.
  intros [->|(s & -> & Hfree & Hc)]; [reflexivity|].
  rewrite (proj2 (email_field_Valid (Fields.Given s) (Py.strip s))) by eauto.
  cbn [Fields.validate_method]. rewrite raised_validate_email.
  apply email_exists_false in Hfree. now rewrite Hfree.
Qed.

(** *** The fields together *)

Lemma collected_Ok (o_u o_e o_f o_l o_p o_c : Fields.outcome string)
      (a : validated) :
  match (Fields.errors_of "username" o_u
         ++ Fields.errors_of "email" o_e
         ++ Fields.errors_of "first_name" o_f
         ++ Fields.errors_of "last_name" o_l
         ++ Fields.errors_of "password" o_p
         ++ Fields.errors_of "password_confirm" o_c)%list with
  | [] =>
      match o_u, o_p, o_c with
      | Fields.Valid u, Fields.Valid p, Fields.Valid c =>
          Ok (mkvalidated u (Fields.value_of o_e) (Fields.value_of o_f)
                          (Fields.value_of o_l) p c)
      | _, _, _ => Raise (ValidationError (FieldErrors []))
      end
  | errors => Raise (ValidationError (FieldErrors errors))
  end = Ok a
  <-> exists u p c,
      o_u = Fields.Valid u /\ o_p = Fields.Valid p /\ o_c = Fields.Valid c /\
      (forall errors, o_e <> Fields.Invalid errors) /\
      (forall errors, o_f <> Fields.Invalid errors) /\
      (forall errors, o_l <> Fields.Invalid errors) /\
      a = mkvalidated u (Fields.value_of o_e) (Fields.value_of o_f)
                      (Fields.value_of o_l) p c.
Proof.
  destruct o_u as [|u|eu], o_p as [|p|ep], o_c as [|c|ec];
    try (split;
         [match goal with
          | |- match ?l with _ => _ end = _ -> _ => destruct l; discriminate
          end
         | intros (u' & p' & c' & Hu & Hp & Hc & _); discriminate]).
  destruct o_e as [|e|ee], o_f as [|f|ef], o_l as [|l|el]; cbn.
  all: split;
    [ try discriminate; intros [= <-]; exists u, p, c;
      repeat split; discriminate
    | intros (u' & p' & c' & [= <-] & [= <-] & [= <-] & He & Hf & Hl & ->);
      try reflexivity;
      try (now destruct (He ee)); try (now destruct (Hf ef));
      try (now destruct (Hl el)) ].
Qed.

(** Field-level validation passes exactly on the payloads every field
    accepts, and validates each text to its trimmed form. *)
Lemma to_internal_value_Ok (d : data) (db : DB) (a : validated) :
  to_internal_value d db = Ok a <-> fields_acceptable d db /\ a = validated_of d.
Proof.
  unfold to_internal_value. rewrite collected_Ok. unfold fields_acceptable.
  split.
  - intros (u & p & c & Hu & Hp & Hc & He & Hf & Hl & ->).
    apply username_Valid in Hu as [Hu ->].
    apply password_Valid in Hp as [Hp ->].
    apply password_confirm_Valid in Hc as [Hc ->].
    apply email_ok in He. apply name_field_ok in Hf.
    apply (proj1 (name_field_ok _)) in Hl.
    split; [tauto|]. unfold validated_of.
    rewrite (email_value _ _ He), (name_field_value _ Hf).
    change last_name_field with first_name_field.
    now rewrite (name_field_value _ Hl).
  - intros [(Hu & He & Hf & Hl & Hp & Hc) ->].
    exists (trimmed_or_empty (username d)), (trimmed_or_empty (password d)),
      (trimmed_or_empty (password_confirm d)).
    split; [now apply username_Valid|].
    split; [now apply password_Valid|].
    split; [now apply password_confirm_Valid|].
    split; [now apply email_ok|].
    split; [now apply name_field_ok|].
    split; [now apply (proj2 (name_field_ok _))|].
    unfold validated_of.
    rewrite (email_value _ _ He), (name_field_value _ Hf).
    change last_name_field with first_name_field.
    now rewrite (name_field_value _ Hl).
Qed.

(** The names of the fields, the keys an error of field-level validation
    is reported under. *)
Lemma to_internal_value_Raise (d : data) (db : DB) (e : exn) :
  to_internal_value d db = Raise e ->
  exists errors,
    e = ValidationError (FieldErrors errors) /\
    forall entry, In entry errors ->
                  In (fst entry) ["username"; "email"; "first_name"; "last_name";
                                  "password"; "password_confirm"].
Proof.
  unfold to_internal_value.
  set (o_u := Fields.run_validation (username_field db) (username d)).
  set (o_e := Fields.validate_method _ _).
  set (o_f := Fields.run_validation first_name_field (first_name d)).
  set (o_l := Fields.run_validation last_name_field (last_name d)).
  set (o_p := Fields.run_validation password_field (password d)).
  set (o_c := Fields.run_validation password_confirm_field (password_confirm d)).
  destruct (_ ++ _)%list as [|entry errors] eqn:E.
  - intros He. exists []. split; [|intros ? []].
    destruct o_u, o_p, o_c; congruence.
  - intros [= <-]. exists (entry :: errors). split; [reflexivity|].
    rewrite <- E. intros x Hx.
    repeat (apply in_app_or in Hx as [Hx|Hx];
            [apply errors_of_key in Hx; rewrite Hx; simpl; tauto|]).
    apply errors_of_key in Hx. rewrite Hx. simpl. tauto.
Qed.

(** An error of one field is among those reported. *)
Lemma to_internal_value_reports (d : data) (db : DB) (name : string)
      (errors : list string) :
  In (name, errors)
     (Fields.errors_of "username"
        (Fields.run_validation (username_field db) (username d))
      ++ Fields.errors_of "email"
           (Fields.validate_method (fun value => raised (validate_email value db))
                                   (Fields.run_validation email_field (email d)))
      ++ Fields.errors_of "first_name"
           (Fields.run_validation first_name_field (first_name d))
      ++ Fields.errors_of "last_name"
           (Fields.run_validation last_name_field (last_name d))
      ++ Fields.errors_of "password"
           (Fields.run_validation password_field (password d))
      ++ Fields.errors_of "password_confirm"
           (Fields.run_validation password_confirm_field (password_confirm d)))%list ->
  exists reported,
    to_internal_value d db = Raise (ValidationError (FieldErrors reported)) /\
    In (name, errors) reported.
Proof.
  unfold to_internal_value. intros Hin.
  destruct (_ ++ _)%list as [|entry reported]; [destruct Hin|].
  exists (entry :: reported). split; [reflexivity | exact Hin].
Qed.

Lemma run_validation_field_errors (d : data) (db : DB) (e : exn) :
  to_internal_value d db = Raise e -> run_validation d db = Raise e.
Proof. intros Ht. unfold run_validation. now rewrite Ht. Qed.

Lemma validate_mismatch (attrs : validated) :
  v_password attrs <> v_password_confirm attrs ->
  validate attrs = Raise (ValidationError (Message "Passwords don't match")).
Proof.
  intros Hne. unfold validate. apply String.eqb_neq in Hne. now rewrite Hne.
Qed.

(** Validation passes exactly on the payloads every field accepts whose two
    passwords are equal once trimmed. *)
Lemma run_validation_Ok (d : data) (db : DB) (a : validated) :
  run_validation d db = Ok a <->
  fields_acceptable d db /\
  trimmed_or_empty (password d) = trimmed_or_empty (password_confirm d) /\
  a = validated_of d.
Proof.
  unfold run_validation.
  destruct (to_internal_value d db) as [value|e] eqn:Ht.
  - apply to_internal_value_Ok in Ht as [Hacc ->].
    unfold validate. cbn [v_password v_password_confirm validated_of].
    destruct (String.eqb _ _) eqn:E; cbn [negb].
    + apply String.eqb_eq in E. split; [intros [= <-]; auto | intros (_ & _ & ->)];
        reflexivity.
    + apply String.eqb_neq in E. split; [discriminate|]. intros (_ & Heq & _).
      contradiction.
  - split; [discriminate|]. intros (Hacc & _ & ->).
    assert (Hok : to_internal_value d db = Ok (validated_of d))
      by (apply to_internal_value_Ok; auto).
    congruence.
Qed.

Lemma fails_with_entry {A} (reported : list (string * list string))
      (name msg : string) (errors : list string) :
  In (name, errors) reported -> In msg errors ->
  fails_with (A := A) (Raise (ValidationError (FieldErrors reported))) msg = true.
Proof.
  intros Hin Hmsg. cbn [fails_with messages]. apply existsb_exists.
  exists msg. split; [|apply String.eqb_refl].
  apply in_concat. exists errors. split; [|assumption].
  apply in_map_iff. exists (name, errors). auto.
Qed.

Lemma register_refused (now : Z) (payload : data) (db : DB) (e : exn) :
  to_internal_value payload db = Raise e ->
  exists d, register now payload db = (Raise (ValidationError d), db).
Proof.
  intros Ht. destruct (to_internal_value_Raise _ _ _ Ht) as (errors & -> & _).
  rewrite (register_invalid now _ _ _ (run_validation_field_errors _ _ _ Ht)).
  eauto.
Qed.

(** C3 (amended). When the two passwords differ once trimmed (as the fields
    read them): the object-level check [validate] raises "Passwords don't
    match" on whatever field-level validation hands it; the registration
    fails with a validation error and the store is unchanged; the error
    reported is "Passwords don't match", under [non_field_errors], exactly
    when every field accepts the payload; and otherwise the errors reported
    are those of the fields, with no "non_field_errors" among them. *)
Theorem registration_password_mismatch (now : Z) (db : DB) (payload : data) :
  trimmed_or_empty (password payload)
  <> trimmed_or_empty (password_confirm payload) ->
  (forall attrs,
      to_internal_value payload db = Ok attrs ->
      validate attrs = Raise (ValidationError (Message "Passwords don't match")))
  /\ (exists d, register now payload db = (Raise (ValidationError d), db))
  /\ (run_validation payload db
      = Raise (ValidationError
                 (FieldErrors [("non_field_errors", ["Passwords don't match"])]))
      <-> fields_acceptable payload db)
  /\ (~ fields_acceptable payload db ->
      exists errors,
        run_validation payload db = Raise (ValidationError (FieldErrors errors)) /\
        ~ In "non_field_errors" (map fst errors)).
Proof.
  intros Hne.
  assert (Hv : forall attrs,
             to_internal_value payload db = Ok attrs ->
             validate attrs
             = Raise (ValidationError (Message "Passwords don't match"))).
  { intros attrs Ht. apply to_internal_value_Ok in Ht as [_ ->].
    apply validate_mismatch. exact Hne. }
  assert (Hfields : forall e,
             to_internal_value payload db = Raise e ->
             exists errors,
               run_validation payload db
               = Raise (ValidationError (FieldErrors errors)) /\
               ~ In "non_field_errors" (map fst errors)).
  { intros e Ht. destruct (to_internal_value_Raise _ _ _ Ht) as (errors & -> & Hk).
    exists errors. split; [now apply run_validation_field_errors|].
    intros Hin. apply in_map_iff in Hin as (entry & Hfst & Hin).
    specialize (Hk entry Hin). rewrite Hfst in Hk. simpl in Hk.
    repeat (destruct Hk as [Hk|Hk]; [discriminate|]). exact Hk. }
  split; [exact Hv|split; [|split]].
  - destruct (to_internal_value payload db) as [attrs|e] eqn:Ht.
    + unfold register, run_validation. rewrite Ht, (Hv attrs eq_refl). eauto.
    + eapply register_refused. exact Ht.
  - split.
    + intros Hrun. destruct (to_internal_value payload db) as [attrs|e] eqn:Ht.
      * now apply to_internal_value_Ok in Ht.
      * destruct (Hfields e eq_refl) as (errors & Hr & Hk).
        rewrite Hrun in Hr. injection Hr as <-. exfalso. apply Hk. now left.
    + intros Hacc.
      assert (Ht : to_internal_value payload db = Ok (validated_of payload))
        by (apply to_internal_value_Ok; auto).
      unfold run_validation. now rewrite Ht, (Hv _ Ht).
  - intros Hnacc. destruct (to_internal_value payload db) as [attrs|e] eqn:Ht.
    + apply to_internal_value_Ok in Ht as [Hacc _]. contradiction.
    + exact (Hfields e eq_refl).
Qed.


(** X9. A password that is given, not blank, and of fewer than 8 characters
    once trimmed is refused at the field: the validation error has, under
    [password], "Ensure this field has at least 8 characters.", it has no
    entry [non_field_errors] ("Passwords don't match" is not reported), and
    nothing is written. A blank password is refused with "This field may
    not be blank." and a payload without the key with "This field is
    required.". *)
Theorem registration_short_password (now : Z) (db : DB) (payload : data) :
  let refused (msg : string) :=
    exists errors,
      run_validation payload db = Raise (ValidationError (FieldErrors errors)) /\
      In ("password", [msg]) errors /\
      ~ In "non_field_errors" (map fst errors) /\
      register now payload db = (Raise (ValidationError (FieldErrors errors)), db) in
  (forall p, password payload = Fields.Given p ->
             Py.strip p <> "" ->
             (String.length (Py.strip p) < password_min_length)%nat ->
             Py.contains_char zero (Py.strip p) = false ->
             refused "Ensure this field has at least 8 characters.")
  /\ (forall p, password payload = Fields.Given p -> Py.strip p = "" ->
                refused "This field may not be blank.")
  /\ (password payload = Fields.Absent -> refused "This field is required.").
Proof.
  intros refused.
  assert (Hrefused : forall msg,
             Fields.run_validation password_field (password payload)
             = Fields.Invalid [msg] -> refused msg).
  { intros msg Ho.
    destruct (to_internal_value_reports payload db "password" [msg])
      as (reported & Ht & Hin).
    { rewrite Ho. do 4 (apply in_or_app; right). apply in_or_app. left. now left. }
    exists reported.
    split; [now apply run_validation_field_errors|].
    split; [exact Hin|]. split.
    - destruct (to_internal_value_Raise _ _ _ Ht) as (errors & [= <-] & Hk).
      intros Hnf. apply in_map_iff in Hnf as (entry & Hfst & Hentry).
      specialize (Hk entry Hentry). rewrite Hfst in Hk. simpl in Hk.
      repeat (destruct Hk as [Hk|Hk]; [discriminate|]). exact Hk.
    - apply register_invalid. now apply run_validation_field_errors. }
  split; [|split].
  - intros p Hp Hne Hlen Hnul. apply Hrefused. rewrite Hp.
    unfold Fields.run_validation. rewrite is_blank_strip.
    apply String.eqb_neq in Hne. rewrite Hne.
    cbn [Fields.field_validators Fields.validators Fields.max_length
         Fields.min_length Fields.last_validators app password_field
         Fields.run_validators flat_map].
    unfold Fields.MinLengthValidator, Fields.ProhibitNullCharactersValidator.
    apply Nat.ltb_lt in Hlen. rewrite Hlen, Hnul. reflexivity.
  - intros p Hp He. apply Hrefused. rewrite Hp.
    unfold Fields.run_validation. rewrite is_blank_strip, He. reflexivity.
  - intros Hp. apply Hrefused. rewrite Hp. reflexivity.
Qed.

End Registration.

(** C3, as stated, fails: with two different passwords that are too short,
    the validation error is the one of the password field, and no
    "Passwords don't match" is reported; and two passwords that differ by a
    space at the end are read as the same password, and the registration
    succeeds. *)
Lemma registration_password_mismatch_counterexample :
  (UserRegistrationSerializer.password short_mismatch_payload
   <> UserRegistrationSerializer.password_confirm short_mismatch_payload
   /\ UserRegistrationSerializer.run_validation short_mismatch_payload empty_db
      = Raise (ValidationError
                 (FieldErrors
                    [("password", ["Ensure this field has at least 8 characters."])]))
   /\ fails_with
        (UserRegistrationSerializer.run_validation short_mismatch_payload empty_db)
        "Passwords don't match" = false)
  /\ (UserRegistrationSerializer.password padded_password_payload
      <> UserRegistrationSerializer.password_confirm padded_password_payload
      /\ is_ok (fst (register 100 padded_password_payload empty_db)) = true).
Proof. repeat split; discriminate. Qed.

Lemma registration_password_mismatch_witness :
  register 100 mismatch_payload jane_db
  = (Raise (ValidationError
              (FieldErrors [("non_field_errors", ["Passwords don't match"])])),
     jane_db).
Proof.
  assert (Hne : trimmed_or_empty
                  (UserRegistrationSerializer.password mismatch_payload)
                <> trimmed_or_empty
                     (UserRegistrationSerializer.password_confirm mismatch_payload))
    by discriminate.
  destruct (registration_password_mismatch 100 jane_db mismatch_payload Hne)
    as (_ & _ & Hrun & _).
  apply register_invalid. apply Hrun.
  apply (proj1 (to_internal_value_Ok mismatch_payload jane_db
                  (validated_of mismatch_payload))).
  reflexivity.
Defined.


Lemma registration_short_password_witness :
  exists errors,
    UserRegistrationSerializer.run_validation short_mismatch_payload jane_db
    = Raise (ValidationError (FieldErrors errors)) /\
    In ("password", ["Ensure this field has at least 8 characters."]) errors.
Proof.
  destruct (proj1 (registration_short_password 100 jane_db short_mismatch_payload)
                  "short" eq_refl)
    as (errors & Hr & Hin & _).
  - discriminate.
  - vm_compute. lia.
  - reflexivity.
  - exists errors. split; assumption.
Defined.

(** ** Tables: updating rows in place *)

Section Rows.
Context {A : Type} (key : A -> Z).

Lemma map_key_replace_row (r : A) (rows : list A) :
  map key (replace_row key r rows) = map key rows.
Proof.
  unfold replace_row. induction rows as [|x rows IH]; simpl; [reflexivity|].
  rewrite IH. destruct (key x =? key r) eqn:E; [|reflexivity].
  apply Z.eqb_eq in E. now rewrite E.
Qed.

(** Another column is preserved when the replaced rows agree with [r] on it. *)
Lemma map_other_replace_row {B} (g : A -> B) (r : A) (rows : list A) :
  (forall x, In x rows -> key x = key r -> g x = g r) ->
  map g (replace_row key r rows) = map g rows.
Proof.
  unfold replace_row. induction rows as [|x rows IH]; simpl; intros Hg;
    [reflexivity|].
  rewrite IH by (intros y Hy; apply Hg; now right).
  destruct (key x =? key r) eqn:E; [|reflexivity].
  apply Z.eqb_eq in E. f_equal. symmetry. apply Hg; [now left | exact E].
Qed.

Lemma replace_row_twice (r1 r2 : A) (rows : list A) :
  key r1 = key r2 ->
  replace_row key r2 (replace_row key r1 rows) = replace_row key r2 rows.
Proof.
  intros Hk. unfold replace_row. rewrite map_map. apply map_ext. intros x.
  rewrite Hk. destruct (key x =? key r2) eqn:E; [|now rewrite E].
  now rewrite Hk, Z.eqb_refl.
Qed.

Lemma replace_row_fresh (r : A) (rows : list A) :
  ~ In (key r) (map key rows) -> replace_row key r rows = rows.
Proof.
  unfold replace_row. induction rows as [|x rows IH]; simpl; intros Hn;
    [reflexivity|].
  rewrite IH by tauto.
  destruct (key x =? key r) eqn:E; [|reflexivity].
  apply Z.eqb_eq in E. exfalso. apply Hn. now left.
Qed.

Lemma replace_row_app (r : A) (rows1 rows2 : list A) :
  replace_row key r (rows1 ++ rows2)
  = (replace_row key r rows1 ++ replace_row key r rows2)%list.
Proof. unfold replace_row. apply map_app. Qed.

Lemma In_replace_row (r x : A) (rows : list A) :
  In x (replace_row key r rows) -> x = r \/ In x rows.
Proof.
  unfold replace_row. rewrite in_map_iff. intros [y [Hy Hin]].
  destruct (key y =? key r); subst; auto.
Qed.

Lemma existsb_key_In (k : Z) (rows : list A) :
  existsb (fun x => key x =? k) rows = true <-> In k (map key rows).
Proof.
  rewrite existsb_exists, in_map_iff.
  split; intros [x [H1 H2]]; exists x.
  - apply Z.eqb_eq in H2. tauto.
  - subst k. split; [assumption | apply Z.eqb_refl].
Qed.

Lemma find_key_In (k : Z) (rows : list A) :
  In k (map key rows) ->
  exists x, find (fun x => key x =? k) rows = Some x /\ In x rows /\ key x = k.
Proof.
  induction rows as [|y rows IH]; simpl; [tauto|].
  intros Hin. destruct (key y =? k) eqn:E.
  - apply Z.eqb_eq in E. exists y. auto.
  - destruct Hin as [Hy|Hin]; [apply Z.eqb_neq in E; contradiction|].
    destruct (IH Hin) as [x [Hf [Hx Hk]]]. exists x. auto.
Qed.

(** With unique keys, the row with a given key is the one found. *)
Lemma find_key_unique (x : A) (rows : list A) :
  NoDup (map key rows) -> In x rows ->
  find (fun y => key y =? key x) rows = Some x.
Proof.
  induction rows as [|y rows IH]; simpl; [tauto|].
  intros Hnd [->|Hin].
  - now rewrite Z.eqb_refl.
  - inversion Hnd as [|? ? Hy Hnd']; subst.
    destruct (key y =? key x) eqn:E.
    + apply Z.eqb_eq in E. exfalso. apply Hy. rewrite E. now apply in_map.
    + now apply IH.
Qed.

(** After the update, the row found under the key of [r] is [r]. *)
Lemma find_replace_row (r : A) (rows : list A) :
  In (key r) (map key rows) ->
  find (fun x => key x =? key r) (replace_row key r rows) = Some r.
Proof.
  unfold replace_row. induction rows as [|y rows IH]; simpl; [tauto|].
  intros Hin. destruct (key y =? key r) eqn:E.
  - now rewrite Z.eqb_refl.
  - rewrite E. apply IH. destruct Hin as [Hy|Hin]; [|assumption].
    apply Z.eqb_neq in E. contradiction.
Qed.

End Rows.

Lemma NoDup_map_filter {A B} (f : A -> B) (P : A -> bool) (rows : list A) :
  NoDup (map f rows) -> NoDup (map f (filter P rows)).
Proof.
  induction rows as [|x rows IH]; simpl; intros Hnd; [constructor|].
  inversion Hnd as [|? ? Hx Hnd']; subst.
  destruct (P x); simpl; [|now apply IH].
  constructor; [|now apply IH].
  intros Hin. apply Hx. apply in_map_iff in Hin as [y [Hy Hin]].
  apply filter_In in Hin as [Hin _]. rewrite <- Hy. now apply in_map.
Qed.

(** Filtering two tables on columns that agree row for row. *)
Lemma map_filter_agree {A B} (f : A -> Z) (g : B -> Z) (P : Z -> bool)
      (l1 : list A) (l2 : list B) :
  map f l1 = map g l2 ->
  map f (filter (fun x => P (f x)) l1) = map g (filter (fun y => P (g y)) l2).
Proof.
  revert l2. induction l1 as [|x l1 IH]; intros [|y l2]; simpl;
    try discriminate; [reflexivity|].
  intros [= Hxy Hrest]. rewrite Hxy.
  destruct (P (g y)); simpl; [rewrite Hxy; f_equal|]; now apply IH.
Qed.

Lemma count_key_one {A} (key : A -> Z) (k : Z) (rows : list A) :
  NoDup (map key rows) -> In k (map key rows) ->
  List.length (filter (fun x => key x =? k) rows) = 1%nat.
Proof.
  induction rows as [|x rows IH]; simpl; [tauto|].
  intros Hnd Hin. inversion Hnd as [|? ? Hx Hnd']; subst.
  destruct (key x =? k) eqn:E.
  - apply Z.eqb_eq in E. simpl. f_equal.
    assert (Hnone : forall rows', ~ In k (map key rows') ->
                                  filter (fun y => key y =? k) rows' = []).
    { induction rows' as [|y rows' IH']; simpl; intros Hn; [reflexivity|].
      destruct (key y =? k) eqn:E'.
      - apply Z.eqb_eq in E'. exfalso. apply Hn. now left.
      - apply IH'. tauto. }
    rewrite Hnone; [reflexivity|]. now rewrite <- E.
  - apply IH; [assumption|]. destruct Hin as [Hk|Hin]; [|assumption].
    apply Z.eqb_neq in E. contradiction.
Qed.

Lemma NoDup_map_injective {A B} (f : A -> B) (x y : A) (l : list A) :
  NoDup (map f l) -> In x l -> In y l -> f x = f y -> x = y.
Proof.
  induction l as [|z l IH]; simpl; [tauto|].
  intros Hnd Hx Hy Hf. inversion Hnd as [|? ? Hz Hnd']; subst.
  destruct Hx as [->|Hx], Hy as [->|Hy]; auto.
  - exfalso. apply Hz. rewrite Hf. now apply in_map.
  - exfalso. apply Hz. rewrite <- Hf. now apply in_map.
Qed.

(** ** The unique constraints *)

Lemma username_taken_false (self_pk : option Z) (name : string) (rows : list User.t) :
  username_taken self_pk name rows = false <->
  forall u, In u rows -> User.username u = name ->
            match self_pk with Some pk => User.id u = pk | None => False end.
Proof.
  unfold username_taken. split.
  - intros Hf u Hin Hname.
    assert (Hu : (String.eqb (User.username u) name &&
                  match self_pk with
                  | Some pk => negb (User.id u =? pk)
                  | None => true
                  end) = false).
    { destruct (_ && _) eqn:E; [|reflexivity].
      rewrite <- Hf. symmetry. apply existsb_exists. eauto. }
    apply String.eqb_eq in Hname. rewrite Hname in Hu. simpl in Hu.
    destruct self_pk as [pk|]; [|discriminate].
    apply negb_false_iff in Hu. now apply Z.eqb_eq.
  - intros Hall. destruct (existsb _ rows) eqn:E; [|reflexivity].
    apply existsb_exists in E as [u [Hin Hu]].
    apply andb_prop in Hu as [Hname Hpk]. apply String.eqb_eq in Hname.
    specialize (Hall u Hin Hname). destruct self_pk as [pk|]; [|contradiction].
    apply Z.eqb_eq in Hall. now rewrite Hall in Hpk.
Qed.

Lemma user_id_taken_false (self_pk : option Z) (user : Z)
      (rows : list UserProfile.t) :
  user_id_taken self_pk user rows = false <->
  forall p, In p rows -> UserProfile.user_id p = user ->
            match self_pk with Some pk => UserProfile.id p = pk | None => False end.
Proof.
  unfold user_id_taken. split.
  - intros Hf p Hin Huser.
    assert (Hp : ((UserProfile.user_id p =? user) &&
                  match self_pk with
                  | Some pk => negb (UserProfile.id p =? pk)
                  | None => true
                  end) = false).
    { destruct (_ && _) eqn:E; [|reflexivity].
      rewrite <- Hf. symmetry. apply existsb_exists. eauto. }
    apply Z.eqb_eq in Huser. rewrite Huser in Hp. simpl in Hp.
    destruct self_pk as [pk|]; [|discriminate].
    apply negb_false_iff in Hp. now apply Z.eqb_eq.
  - intros Hall. destruct (existsb _ rows) eqn:E; [|reflexivity].
    apply existsb_exists in E as [p [Hin Hp]].
    apply andb_prop in Hp as [Huser Hpk]. apply Z.eqb_eq in Huser.
    specialize (Hall p Hin Huser). destruct self_pk as [pk|]; [|contradiction].
    apply Z.eqb_eq in Hall. now rewrite Hall in Hpk.
Qed.

(** Writing a stored identity back with its username unchanged never
    violates the constraint. *)
Lemma username_taken_self (u u' : User.t) (rows : list User.t) :
  NoDup (map User.username rows) -> In u rows ->
  User.id u' = User.id u -> User.username u' = User.username u ->
  username_taken (Some (User.id u')) (User.username u') rows = false.
Proof.
  intros Hnd Hin Hid Hname. apply username_taken_false. intros x Hx Hxn.
  rewrite Hid. f_equal.
  apply (NoDup_map_injective User.username x u rows); congruence.
Qed.

Lemma user_id_taken_self (q p : UserProfile.t) (rows : list UserProfile.t) :
  NoDup (map UserProfile.user_id rows) -> In q rows ->
  UserProfile.id p = UserProfile.id q ->
  UserProfile.user_id p = UserProfile.user_id q ->
  user_id_taken (Some (UserProfile.id p)) (UserProfile.user_id p) rows = false.
Proof.
  intros Hnd Hin Hid Huser. apply user_id_taken_false. intros x Hx Hxu.
  rewrite Hid. f_equal.
  apply (NoDup_map_injective UserProfile.user_id x q rows); congruence.
Qed.

(** ** What [setattr] leaves alone *)

Lemma set_updated_at_keys (now : Z) (p : UserProfile.t) :
  UserProfile.id (UserProfile.set_updated_at now p) = UserProfile.id p /\
  UserProfile.user_id (UserProfile.set_updated_at now p) = UserProfile.user_id p.
Proof. destruct p. split; reflexivity. Qed.

Lemma setattr_keys (p : UserProfile.t)
      (items : list UserProfileUpdateSerializer.profile_attr) :
  let p' := fold_left UserProfileUpdateSerializer.setattr items p in
  UserProfile.id p' = UserProfile.id p /\
  UserProfile.user_id p' = UserProfile.user_id p /\
  UserProfile.created_at p' = UserProfile.created_at p /\
  UserProfile.resume p' = UserProfile.resume p /\
  UserProfile.profile_picture p' = UserProfile.profile_picture p.
Proof.
  revert p. induction items as [|item items IH]; intros p; simpl.
  - repeat split.
  - destruct (IH (UserProfileUpdateSerializer.setattr p item))
      as (H1 & H2 & H3 & H4 & H5).
    rewrite H1, H2, H3, H4, H5.
    destruct p, item; repeat split.
Qed.

Lemma setattr_user_keys (u : User.t)
      (items : list UserProfileUpdateSerializer.user_attr) :
  let u' := fold_left UserProfileUpdateSerializer.setattr_user items u in
  User.id u' = User.id u /\ User.username u' = User.username u /\
  User.email u' = User.email u /\ User.password u' = User.password u /\
  User.is_active u' = User.is_active u.
Proof.
  revert u. induction items as [|item items IH]; intros u; simpl.
  - repeat split.
  - destruct (IH (UserProfileUpdateSerializer.setattr_user u item))
      as (H1 & H2 & H3 & H4 & H5).
    rewrite H1, H2, H3, H4, H5. destruct item; repeat split.
Qed.

(** ** Consequences of the store invariant *)

Section StoreInvariant.
Context `{Framework}.

Lemma integer_fits_zero : integer_fits 0 = true.
Proof.
  unfold integer_fits. pose proof integer_range_zero as [Hlo Hhi].
  apply andb_true_intro. split; now apply Z.leb_le.
Qed.

Lemma consistent_profile_fits (db : DB) (p : UserProfile.t) :
  consistent db -> In p (userprofiles db) ->
  integer_fits (UserProfile.experience_years p) = true.
Proof.
  intros C Hin. pose proof (profiles_fit db C) as Hfit.
  rewrite Forall_forall in Hfit. now apply Hfit.
Qed.

Lemma set_updated_at_experience_years (now : Z) (p : UserProfile.t) :
  UserProfile.experience_years (UserProfile.set_updated_at now p)
  = UserProfile.experience_years p.
Proof. now destruct p. Qed.

Lemma consistent_user_ids_nodup (db : DB) :
  consistent db -> NoDup (map UserProfile.user_id (userprofiles db)).
Proof. intros C. rewrite (profiles_match db C). apply (user_pks_nodup db C). Qed.

(** Every stored profile has its identity. *)
Lemma consistent_profile_user (db : DB) (p : UserProfile.t) :
  consistent db -> In p (userprofiles db) ->
  exists u, get_user (UserProfile.user_id p) db = Some u /\
            In u (users db) /\ User.id u = UserProfile.user_id p.
Proof.
  intros C Hin. apply (find_key_In User.id).
  rewrite <- (profiles_match db C). now apply in_map.
Qed.

(** Every stored identity has its profile. *)
Lemma consistent_user_profile (db : DB) (pk : Z) :
  consistent db -> In pk (map User.id (users db)) ->
  exists p, get_profile_of pk db = Some p /\
            In p (userprofiles db) /\ UserProfile.user_id p = pk.
Proof.
  intros C Hin. apply (find_key_In UserProfile.user_id).
  now rewrite (profiles_match db C).
Qed.

(** Saving an instance that stands for a stored profile updates its row. *)
Lemma UserProfile_save_stored (now : Z) (p q : UserProfile.t) (db : DB) :
  NoDup (map UserProfile.user_id (userprofiles db)) ->
  In q (userprofiles db) ->
  UserProfile.id p = UserProfile.id q ->
  UserProfile.user_id p = UserProfile.user_id q ->
  integer_fits (UserProfile.experience_years p) = true ->
  UserProfile_save now p db
  = (Ok (UserProfile.set_updated_at now p),
     mkDB (users db)
          (replace_profile (UserProfile.set_updated_at now p) (userprofiles db))
          (user_seq db) (userprofile_seq db)).
Proof.
  intros Hnd Hin Hid Huser Hfit. unfold UserProfile_save. rewrite Hfit.
  cbn [negb].
  assert (Hpk : has_profile_pk (UserProfile.id p) (userprofiles db) = true).
  { apply (existsb_key_In UserProfile.id). rewrite Hid. now apply in_map. }
  rewrite Hpk. now rewrite (user_id_taken_self q p _ Hnd Hin Hid Huser).
Qed.

Lemma consistent_replace_profile (db : DB) (p q : UserProfile.t) :
  consistent db -> In q (userprofiles db) ->
  UserProfile.id p = UserProfile.id q ->
  UserProfile.user_id p = UserProfile.user_id q ->
  integer_fits (UserProfile.experience_years p) = true ->
  consistent (mkDB (users db) (replace_profile p (userprofiles db))
                   (user_seq db) (userprofile_seq db)).
Proof.
  intros C Hin Hid Huser Hfit. unfold replace_profile.
  assert (Hcol : map UserProfile.user_id
                     (replace_row UserProfile.id p (userprofiles db))
                 = map UserProfile.user_id (userprofiles db)).
  { apply map_other_replace_row. intros x Hx Hk.
    rewrite (NoDup_map_injective UserProfile.id x q (userprofiles db));
      [now symmetry| apply (profile_pks_nodup db C) | assumption | assumption
      | congruence]. }
  constructor; simpl.
  - apply (user_pks_nodup db C).
  - apply (usernames_nodup db C).
  - rewrite Hcol. apply (profiles_match db C).
  - rewrite map_key_replace_row. apply (profile_pks_nodup db C).
  - apply (user_pks_below db C).
  - rewrite map_key_replace_row. apply (profile_pks_below db C).
  - apply Forall_forall. intros x Hx. apply In_replace_row in Hx as [->|Hx];
      [exact Hfit | now apply (consistent_profile_fits db)].
Qed.

Lemma NoDup_usernames_replace (u' : User.t) (rows : list User.t) :
  NoDup (map User.id rows) -> NoDup (map User.username rows) ->
  username_taken (Some (User.id u')) (User.username u') rows = false ->
  NoDup (map User.username (replace_row User.id u' rows)).
Proof.
  intros Hid Hname Hfree.
  pose proof (proj1 (username_taken_false _ _ _) Hfree) as Hother. clear Hfree.
  simpl in Hother.
  induction rows as [|x rows IH]; simpl; [constructor|].
  inversion Hid as [|? ? Hx Hid']; subst.
  inversion Hname as [|? ? Hxn Hname']; subst.
  destruct (User.id x =? User.id u') eqn:E.
  - apply Z.eqb_eq in E. fold (replace_row User.id u' rows).
    rewrite replace_row_fresh by (now rewrite <- E).
    constructor; [|assumption].
    intros Hin. apply in_map_iff in Hin as [y [Hy Hin]].
    apply Hx. rewrite E, <- (Hother y); [now apply in_map | now right | assumption].
  - fold (replace_row User.id u' rows). constructor.
    + intros Hin. apply in_map_iff in Hin as [y [Hy Hin]].
      apply In_replace_row in Hin as [->|Hin].
      * apply Z.eqb_neq in E. apply E. apply Hother; [now left | now symmetry].
      * apply Hxn. rewrite <- Hy. now apply in_map.
    + apply IH; try assumption. intros y Hy. apply Hother. now right.
Qed.

Lemma consistent_replace_user (db : DB) (u' : User.t) :
  consistent db ->
  username_taken (Some (User.id u')) (User.username u') (users db) = false ->
  consistent (mkDB (replace_user u' (users db)) (userprofiles db)
                   (user_seq db) (userprofile_seq db)).
Proof.
  intros C Hfree. unfold replace_user. constructor; simpl.
  - rewrite map_key_replace_row. apply (user_pks_nodup db C).
  - apply NoDup_usernames_replace;
      [apply (user_pks_nodup db C) | apply (usernames_nodup db C) | assumption].
  - rewrite map_key_replace_row. apply (profiles_match db C).
  - apply (profile_pks_nodup db C).
  - rewrite map_key_replace_row. apply (user_pks_below db C).
  - apply (profile_pks_below db C).
  - apply (profiles_fit db C).
Qed.

Lemma NoDup_snoc {A} (l : list A) (x : A) :
  NoDup l -> ~ In x l -> NoDup (l ++ [x]).
Proof.
  intros Hl Hx. apply NoDup_app; [assumption | repeat constructor; auto |].
  intros a Ha [<-|[]]. contradiction.
Qed.

(** ** Creating an identity *)

Lemma fresh_user_seq (db : DB) :
  consistent db -> ~ In (user_seq db) (map User.id (users db)).
Proof.
  intros C Hin. pose proof (user_pks_below db C) as Hb.
  rewrite Forall_forall in Hb. specialize (Hb _ Hin). lia.
Qed.

Lemma fresh_userprofile_seq (db : DB) :
  consistent db -> ~ In (userprofile_seq db) (map UserProfile.id (userprofiles db)).
Proof.
  intros C Hin. pose proof (profile_pks_below db C) as Hb.
  rewrite Forall_forall in Hb. specialize (Hb _ Hin). lia.
Qed.

(** Saving a new identity on a consistent store: either the username is
    taken and nothing is written, or the identity is inserted and the hooks
    insert and save its profile of defaults. *)
Lemma User_save_new_spec (now : Z) (username email first_name last_name password : string)
      (db : DB) :
  consistent db ->
  User_save_new now username email first_name last_name password db
  = if username_taken None username (users db)
    then (Raise (IntegrityError "auth_user.username"), db)
    else let row := User.mk (user_seq db) username email first_name last_name
                            password true in
         (Ok row, with_new_identity now row db).
Proof.
  intros C. unfold User_save_new, bind.
  destruct (username_taken None username (users db)) eqn:Htaken; [reflexivity|].
  unfold post_save_User, create_user_profile, bind, UserProfile_objects_create.
  cbn [User.id userprofiles users user_seq userprofile_seq].
  assert (Hfree : user_id_taken None (user_seq db) (userprofiles db) = false).
  { apply user_id_taken_false. intros p Hp Hu.
    apply (fresh_user_seq db C). rewrite <- (profiles_match db C), <- Hu.
    now apply in_map. }
  rewrite Hfree. unfold ret, save_user_profile, bind, reverse_userprofile.
  set (row := UserProfile.defaults (userprofile_seq db) (user_seq db) now).
  unfold UserProfile_save.
  cbn [User.id userprofiles users user_seq userprofile_seq].
  change (UserProfile.experience_years row) with 0.
  rewrite integer_fits_zero. cbn [negb].
  assert (Hpk : has_profile_pk (UserProfile.id row) (userprofiles db ++ [row]) = true).
  { apply (existsb_key_In UserProfile.id). rewrite map_app. apply in_or_app.
    right. now left. }
  rewrite Hpk.
  assert (Hself : user_id_taken (Some (UserProfile.id row)) (UserProfile.user_id row)
                                (userprofiles db ++ [row]) = false).
  { apply user_id_taken_false. intros p Hp Hu.
    apply in_app_or in Hp as [Hp|[<-|[]]]; [|reflexivity].
    exfalso. apply (fresh_user_seq db C). rewrite <- (profiles_match db C).
    change (user_seq db) with (UserProfile.user_id row). rewrite <- Hu.
    now apply in_map. }
  rewrite Hself.
  assert (Hrep : replace_profile (UserProfile.set_updated_at now row)
                                 (userprofiles db ++ [row])
                 = (userprofiles db ++ [row])%list).
  { unfold replace_profile. rewrite replace_row_app.
    rewrite replace_row_fresh by apply (fresh_userprofile_seq db C).
    unfold replace_row. simpl. now rewrite Z.eqb_refl. }
  rewrite Hrep. reflexivity.
Qed.

Lemma consistent_with_new_identity (now : Z) (row : User.t) (db : DB) :
  consistent db ->
  User.id row = user_seq db ->
  username_taken None (User.username row) (users db) = false ->
  consistent (with_new_identity now row db).
Proof.
  intros C Hid Hfree. unfold with_new_identity.
  pose proof (proj1 (username_taken_false _ _ _) Hfree) as Hname.
  pose proof (fresh_user_seq db C) as Hu.
  pose proof (fresh_userprofile_seq db C) as Hp.
  constructor; simpl; rewrite ?map_app; simpl.
  - apply NoDup_snoc; [apply (user_pks_nodup db C) | now rewrite Hid].
  - apply NoDup_snoc; [apply (usernames_nodup db C)|].
    intros Hin. apply in_map_iff in Hin as [u [Hun Hin]]. exact (Hname u Hin Hun).
  - now rewrite (profiles_match db C).
  - apply NoDup_snoc; [apply (profile_pks_nodup db C) | assumption].
  - apply Forall_app. split.
    + eapply Forall_impl; [|apply (user_pks_below db C)]. simpl. intros; lia.
    + constructor; [lia | constructor].
  - apply Forall_app. split.
    + eapply Forall_impl; [|apply (profile_pks_below db C)]. simpl. intros; lia.
    + constructor; [lia | constructor].
  - apply Forall_app. split; [apply (profiles_fit db C)|].
    constructor; [apply integer_fits_zero | constructor].
Qed.

(** ** Saving a stored identity *)

(** On a consistent store, [save()] on an identity that has a row either
    violates the username constraint and writes nothing, or updates the row
    and, through [save_user_profile], saves the profile [p] that
    [instance.userprofile] resolves to. *)
Lemma User_save_existing (now : Z) (instance : User.t)
      (cache : option UserProfile.t) (p : UserProfile.t) (db : DB) :
  consistent db ->
  In (User.id instance) (map User.id (users db)) ->
  match cache with
  | Some c => c = p
  | None => get_profile_of (User.id instance) db = Some p
  end ->
  In p (userprofiles db) ->
  User_save now instance cache db
  = if username_taken (Some (User.id instance)) (User.username instance) (users db)
    then (Raise (IntegrityError "auth_user.username"), db)
    else (Ok tt,
          mkDB (replace_user instance (users db))
               (replace_profile (UserProfile.set_updated_at now p) (userprofiles db))
               (user_seq db) (userprofile_seq db)).
Proof.
  intros C Hpk Hres Hin. unfold User_save, bind.
  apply (existsb_key_In User.id) in Hpk. unfold has_user_pk. rewrite Hpk.
  destruct (username_taken _ _ (users db)) eqn:Htaken; [reflexivity|].
  unfold post_save_User, create_user_profile, bind, ret, save_user_profile, bind.
  set (db1 := mkDB (replace_user instance (users db)) (userprofiles db)
                   (user_seq db) (userprofile_seq db)).
  assert (Hrev : reverse_userprofile instance cache db1 = (Ok p, db1)).
  { unfold reverse_userprofile. destruct cache as [c|]; [now subst c|].
    unfold get_profile_of in *. simpl. now rewrite Hres. }
  rewrite Hrev.
  rewrite (UserProfile_save_stored now p p db1);
    [reflexivity | apply (consistent_user_ids_nodup db C) | exact Hin
    | reflexivity | reflexivity | now apply (consistent_profile_fits db)].
Qed.

(** ** The profile update *)

Section UpdateSpec.
Import UserProfileUpdateSerializer.

(** On a consistent store, [update] on a stored profile: the identity row
    is rewritten when there are entries under [user] (and the hook of that
    save stamps the stored profile); then the profile row becomes the
    instance with its entries set and [updated_at] stamped, unless its
    [experience_years] does not fit the column: the final save raises and
    what was written before it stays. *)
Lemma update_spec (now : Z) (instance : UserProfile.t) (validated_data : validated)
      (u : User.t) (db : DB) :
  consistent db ->
  In instance (userprofiles db) ->
  get_user (UserProfile.user_id instance) db = Some u ->
  let changed := fold_left setattr (attrs validated_data) instance in
  let p' := UserProfile.set_updated_at now changed in
  let users' := match pop_user validated_data with
                | [] => users db
                | d => replace_user (fold_left setattr_user d u) (users db)
                end in
  update now instance validated_data db
  = if integer_fits (UserProfile.experience_years changed) then
      (Ok p',
       mkDB users' (replace_profile p' (userprofiles db))
            (user_seq db) (userprofile_seq db))
    else
      (Raise (OverflowError "Python int too large to convert to SQLite INTEGER"),
       mkDB users'
            (match pop_user validated_data with
             | [] => userprofiles db
             | _ => replace_profile (UserProfile.set_updated_at now instance)
                                    (userprofiles db)
             end)
            (user_seq db) (userprofile_seq db)).
Proof.
  intros C Hin Hu changed p' users'. unfold update, bind. subst users'.
  destruct (setattr_keys instance (attrs validated_data)) as (Hid & Huid & _).
  fold changed in Hid, Huid.
  destruct (pop_user validated_data) as [|item items] eqn:Hd.
  - unfold ret. fold changed.
    destruct (integer_fits (UserProfile.experience_years changed)) eqn:Hfit.
    + now rewrite (UserProfile_save_stored now _ instance db
                     (consistent_user_ids_nodup db C) Hin Hid Huid Hfit).
    + unfold UserProfile_save. rewrite Hfit. cbn [negb]. now destruct db.
  - unfold profile_user. rewrite Hu.
    set (u' := fold_left setattr_user (item :: items) u).
    destruct (setattr_user_keys u (item :: items)) as (Huk & Hun & _).
    fold u' in Huk, Hun.
    destruct (consistent_profile_user db instance C Hin) as (u0 & Hu0 & Hu0in & Hu0id).
    assert (u0 = u) by congruence. subst u0.
    assert (Hfree : username_taken (Some (User.id u')) (User.username u') (users db)
                    = false)
      by (apply (username_taken_self u u' _ (usernames_nodup db C) Hu0in Huk Hun)).
    rewrite (User_save_existing now u' (Some instance) instance db C);
      [| rewrite Huk; now apply in_map | reflexivity | exact Hin].
    rewrite Hfree.
    set (db1 := mkDB (replace_user u' (users db))
                     (replace_profile (UserProfile.set_updated_at now instance)
                                      (userprofiles db))
                     (user_seq db) (userprofile_seq db)).
    fold changed.
    destruct (integer_fits (UserProfile.experience_years changed)) eqn:Hfit.
    + destruct (set_updated_at_keys now instance) as (Hsid & Hsuid).
      assert (C1 : consistent db1).
      { apply (consistent_replace_profile
                 (mkDB (replace_user u' (users db)) (userprofiles db)
                       (user_seq db) (userprofile_seq db))
                 (UserProfile.set_updated_at now instance) instance);
          [now apply consistent_replace_user | exact Hin | exact Hsid | exact Hsuid|].
        rewrite set_updated_at_experience_years.
        now apply (consistent_profile_fits db). }
      assert (Hin1 : In (UserProfile.set_updated_at now instance) (userprofiles db1)).
      { simpl. unfold replace_profile, replace_row. apply in_map_iff.
        exists instance. rewrite Hsid, Z.eqb_refl. auto. }
      rewrite (UserProfile_save_stored now _ (UserProfile.set_updated_at now instance)
                 db1 (consistent_user_ids_nodup db1 C1) Hin1);
        [| congruence | congruence | exact Hfit].
      simpl. unfold replace_profile. rewrite replace_row_twice; [reflexivity|].
      destruct (set_updated_at_keys now changed) as (Hpid & _).
      congruence.
    + unfold UserProfile_save. rewrite Hfit. reflexivity.
Qed.

(** The store after [update], in either case, is consistent. *)
Lemma consistent_update (now : Z) (instance : UserProfile.t)
      (validated_data : validated) (db : DB) :
  consistent db ->
  In instance (userprofiles db) ->
  consistent (snd (update now instance validated_data db)).
Proof.
  intros C Hin.
  destruct (consistent_profile_user db instance C Hin) as (u & Hu & Huin & Huid).
  rewrite (update_spec now instance validated_data u db C Hin Hu). cbv zeta.
  destruct (setattr_keys instance (attrs validated_data)) as (Hid & Huser & _).
  destruct (set_updated_at_keys now (fold_left setattr (attrs validated_data) instance))
    as (Hsid & Hsuser).
  destruct (set_updated_at_keys now instance) as (Hiid & Hiuser).
  assert (Cu : forall d,
             consistent (mkDB (replace_user (fold_left setattr_user d u) (users db))
                              (userprofiles db) (user_seq db) (userprofile_seq db))).
  { intros d. destruct (setattr_user_keys u d) as (Huk & Hun & _).
    apply consistent_replace_user; [exact C|].
    apply (username_taken_self u _ _ (usernames_nodup db C) Huin Huk Hun). }
  destruct (integer_fits _) eqn:Hfit; cbn [snd].
  - destruct (pop_user validated_data) as [|item items] eqn:Hd.
    + apply (consistent_replace_profile db _ instance C Hin); try congruence.
      now rewrite set_updated_at_experience_years.
    + apply (consistent_replace_profile
               (mkDB (replace_user _ (users db)) (userprofiles db)
                     (user_seq db) (userprofile_seq db)) _ instance);
        [apply Cu | exact Hin | congruence | congruence|].
      now rewrite set_updated_at_experience_years.
  - destruct (pop_user validated_data) as [|item items] eqn:Hd.
    + now destruct db.
    + apply (consistent_replace_profile
               (mkDB (replace_user _ (users db)) (userprofiles db)
                     (user_seq db) (userprofile_seq db)) _ instance);
        [apply Cu | exact Hin | exact Hiid | exact Hiuser|].
      rewrite set_updated_at_experience_years.
      now apply (consistent_profile_fits db).
Qed.

End UpdateSpec.

(** ** Deleting an identity *)

Lemma Forall_map_filter {A} (key : A -> Z) (Q : Z -> Prop) (P : A -> bool)
      (rows : list A) :
  Forall Q (map key rows) -> Forall Q (map key (filter P rows)).
Proof.
  rewrite !Forall_forall. intros Hall k Hin.
  apply in_map_iff in Hin as [x [<- Hx]]. apply filter_In in Hx as [Hx _].
  apply Hall. now apply in_map.
Qed.

Lemma consistent_delete (pk : Z) (db : DB) :
  consistent db -> consistent (snd (User_delete pk db)).
Proof.
  intros C. unfold User_delete. constructor; simpl.
  - apply NoDup_map_filter, (user_pks_nodup db C).
  - apply NoDup_map_filter, (usernames_nodup db C).
  - apply (map_filter_agree UserProfile.user_id User.id (fun k => negb (k =? pk))),
      (profiles_match db C).
  - apply NoDup_map_filter, (profile_pks_nodup db C).
  - apply Forall_map_filter, (user_pks_below db C).
  - apply Forall_map_filter, (profile_pks_below db C).
  - apply Forall_forall. intros x Hx. apply filter_In in Hx as [Hx _].
    now apply (consistent_profile_fits db).
Qed.

Lemma find_filter_none {A} (key : A -> Z) (pk : Z) (rows : list A) :
  find (fun x => key x =? pk) (filter (fun x => negb (key x =? pk)) rows) = None.
Proof.
  induction rows as [|x rows IH]; simpl; [reflexivity|].
  destruct (key x =? pk) eqn:E; simpl; [assumption|]. now rewrite E.
Qed.

Lemma filter_filter_none {A} (key : A -> Z) (pk : Z) (rows : list A) :
  filter (fun x => key x =? pk) (filter (fun x => negb (key x =? pk)) rows) = [].
Proof.
  induction rows as [|x rows IH]; simpl; [reflexivity|].
  destruct (key x =? pk) eqn:E; simpl; [assumption|]. now rewrite E.
Qed.

(** ** The invariant holds in every reachable state *)

Lemma consistent_empty : consistent empty_db.
Proof. constructor; simpl; constructor. Qed.

Lemma create_user_spec (now : Z) (username : string) (email : option string)
      (password : string) (first_name last_name : option string) (db : DB) :
  consistent db ->
  create_user now username email password first_name last_name db
  = if Py.truthy username then
      if username_taken None (normalize_username username) (users db)
      then (Raise (IntegrityError "auth_user.username"), db)
      else let row := User.mk (user_seq db) (normalize_username username)
                              (normalize_email
                                 (match email with Some e => e | None => "" end))
                              (match first_name with Some v => v | None => "" end)
                              (match last_name with Some v => v | None => "" end)
                              (make_password password) true in
           (Ok row, with_new_identity now row db)
    else (Raise (ValueError "The given username must be set"), db).
Proof.
  intros C. unfold create_user.
  destruct (Py.truthy username); [|reflexivity].
  now apply User_save_new_spec.
Qed.

Lemma consistent_create_user (now : Z) (username : string) (email : option string)
      (password : string) (first_name last_name : option string) (db : DB) :
  consistent db ->
  consistent (snd (create_user now username email password first_name last_name db)).
Proof.
  intros C. rewrite (create_user_spec _ _ _ _ _ _ _ C).
  destruct (Py.truthy username); [|exact C].
  destruct (username_taken None _ (users db)) eqn:Hfree; [exact C|].
  simpl. apply consistent_with_new_identity; [exact C | reflexivity | exact Hfree].
Qed.

Lemma step_consistent (db db' : DB) : consistent db -> step db db' -> consistent db'.
Proof.
  intros C Hstep. destruct Hstep as [now payload db|now instance vd db Hin
                                    |now instance db Hpk|pk db].
  - unfold register.
    destruct (UserRegistrationSerializer.run_validation payload db); [|exact C].
    now apply consistent_create_user.
  - now apply consistent_update.
  - apply (existsb_key_In User.id) in Hpk.
    destruct (consistent_user_profile db _ C Hpk) as (p & Hp & Hpin & Hpu).
    rewrite (User_save_existing now instance None p db C Hpk Hp Hpin).
    destruct (username_taken _ _ (users db)) eqn:Hfree; [exact C|]. simpl.
    destruct (set_updated_at_keys now p) as (Hsid & Hsuser).
    apply (consistent_replace_profile
             (mkDB (replace_user instance (users db)) (userprofiles db)
                   (user_seq db) (userprofile_seq db)) _ p);
      [| exact Hpin | exact Hsid | exact Hsuser|].
    + now apply consistent_replace_user.
    + rewrite set_updated_at_experience_years.
      now apply (consistent_profile_fits db).
  - now apply consistent_delete.
Qed.

Lemma reachable_consistent (db : DB) : reachable db -> consistent db.
Proof.
  induction 1 as [|db db' _ IH Hstep]; [apply consistent_empty|].
  exact (step_consistent db db' IH Hstep).
Qed.

End StoreInvariant.

(** ** Registration *)

Lemma find_snoc_fresh {A} (key : A -> Z) (x : A) (rows : list A) :
  ~ In (key x) (map key rows) ->
  find (fun y => key y =? key x) (rows ++ [x]) = Some x.
Proof.
  induction rows as [|y rows IH]; simpl; intros Hn.
  - now rewrite Z.eqb_refl.
  - destruct (key y =? key x) eqn:E.
    + apply Z.eqb_eq in E. exfalso. apply Hn. now left.
    + apply IH. tauto.
Qed.

Lemma filter_out_fresh {A} (key : A -> Z) (x : A) (rows : list A) :
  ~ In (key x) (map key rows) ->
  filter (fun y => negb (key y =? key x)) (rows ++ [x]) = rows.
Proof.
  induction rows as [|y rows IH]; simpl; intros Hn.
  - now rewrite Z.eqb_refl.
  - destruct (key y =? key x) eqn:E.
    + apply Z.eqb_eq in E. exfalso. apply Hn. now left.
    + simpl. f_equal. apply IH. tauto.
Qed.

Lemma jane_db_reachable : reachable jane_db.
Proof.
  change jane_db with (snd (register 100 jane_payload empty_db)).
  apply (reachable_step empty_db); constructor.
Qed.

Section RegistrationSucceeds.
Context `{Framework}.

Import UserRegistrationSerializer.

Lemma parsed_name_or_empty (i : Fields.input string) :
  match parsed_name i with Some v => v | None => "" end = trimmed_or_empty i.
Proof. now destruct i. Qed.

(** What [create] does with the validated dictionary of a payload. *)
Lemma create_validated_of (now : Z) (payload : data) (db : DB) :
  consistent db ->
  username_acceptable (username payload) db ->
  create now (validated_of payload) db
  = if username_taken None
         (normalize_username (trimmed_or_empty (username payload))) (users db)
    then (Raise (IntegrityError "auth_user.username"), db)
    else (Ok (registered (user_seq db) payload),
          with_new_identity now (registered (user_seq db) payload) db).
Proof.
  intros C (s & Hs & Hne & _). unfold create.
  rewrite (create_user_spec _ _ _ _ _ _ _ C).
  cbn [validated_of v_username v_email v_first_name v_last_name v_password].
  rewrite !parsed_name_or_empty.
  assert (Htruthy : Py.truthy (trimmed_or_empty (username payload)) = true).
  { rewrite Hs. cbn [trimmed_or_empty]. destruct (Py.strip s);
      [contradiction | reflexivity]. }
  rewrite Htruthy. reflexivity.
Qed.

(** The store after a registration that succeeded, on a consistent store. *)
Lemma register_ok_spec (now : Z) (payload : data) (u : User.t) (db db' : DB) :
  consistent db ->
  register now payload db = (Ok u, db') ->
  fields_acceptable payload db /\
  trimmed_or_empty (password payload) = trimmed_or_empty (password_confirm payload) /\
  username_taken None (normalize_username (trimmed_or_empty (username payload)))
                 (users db) = false /\
  u = registered (user_seq db) payload /\
  db' = with_new_identity now u db.
Proof.
  intros C Hreg. unfold register in Hreg.
  destruct (run_validation payload db) as [vd|e] eqn:Hrun; [|discriminate].
  apply run_validation_Ok in Hrun as (Hacc & Hpw & ->).
  rewrite (create_validated_of now payload db C (proj1 Hacc)) in Hreg.
  destruct (username_taken None _ (users db)); [discriminate|].
  injection Hreg as <- <-. auto.
Qed.

(** C9 (amended). In a reachable store, a payload that every field accepts
    (a username that is given, not blank, valid, of at most 150 characters
    and not in use; an email that is absent or, once trimmed, not in use and
    empty or a valid address of at most 254 characters; names absent or of
    at most 150 characters; a password of at least 8 characters; a
    confirmation that is given), whose two passwords are equal once trimmed
    and whose username, as normalised, is not in use, is registered: the
    identity is inserted with the texts trimmed and the hashed password as
    its credential, [password_confirm] has no part in what is created, and
    the hook inserts its profile with every optional column empty,
    [experience_years] 0 and [is_recruiter] false. *)
Theorem registration_succeeds (now : Z) (db : DB) (payload : data) :
  reachable db ->
  fields_acceptable payload db ->
  trimmed_or_empty (password payload) = trimmed_or_empty (password_confirm payload) ->
  (forall u, In u (users db) ->
             User.username u
             <> normalize_username (trimmed_or_empty (username payload))) ->
  exists u p db',
    register now payload db = (Ok u, db') /\
    u = User.mk (user_seq db)
                (normalize_username (trimmed_or_empty (username payload)))
                (normalize_email (trimmed_or_empty (email payload)))
                (trimmed_or_empty (first_name payload))
                (trimmed_or_empty (last_name payload))
                (make_password (trimmed_or_empty (password payload))) true /\
    p = UserProfile.mk (userprofile_seq db) (User.id u) None None None None None
                       0 None None None None false None now now /\
    users db' = (users db ++ [u])%list /\
    userprofiles db' = (userprofiles db ++ [p])%list /\
    get_user (User.id u) db' = Some u /\
    get_profile_of (User.id u) db' = Some p /\
    (forall attrs other,
        run_validation payload db = Ok attrs ->
        create now (mkvalidated (v_username attrs) (v_email attrs)
                                (v_first_name attrs) (v_last_name attrs)
                                (v_password attrs) other) db
        = create now attrs db).
Proof.
  intros Hreach Hacc Hpw Hfree.
  pose proof (reachable_consistent db Hreach) as C.
  assert (Hrun : run_validation payload db = Ok (validated_of payload))
    by (apply run_validation_Ok; auto).
  assert (Htaken : username_taken
                     None (normalize_username (trimmed_or_empty (username payload)))
                     (users db) = false).
  { apply username_taken_false. intros u Hin Hu. exact (Hfree u Hin Hu). }
  eexists _, _, _. split; [|split; [reflexivity|split; [reflexivity|]]].
  - unfold register. rewrite Hrun.
    rewrite (create_validated_of now payload db C (proj1 Hacc)), Htaken.
    reflexivity.
  - repeat split.
    + unfold get_user. simpl.
      apply (find_snoc_fresh User.id (User.mk (user_seq db) _ _ _ _ _ _)).
      apply (fresh_user_seq db C).
    + unfold get_profile_of. simpl.
      apply (find_snoc_fresh UserProfile.user_id
               (UserProfile.defaults (userprofile_seq db) (user_seq db) now)).
      rewrite (profiles_match db C). apply (fresh_user_seq db C).
Qed.

(** X10. A registration succeeds only on a payload that every field
    accepts (the conditions on the email bear on it only when its key is
    given), whose two passwords are equal once trimmed and whose username,
    as normalised, no identity has. *)
Theorem registration_success_requires (now : Z) (db db' : DB) (payload : data)
        (u : User.t) :
  reachable db ->
  register now payload db = (Ok u, db') ->
  fields_acceptable payload db
  /\ trimmed_or_empty (password payload) = trimmed_or_empty (password_confirm payload)
  /\ (forall x, In x (users db) ->
                User.username x
                <> normalize_username (trimmed_or_empty (username payload))).
Proof.
  intros Hreach Hreg. pose proof (reachable_consistent db Hreach) as C.
  destruct (register_ok_spec now payload u db db' C Hreg)
    as (Hacc & Hpw & Htaken & _).
  split; [exact Hacc|split; [exact Hpw|]].
  intros x Hin Hx. exact (proj1 (username_taken_false _ _ _) Htaken x Hin Hx).
Qed.

(** X11. After a registration that succeeded, on a reachable store, with an
    email that normalisation leaves as the field read it, the same payload
    is refused: the error carries "A user with this email already exists."
    and the second attempt writes nothing. *)
Theorem registration_twice_refused (now now' : Z) (db db' : DB) (payload : data)
        (u : User.t) (e : string) :
  reachable db ->
  register now payload db = (Ok u, db') ->
  email payload = Fields.Given e ->
  normalize_email (Py.strip e) = Py.strip e ->
  fails_with (run_validation payload db')
             "A user with this email already exists." = true
  /\ exists d, register now' payload db' = (Raise (ValidationError d), db').
Proof.
  intros Hreach Hreg He Hnorm. pose proof (reachable_consistent db Hreach) as C.
  destruct (register_ok_spec now payload u db db' C Hreg)
    as (Hacc & _ & _ & Hu & ->).
  destruct Hacc as (_ & Hemail & _).
  destruct Hemail as [Habs|(s & Hs & _ & Hform)]; [congruence|].
  assert (s = e) by congruence. subst s.
  assert (Hex : email_exists (Py.strip e) (with_new_identity now u db) = true).
  { apply email_exists_iff. exists u. split.
    - cbn [users with_new_identity]. apply in_or_app. right. now left.
    - rewrite Hu. cbn [User.email registered]. rewrite He.
      cbn [trimmed_or_empty]. exact Hnorm. }
  set (db1 := with_new_identity now u db) in *.
  assert (Ho : Fields.validate_method
                 (fun value => raised (validate_email value db1))
                 (Fields.run_validation email_field (email payload))
               = Fields.Invalid ["A user with this email already exists."]).
  { rewrite He.
    rewrite (proj2 (email_field_Valid (Fields.Given e) (Py.strip e))) by eauto.
    cbn [Fields.validate_method]. rewrite raised_validate_email. now rewrite Hex. }
  destruct (to_internal_value_reports payload db1 "email"
              ["A user with this email already exists."])
    as (reported & Ht & Hin).
  { rewrite Ho. apply in_or_app. right. apply in_or_app. left. now left. }
  split.
  - rewrite (run_validation_field_errors _ _ _ Ht).
    apply (fails_with_entry reported "email" _ _ Hin). now left.
  - eapply register_refused. exact Ht.
Qed.

(** X12. Deleting the identity that a registration has just created puts
    both tables back as they were before the registration. *)
Theorem register_then_delete (now : Z) (db db' : DB) (payload : data) (u : User.t) :
  reachable db ->
  register now payload db = (Ok u, db') ->
  users (snd (User_delete (User.id u) db')) = users db
  /\ userprofiles (snd (User_delete (User.id u) db')) = userprofiles db.
Proof.
  intros Hreach Hreg. pose proof (reachable_consistent db Hreach) as C.
  destruct (register_ok_spec now payload u db db' C Hreg) as (_ & _ & _ & Hu & ->).
  assert (Hid : User.id u = user_seq db) by (rewrite Hu; reflexivity).
  unfold User_delete, with_new_identity. cbn [snd users userprofiles]. split.
  - apply (filter_out_fresh User.id u). rewrite Hid. apply (fresh_user_seq db C).
  - set (row := UserProfile.defaults (userprofile_seq db) (User.id u) now).
    change (User.id u) with (UserProfile.user_id row) at 1.
    apply (filter_out_fresh UserProfile.user_id row).
    rewrite (profiles_match db C). unfold row. cbn [UserProfile.user_id UserProfile.defaults].
    rewrite Hid. apply (fresh_user_seq db C).
Qed.

End RegistrationSucceeds.

Lemma bob_payload_acceptable : fields_acceptable bob_payload jane_db.
Proof.
  assert (Ht : UserRegistrationSerializer.to_internal_value bob_payload jane_db
               = Ok (validated_of bob_payload)) by reflexivity.
  exact (proj1 (proj1 (to_internal_value_Ok _ _ _) Ht)).
Qed.

(** C9, as stated, fails: matching passwords of 13 characters and an email
    nobody uses, but the username of an existing identity, or a username
    with a blank in it, or an email that is no address; the registration is
    refused and nothing is created. *)
Lemma registration_succeeds_counterexample :
  reachable jane_db
  /\ (UserRegistrationSerializer.password taken_username_payload
      = UserRegistrationSerializer.password_confirm taken_username_payload
      /\ UserRegistrationSerializer.password taken_username_payload
         = Fields.Given "correct-horse"
      /\ email_exists "janet@example.org" jane_db = false
      /\ register 100 taken_username_payload jane_db
         = (Raise (ValidationError
                     (FieldErrors
                        [("username", ["A user with that username already exists."])])),
            jane_db))
  /\ (email_exists "bob@example.org" jane_db = false
      /\ register 100 (payload "bob smith" "bob@example.org" "Bob" "Smith"
                               "correct-horse" "correct-horse") jane_db
         = (Raise (ValidationError
                     (FieldErrors
                        [("username",
                          ["Enter a valid username. This value may contain only letters, numbers, and @/./+/-/_ characters."])])),
            jane_db))
  /\ (email_exists "not-an-email" jane_db = false
      /\ register 100 (payload "bob" "not-an-email" "Bob" "Burns"
                               "correct-horse" "correct-horse") jane_db
         = (Raise (ValidationError
                     (FieldErrors [("email", ["Enter a valid email address."])])),
            jane_db)).
Proof.
  split; [apply jane_db_reachable|]. repeat split.
Qed.

Lemma registration_succeeds_witness :
  exists u db',
    register 200 bob_payload jane_db = (Ok u, db') /\
    User.password u = "hashed$correct-horse" /\
    get_profile_of (User.id u) db'
    = Some (UserProfile.mk 2 2 None None None None None 0 None None None None
                           false None 200 200).
Proof.
  destruct (registration_succeeds 200 jane_db bob_payload jane_db_reachable
              bob_payload_acceptable)
    as (u & p & db' & Hreg & Hu & Hp & _ & _ & _ & Hget & _).
  - reflexivity.
  - intros u [<-|[]]. discriminate.
  - exists u, db'. split; [exact Hreg|]. subst u p. split; [reflexivity|exact Hget].
Defined.

Lemma registration_success_requires_witness :
  trimmed_or_empty (UserRegistrationSerializer.password bob_payload)
  = trimmed_or_empty (UserRegistrationSerializer.password_confirm bob_payload).
Proof.
  apply (registration_success_requires
           200 jane_db (with_new_identity 200 bob jane_db) bob_payload bob
           jane_db_reachable).
  reflexivity.
Defined.

Lemma registration_twice_refused_witness :
  fails_with (UserRegistrationSerializer.run_validation bob_payload
                (with_new_identity 200 bob jane_db))
             "A user with this email already exists." = true.
Proof.
  apply (registration_twice_refused
           200 300 jane_db (with_new_identity 200 bob jane_db) bob_payload bob
           "bob@example.org" jane_db_reachable); reflexivity.
Defined.

Lemma register_then_delete_witness :
  users (snd (User_delete 2 (with_new_identity 200 bob jane_db))) = users jane_db.
Proof.
  apply (register_then_delete
           200 jane_db (with_new_identity 200 bob jane_db) bob_payload bob
           jane_db_reachable).
  reflexivity.
Defined.

(** ** Profile updates from a request *)

Section UpdateRequest.
Context `{Framework}.

Import UserProfileUpdateSerializer.

(** *** What the fields of the update serializer validate to *)

Lemma name_value (f : Fields.CharField) (name : string) (i : Fields.input string) :
  Fields.errors_of name (Fields.run_validation f i) = [] ->
  Fields.value_of (Fields.run_validation f i) = parsed_name i.
Proof.
  destruct (Fields.run_validation f i) as [|v|errors] eqn:E; [| |discriminate];
    intros _.
  - apply run_validation_Skip in E as [-> _]. reflexivity.
  - apply run_validation_Valid in E as (s & -> & -> & _). reflexivity.
Qed.

Lemma text_value (f : Fields.CharField) (name : string) (i : Fields.input string) :
  Fields.errors_of name (Fields.run_validation_nullable f i) = [] ->
  Fields.value_of (Fields.run_validation_nullable f i) = parsed_text i.
Proof.
  destruct i as [| |s]; [|reflexivity|]; unfold Fields.run_validation_nullable.
  - destruct (Fields.run_validation f Fields.Absent) as [|v|errors] eqn:E;
      [reflexivity| |discriminate].
    apply run_validation_Valid in E as (s & [=] & _).
  - destruct (Fields.run_validation f (Fields.Given s)) as [|v|errors] eqn:E;
      [| |discriminate]; intros _.
    + apply run_validation_Skip in E as [[=] _].
    + apply run_validation_Valid in E as (s' & [= <-] & -> & _). reflexivity.
Qed.

Lemma date_value (name : string) (i : Fields.input string) :
  Fields.errors_of name (Fields.DateField_run_validation parse_date i) = [] ->
  Fields.value_of (Fields.DateField_run_validation parse_date i) = parsed_date i.
Proof.
  destruct i as [| |s]; try reflexivity. cbn [Fields.DateField_run_validation parsed_date].
  destruct (parse_date s); [reflexivity | discriminate].
Qed.

Lemma integer_value (name : string) (i : Fields.input Z) :
  Fields.errors_of name
    (Fields.IntegerField_run_validation integer_min integer_max i) = [] ->
  Fields.value_of (Fields.IntegerField_run_validation integer_min integer_max i)
  = parsed_value i
  /\ forall z, i = Fields.Given z -> integer_fits z = true.
Proof.
  destruct i as [| |z]; cbn [Fields.IntegerField_run_validation flat_map app].
  - split; [reflexivity | discriminate].
  - discriminate.
  - unfold Fields.MaxValueValidator, Fields.MinValueValidator, integer_fits.
    destruct (integer_max <? z) eqn:Hmax; [discriminate|].
    destruct (z <? integer_min) eqn:Hmin; [discriminate|].
    intros _. split; [reflexivity|]. intros z' [= <-].
    apply Z.ltb_ge in Hmax, Hmin. apply andb_true_intro.
    split; now apply Z.leb_le.
Qed.

Lemma boolean_value (name : string) (i : Fields.input bool) :
  Fields.errors_of name (Fields.BooleanField_run_validation i) = [] ->
  Fields.value_of (Fields.BooleanField_run_validation i) = parsed_value i.
Proof. destruct i; reflexivity. Qed.

(** The validated data of a request that passes: under each key that is
    present, the value as its field reads it; and an [experience_years]
    that fits its column. *)
Lemma request_validated (r : request) (validated_data : validated) :
  to_internal_value r = Ok validated_data ->
  validated_data
  = mk (match (entry first_name (parsed_name (r_first_name r))
               ++ entry last_name (parsed_name (r_last_name r)))%list with
        | [] => None
        | d => Some d
        end)
       (entry phone_number (parsed_text (r_phone_number r))
        ++ entry date_of_birth (parsed_date (r_date_of_birth r))
        ++ entry location (parsed_text (r_location r))
        ++ entry bio (parsed_text (r_bio r))
        ++ entry skills (parsed_text (r_skills r))
        ++ entry experience_years (parsed_value (r_experience_years r))
        ++ entry linkedin_url (parsed_text (r_linkedin_url r))
        ++ entry github_url (parsed_text (r_github_url r))
        ++ entry is_recruiter (parsed_value (r_is_recruiter r))
        ++ entry company (parsed_text (r_company r)))%list
  /\ forall z, r_experience_years r = Fields.Given z -> integer_fits z = true.
Proof.
  unfold to_internal_value.
  match goal with
  | |- match ?l with _ => _ end = _ -> _ => destruct l eqn:E; [|discriminate]
  end.
  intros [= <-].
  apply app_eq_nil in E as [E1 E]. apply app_eq_nil in E as [E2 E].
  apply app_eq_nil in E as [E3 E]. apply app_eq_nil in E as [E4 E].
  apply app_eq_nil in E as [E5 E]. apply app_eq_nil in E as [E6 E].
  apply app_eq_nil in E as [E7 E]. apply app_eq_nil in E as [E8 E].
  apply app_eq_nil in E as [E9 E]. apply app_eq_nil in E as [E10 E].
  apply app_eq_nil in E as [E11 E12].
  destruct (integer_value _ _ E8) as [Hex Hfit].
  rewrite (name_value _ _ _ E1), (name_value _ _ _ E2),
    (text_value _ _ _ E3), (date_value _ _ E4), (text_value _ _ _ E5),
    (text_value _ _ _ E6), (text_value _ _ _ E7), Hex,
    (text_value _ _ _ E9), (text_value _ _ _ E10), (boolean_value _ _ E11),
    (text_value _ _ _ E12).
  split; [reflexivity | exact Hfit].
Qed.

(** The [setattr] loop over profile entries. *)
Lemma setattr_entries (now : Z) (instance : UserProfile.t)
      (ph : option (option string)) (dob : option (option date))
      (loc b sk : option (option string)) (ex : option Z)
      (li gh : option (option string)) (rec : option bool)
      (co : option (option string)) :
  UserProfile.set_updated_at now
    (fold_left setattr
       (entry phone_number ph ++ entry date_of_birth dob ++ entry location loc
        ++ entry bio b ++ entry skills sk ++ entry experience_years ex
        ++ entry linkedin_url li ++ entry github_url gh
        ++ entry is_recruiter rec ++ entry company co)%list
       instance)
  = UserProfile.mk
      (UserProfile.id instance) (UserProfile.user_id instance)
      (given_or ph (UserProfile.phone_number instance))
      (given_or dob (UserProfile.date_of_birth instance))
      (given_or loc (UserProfile.location instance))
      (given_or b (UserProfile.bio instance))
      (given_or sk (UserProfile.skills instance))
      (given_or ex (UserProfile.experience_years instance))
      (given_or li (UserProfile.linkedin_url instance))
      (given_or gh (UserProfile.github_url instance))
      (UserProfile.resume instance) (UserProfile.profile_picture instance)
      (given_or rec (UserProfile.is_recruiter instance))
      (given_or co (UserProfile.company instance))
      (UserProfile.created_at instance) now.
Proof.
  destruct instance.
  destruct ph, dob, loc, b, sk, ex, li, gh, rec, co; reflexivity.
Qed.

(** The [setattr] loop over identity entries. *)
Lemma setattr_user_entries (fn ln : option string) (items : list profile_attr)
      (u : User.t) :
  match pop_user (mk (match (entry first_name fn ++ entry last_name ln)%list with
                      | [] => None
                      | d => Some d
                      end) items) with
  | [] => u
  | d => fold_left setattr_user d u
  end
  = User.mk (User.id u) (User.username u) (User.email u)
            (given_or fn (User.first_name u)) (given_or ln (User.last_name u))
            (User.password u) (User.is_active u).
Proof. destruct u, fn, ln; reflexivity. Qed.

Lemma setattr_request (now : Z) (r : request) (validated_data : validated)
      (instance : UserProfile.t) :
  to_internal_value r = Ok validated_data ->
  UserProfile.set_updated_at now
    (fold_left setattr (attrs validated_data) instance)
  = patched_profile now r instance.
Proof.
  intros Hv. apply request_validated in Hv as [-> _]. cbn [attrs].
  apply setattr_entries.
Qed.

Lemma setattr_user_request (r : request) (validated_data : validated) (u : User.t) :
  to_internal_value r = Ok validated_data ->
  match pop_user validated_data with
  | [] => u
  | d => fold_left setattr_user d u
  end = patched_user r u.
Proof.
  intros Hv. apply request_validated in Hv as [-> _].
  apply setattr_user_entries.
Qed.

(** The [experience_years] a request that passes leaves on a stored
    profile fits the column. *)
Lemma request_fits (r : request) (validated_data : validated)
      (instance : UserProfile.t) :
  to_internal_value r = Ok validated_data ->
  integer_fits (UserProfile.experience_years instance) = true ->
  integer_fits (UserProfile.experience_years
                  (fold_left setattr (attrs validated_data) instance)) = true.
Proof.
  intros Hv Hfit.
  rewrite <- (set_updated_at_experience_years 0).
  rewrite (setattr_request 0 r validated_data instance Hv).
  apply request_validated in Hv as [_ Hex].
  cbn [patched_profile UserProfile.experience_years].
  destruct (r_experience_years r) as [| |z]; cbn [parsed_value given_or];
    [exact Hfit | exact Hfit | now apply Hex].
Qed.

(** The update by a request that passes validation, on a reachable store:
    it succeeds, and what is then stored for the identity and for the
    profile are the patched rows. *)
Lemma update_request_spec (now : Z) (db : DB) (instance : UserProfile.t)
      (r : request) (validated_data : validated) :
  reachable db -> In instance (userprofiles db) ->
  to_internal_value r = Ok validated_data ->
  exists u db',
    get_user (UserProfile.user_id instance) db = Some u /\
    update now instance validated_data db
    = (Ok (patched_profile now r instance), db') /\
    db' = mkDB (match pop_user validated_data with
                | [] => users db
                | d => replace_user (fold_left setattr_user d u) (users db)
                end)
               (replace_profile (patched_profile now r instance) (userprofiles db))
               (user_seq db) (userprofile_seq db) /\
    get_user (UserProfile.user_id instance) db' = Some (patched_user r u) /\
    get_profile_of (UserProfile.user_id instance) db'
    = Some (patched_profile now r instance).
Proof.
  intros Hreach Hin Hv. pose proof (reachable_consistent db Hreach) as C.
  destruct (consistent_profile_user db instance C Hin) as (u & Hu & Huin & Huid).
  pose proof (update_spec now instance validated_data u db C Hin Hu) as Hup.
  cbv zeta in Hup.
  rewrite (request_fits r validated_data instance Hv
             (consistent_profile_fits db instance C Hin)) in Hup.
  rewrite (setattr_request now r validated_data instance Hv) in Hup.
  assert (C' : consistent (snd (update now instance validated_data db)))
    by now apply consistent_update.
  rewrite Hup in C'. cbn [snd] in C'.
  pose proof (user_pks_nodup _ C') as Hnd. cbn [users] in Hnd.
  pose proof (consistent_user_ids_nodup _ C') as Hnd'. cbn [userprofiles] in Hnd'.
  eexists u, _. split; [exact Hu|]. split; [exact Hup|].
  split; [reflexivity|]. split.
  - unfold get_user. cbn [users]. rewrite <- Huid.
    change (User.id u) with (User.id (patched_user r u)).
    apply (find_key_unique User.id); [exact Hnd|].
    pose proof (setattr_user_request r validated_data u Hv) as Hpatch.
    destruct (pop_user validated_data) as [|item items].
    + rewrite <- Hpatch. exact Huin.
    + rewrite Hpatch. unfold replace_user, replace_row. apply in_map_iff.
      exists u. cbn [patched_user User.id]. rewrite Z.eqb_refl. auto.
  - unfold get_profile_of. cbn [userprofiles].
    change (UserProfile.user_id instance)
      with (UserProfile.user_id (patched_profile now r instance)).
    apply (find_key_unique UserProfile.user_id); [exact Hnd'|].
    unfold replace_profile, replace_row. apply in_map_iff.
    exists instance. cbn [patched_profile UserProfile.id].
    rewrite Z.eqb_refl. auto.
Qed.

End UpdateRequest.

Lemma jane_at_A_db_reachable : reachable jane_at_A_db.
Proof.
  change jane_at_A_db with (snd (update_profile 100 jane_profile company_request jane_db)).
  apply (reachable_step jane_db); [apply jane_db_reachable|].
  apply (step_update 100 jane_profile
           (UserProfileUpdateSerializer.mk
              None [UserProfileUpdateSerializer.company (Some "A")]) jane_db).
  now left.
Qed.

Section UpdateClaims.
Context `{Framework}.

Import UserProfileUpdateSerializer.

(** C5 (amended). An update request that the serializer accepts, on a
    stored profile in a reachable store, succeeds, and for every updatable
    field the value stored afterwards is, when the key of the field is
    present, the value as the field reads it (a text trimmed, [null] as no
    value, a date as the date written, a number or a flag as given), and,
    when the key is absent, the one stored before. A request the serializer
    refuses is answered with its errors and changes nothing. In particular
    [{bio: "hi"}] on a profile whose company is "A" leaves the company "A"
    and sets the bio to "hi". *)
Theorem partial_update_by_key_presence (now : Z) (db : DB)
        (instance : UserProfile.t) (r : request) :
  reachable db -> In instance (userprofiles db) ->
  (forall validated_data,
      to_internal_value r = Ok validated_data ->
      exists u u' p' db',
        get_user (UserProfile.user_id instance) db = Some u /\
        update now instance validated_data db = (Ok p', db') /\
        update_profile now instance r db = (Ok p', db') /\
        get_user (UserProfile.user_id instance) db' = Some u' /\
        get_profile_of (UserProfile.user_id instance) db' = Some p' /\
        forall f, stored u' p' f = match requested r f with
                                   | Some v => v
                                   | None => stored u instance f
                                   end)
  /\ (forall e,
        to_internal_value r = Raise e ->
        update_profile now instance r db = (Raise e, db))
  /\ (UserProfile.company instance = Some "A" ->
      exists p' db',
        update_profile now instance bio_request db = (Ok p', db') /\
        get_profile_of (UserProfile.user_id instance) db' = Some p' /\
        UserProfile.company p' = Some "A" /\
        UserProfile.bio p' = Some "hi").
Proof.
  intros Hreach Hin. split; [|split].
  - intros vd Hv.
    destruct (update_request_spec now db instance r vd Hreach Hin Hv)
      as (u & db' & Hu & Hup & _ & Hgu & Hgp).
    exists u, (patched_user r u), (patched_profile now r instance), db'.
    split; [exact Hu|split; [exact Hup|split; [|split; [exact Hgu|split; [exact Hgp|]]]]].
    + unfold update_profile. now rewrite Hv.
    + intros f. destruct r as [fn ln ph dob loc b sk ex li gh rec co].
      destruct f; cbn [requested stored patched_user patched_profile
                       r_first_name r_last_name r_phone_number r_date_of_birth
                       r_location r_bio r_skills r_experience_years
                       r_linkedin_url r_github_url r_is_recruiter r_company
                       User.first_name User.last_name UserProfile.phone_number
                       UserProfile.date_of_birth UserProfile.location
                       UserProfile.bio UserProfile.skills
                       UserProfile.experience_years UserProfile.linkedin_url
                       UserProfile.github_url UserProfile.is_recruiter
                       UserProfile.company];
        match goal with
        | |- context [option_map _ ?o] => destruct o; reflexivity
        end.
  - intros e He. unfold update_profile. now rewrite He.
  - intros Hco.
    assert (Hv : to_internal_value bio_request
                 = Ok (mk None [bio (Some "hi")])) by reflexivity.
    destruct (update_request_spec now db instance bio_request _ Hreach Hin Hv)
      as (u & db' & Hu & Hup & _ & Hgu & Hgp).
    exists (patched_profile now bio_request instance), db'.
    split; [|split; [exact Hgp|split; [exact Hco | reflexivity]]].
    unfold update_profile. now rewrite Hv.
Qed.

(** C6 (amended). An update request that the serializer accepts, on a
    stored profile in a reachable store, succeeds; afterwards the identity
    row holds [first_name] and [last_name] as read from the request (when
    present) and is otherwise as before, and the profile row holds each of
    the ten profile fields as read from the request (when present), the
    others as before; no row is added to or removed from either table. *)
Theorem update_routes_fields (now : Z) (db : DB)
        (instance : UserProfile.t) (r : request) (validated_data : validated) :
  reachable db -> In instance (userprofiles db) ->
  to_internal_value r = Ok validated_data ->
  exists u db',
    get_user (UserProfile.user_id instance) db = Some u /\
    update now instance validated_data db
    = (Ok (patched_profile now r instance), db') /\
    get_user (UserProfile.user_id instance) db' = Some (patched_user r u) /\
    get_profile_of (UserProfile.user_id instance) db'
    = Some (patched_profile now r instance) /\
    map User.id (users db') = map User.id (users db) /\
    map UserProfile.id (userprofiles db') = map UserProfile.id (userprofiles db).
Proof.
  intros Hreach Hin Hv.
  destruct (update_request_spec now db instance r validated_data Hreach Hin Hv)
    as (u & db' & Hu & Hup & Hdb & Hgu & Hgp).
  exists u, db'.
  split; [exact Hu|split; [exact Hup|split; [exact Hgu|split; [exact Hgp|]]]].
  rewrite Hdb. cbn [users userprofiles].
  split.
  - destruct (pop_user validated_data); [reflexivity|].
    apply map_key_replace_row.
  - apply map_key_replace_row.
Qed.

End UpdateClaims.

(** C5, as stated, fails: the request [{bio: " hi "}] is accepted and sets
    the bio to "hi", not to the text given. *)
Lemma partial_update_by_key_presence_counterexample :
  UserProfileUpdateSerializer.r_bio padded_bio_request = Fields.Given " hi "
  /\ exists p' db',
      update_profile 200 jane_profile padded_bio_request jane_db = (Ok p', db')
      /\ get_profile_of 1 db' = Some p'
      /\ UserProfile.bio p' = Some "hi"
      /\ UserProfile.bio p' <> Some " hi ".
Proof.
  split; [reflexivity|]. eexists _, _. split; [reflexivity|].
  split; [reflexivity|]. split; [reflexivity | discriminate].
Qed.

(** C6, as stated, fails: the request [{first_name: ""}] has the key
    [first_name], and the serializer refuses it: nothing is written on the
    identity record. *)
Lemma update_routes_fields_counterexample :
  UserProfileUpdateSerializer.r_first_name blank_first_name_request
  = Fields.Given ""
  /\ UserProfileUpdateSerializer.to_internal_value blank_first_name_request
     = Raise (ValidationError
                (FieldErrors [("first_name", ["This field may not be blank."])]))
  /\ update_profile 200 jane_profile blank_first_name_request jane_db
     = (Raise (ValidationError
                 (FieldErrors [("first_name", ["This field may not be blank."])])),
        jane_db)
  /\ get_user 1 jane_db = Some jane
  /\ User.first_name jane = "Jane".
Proof. repeat split. Qed.

Lemma partial_update_by_key_presence_witness :
  exists p' db',
    update_profile 200 jane_at_A bio_request jane_at_A_db = (Ok p', db') /\
    get_profile_of 1 db' = Some p' /\
    UserProfile.company p' = Some "A" /\ UserProfile.bio p' = Some "hi".
Proof.
  apply (proj2 (proj2 (partial_update_by_key_presence
                         200 jane_at_A_db jane_at_A bio_request
                         jane_at_A_db_reachable (or_introl eq_refl)))).
  reflexivity.
Defined.

Lemma update_routes_fields_witness :
  exists db',
    UserProfileUpdateSerializer.update
      200 jane_profile
      (UserProfileUpdateSerializer.mk
         (Some [UserProfileUpdateSerializer.first_name "Janet"]) [])
      jane_db
    = (Ok (UserProfile.set_updated_at 200 jane_profile), db') /\
    get_user 1 db' = Some (User.set_first_name "Janet" jane).
Proof.
  destruct (update_routes_fields
              200 jane_db jane_profile first_name_request
              (UserProfileUpdateSerializer.mk
                 (Some [UserProfileUpdateSerializer.first_name "Janet"]) [])
              jane_db_reachable (or_introl eq_refl) eq_refl)
    as (u & db' & Hu & Hup & Hgu & _).
  exists db'. split; [exact Hup|].
  injection Hu as <-. exact Hgu.
Defined.

(** ** The post-save hooks *)

Section Hooks.
Context `{Framework}.

(** C10. In a reachable store, a save of a stored identity that the store
    accepts (no username conflict) writes the identity row and leaves the
    profile table to the receivers of [post_save]: [save_user_profile]
    saves the profile, whether it is the object cached on the instance or is
    fetched. Afterwards the identity row holds the saved columns and the
    profile row has [updated_at] equal to the time of the save and every
    other column as before: the timestamp is refreshed although no profile
    column changed. On a creating save [create_user_profile] creates the
    profile and [save_user_profile] saves it, with the same stamp. *)
Theorem identity_save_saves_profile (now : Z) (db : DB) (instance : User.t) :
  reachable db ->
  In (User.id instance) (map User.id (users db)) ->
  username_taken (Some (User.id instance)) (User.username instance) (users db)
  = false ->
  (exists p p',
      get_profile_of (User.id instance) db = Some p /\
      p' = UserProfile.mk
             (UserProfile.id p) (UserProfile.user_id p)
             (UserProfile.phone_number p) (UserProfile.date_of_birth p)
             (UserProfile.location p) (UserProfile.bio p) (UserProfile.skills p)
             (UserProfile.experience_years p) (UserProfile.linkedin_url p)
             (UserProfile.github_url p) (UserProfile.resume p)
             (UserProfile.profile_picture p) (UserProfile.is_recruiter p)
             (UserProfile.company p) (UserProfile.created_at p) now /\
      UserProfile.updated_at p' = now /\
      forall cache, cache = None \/ cache = Some p ->
        exists db',
          User_save now instance cache db = (Ok tt, db') /\
          get_user (User.id instance) db' = Some instance /\
          get_profile_of (User.id instance) db' = Some p' /\
          let written := mkDB (replace_user instance (users db)) (userprofiles db)
                              (user_seq db) (userprofile_seq db) in
          get_profile_of (User.id instance) written = Some p /\
          save_user_profile now instance cache written = (Ok tt, db'))
  /\ (forall username email first last password u db',
        User_save_new now username email first last password db = (Ok u, db') ->
        let written := mkDB (users db ++ [u]) (userprofiles db)
                            (user_seq db + 1) (userprofile_seq db) in
        exists created db1 q,
          create_user_profile now u true None written = (Ok (Some created), db1) /\
          save_user_profile now u (Some created) db1 = (Ok tt, db') /\
          get_profile_of (User.id u) db' = Some q /\
          UserProfile.updated_at q = now).
Proof.
  intros Hreach Hpk Hfree. pose proof (reachable_consistent db Hreach) as C.
  split.
  - destruct (consistent_user_profile db _ C Hpk) as (p & Hp & Hpin & Hpu).
    exists p, (UserProfile.set_updated_at now p).
    split; [exact Hp|]. split; [now destruct p|]. split; [now destruct p|].
    intros cache Hcache.
    assert (Hres : match cache with
                   | Some c => c = p
                   | None => get_profile_of (User.id instance) db = Some p
                   end)
      by (destruct Hcache as [->| ->]; [exact Hp | reflexivity]).
    pose proof (User_save_existing now instance cache p db C Hpk Hres Hpin) as Hs.
    rewrite Hfree in Hs.
    eexists. split; [exact Hs|].
    assert (C' : consistent
                   (mkDB (replace_user instance (users db))
                         (replace_profile (UserProfile.set_updated_at now p)
                                          (userprofiles db))
                         (user_seq db) (userprofile_seq db))).
    { destruct (set_updated_at_keys now p) as (Hsid & Hsuser).
      apply (consistent_replace_profile
               (mkDB (replace_user instance (users db)) (userprofiles db)
                     (user_seq db) (userprofile_seq db)) _ p);
        [| exact Hpin | exact Hsid | exact Hsuser|].
      - now apply consistent_replace_user.
      - rewrite set_updated_at_experience_years.
        now apply (consistent_profile_fits db). }
    split; [|split; [|split]].
    + unfold get_user. cbn [users]. unfold replace_user.
      now apply find_replace_row.
    + unfold get_profile_of. cbn [userprofiles]. rewrite <- Hpu.
      destruct (set_updated_at_keys now p) as (Hsid & Hsuser).
      rewrite <- Hsuser.
      apply (find_key_unique UserProfile.user_id).
      * apply (consistent_user_ids_nodup _ C').
      * unfold replace_profile, replace_row. apply in_map_iff.
        exists p. rewrite Hsid, Z.eqb_refl. auto.
    + exact Hp.
    + unfold User_save, bind in Hs.
      apply (existsb_key_In User.id) in Hpk. unfold has_user_pk in Hs.
      rewrite Hpk, Hfree in Hs.
      unfold post_save_User, create_user_profile, bind, ret in Hs. exact Hs.
  - intros username email first last password u db' Hs written.
    pose proof Hs as Hspec. rewrite (User_save_new_spec _ _ _ _ _ _ _ C) in Hspec.
    unfold User_save_new, bind in Hs.
    destruct (username_taken None username (users db)); [discriminate|].
    cbv zeta in Hspec. injection Hspec as Hu Hdb.
    set (row := User.mk (user_seq db) username email first last password true) in *.
    unfold post_save_User, bind in Hs.
    subst written. rewrite <- Hu.
    destruct (create_user_profile now row true None
                (mkDB (users db ++ [row]) (userprofiles db) (user_seq db + 1)
                      (userprofile_seq db)))
      as [[[created|]|e] db1] eqn:Hc.
    + destruct (save_user_profile now row (Some created) db1) as [[[]|e] db2] eqn:Hsave;
        [|discriminate].
      unfold ret in Hs. injection Hs as _ Hdb2. rewrite Hdb2 in Hsave.
      exists created, db1,
        (UserProfile.defaults (userprofile_seq db) (user_seq db) now).
      split; [reflexivity|]. split; [exact Hsave|]. split; [|reflexivity].
      rewrite <- Hdb.
      unfold get_profile_of, with_new_identity. cbn [userprofiles User.id row].
      apply (find_snoc_fresh UserProfile.user_id
               (UserProfile.defaults (userprofile_seq db) (user_seq db) now)).
      rewrite (profiles_match db C). apply (fresh_user_seq db C).
    + exfalso. unfold create_user_profile, bind, UserProfile_objects_create, ret in Hc.
      destruct (user_id_taken _ _ _); discriminate.
    + discriminate.
Qed.

(** C7. In every reachable state each identity has exactly one profile and
    each profile belongs to an identity. A registration that creates an
    identity has, when it returns, inserted the profile of that identity
    through the hook; an update through the serializer neither adds nor
    removes a profile row; and deleting an identity deletes its profile
    with it. *)
Theorem one_profile_per_identity (db : DB) :
  reachable db ->
  (forall u, In u (users db) -> profile_count (User.id u) db = 1%nat)
  /\ (forall p, In p (userprofiles db) ->
        exists u, In u (users db) /\ User.id u = UserProfile.user_id p)
  /\ (forall now payload u db',
        register now payload db = (Ok u, db') ->
        users db' = (users db ++ [u])%list /\
        userprofiles db'
        = (userprofiles db
             ++ [UserProfile.defaults (userprofile_seq db) (User.id u) now])%list /\
        profile_count (User.id u) db' = 1%nat)
  /\ (forall now instance validated_data,
        In instance (userprofiles db) ->
        let db' := snd (UserProfileUpdateSerializer.update
                          now instance validated_data db) in
        map UserProfile.id (userprofiles db') = map UserProfile.id (userprofiles db)
        /\ map UserProfile.user_id (userprofiles db')
           = map UserProfile.user_id (userprofiles db))
  /\ (forall pk,
        let db' := snd (User_delete pk db) in
        get_user pk db' = None /\ get_profile_of pk db' = None /\
        profile_count pk db' = 0%nat /\
        forall u, In u (users db') -> profile_count (User.id u) db' = 1%nat).
Proof.
  intros Hreach. pose proof (reachable_consistent db Hreach) as C.
  assert (Hone : forall db0, consistent db0 ->
                   forall u, In u (users db0) ->
                             profile_count (User.id u) db0 = 1%nat).
  { intros db0 C0 u Hin. unfold profile_count.
    apply (count_key_one UserProfile.user_id).
    - apply (consistent_user_ids_nodup db0 C0).
    - rewrite (profiles_match db0 C0). now apply in_map. }
  split; [now apply Hone|]. split; [|split; [|split]].
  - intros p Hin.
    destruct (consistent_profile_user db p C Hin) as (u & _ & Hu & Hid). eauto.
  - intros now payload u db' Hreg.
    assert (C' : consistent db').
    { change db' with (snd (Ok u, db')). rewrite <- Hreg.
      apply (step_consistent db); [exact C | constructor]. }
    destruct (register_ok_spec now payload u db db' C Hreg)
      as (_ & _ & _ & Hu & Hdb).
    rewrite Hdb. split; [reflexivity|]. split; [reflexivity|].
    rewrite <- Hdb. apply (Hone _ C'). rewrite Hdb. cbn [users with_new_identity].
    apply in_or_app. right. now left.
  - intros now instance vd Hin db'. subst db'.
    destruct (consistent_profile_user db instance C Hin) as (u & Hu & _ & _).
    rewrite (update_spec now instance vd u db C Hin Hu). cbv zeta.
    assert (Hrows : forall q,
               UserProfile.id q = UserProfile.id instance ->
               UserProfile.user_id q = UserProfile.user_id instance ->
               map UserProfile.id (replace_profile q (userprofiles db))
               = map UserProfile.id (userprofiles db)
               /\ map UserProfile.user_id (replace_profile q (userprofiles db))
                  = map UserProfile.user_id (userprofiles db)).
    { intros q Hqid Hquser. split; [apply map_key_replace_row|].
      apply map_other_replace_row. intros x Hx Hk.
      rewrite (NoDup_map_injective UserProfile.id x instance (userprofiles db));
        [congruence | apply (profile_pks_nodup db C) | exact Hx | exact Hin
        | congruence]. }
    destruct (setattr_keys instance (UserProfileUpdateSerializer.attrs vd))
      as (Hid & Huser & _).
    destruct (set_updated_at_keys now
                (fold_left UserProfileUpdateSerializer.setattr
                           (UserProfileUpdateSerializer.attrs vd) instance))
      as (Hsid & Hsuser).
    destruct (set_updated_at_keys now instance) as (Hiid & Hiuser).
    destruct (integer_fits _); cbn [snd userprofiles].
    + apply Hrows; congruence.
    + destruct (UserProfileUpdateSerializer.pop_user vd); [split; reflexivity|].
      apply Hrows; congruence.
  - intros pk db'. subst db'.
    pose proof (consistent_delete pk db C) as C'.
    split; [apply (find_filter_none User.id)|].
    split; [apply (find_filter_none UserProfile.user_id)|].
    split.
    + unfold profile_count, User_delete. cbn [snd userprofiles].
      now rewrite (filter_filter_none UserProfile.user_id).
    + now apply Hone.
Qed.

End Hooks.

Lemma identity_save_saves_profile_witness :
  exists db',
    User_save 300 (User.set_last_name "Dorn" jane) None jane_db = (Ok tt, db') /\
    get_profile_of 1 db'
    = Some (UserProfile.mk 1 1 None None None None None 0 None None None None
                           false None 100 300).
Proof.
  destruct (identity_save_saves_profile
              300 jane_db (User.set_last_name "Dorn" jane) jane_db_reachable)
    as [(p & p' & Hp & Hp' & _ & Hsave) _].
  - now left.
  - reflexivity.
  - injection Hp as <-.
    destruct (Hsave None (or_introl eq_refl)) as (db' & Hs & _ & Hg & _).
    exists db'. split; [exact Hs|]. subst p'. exact Hg.
Defined.

Lemma one_profile_per_identity_witness :
  profile_count 1 jane_db = 1%nat.
Proof.
  apply (proj1 (one_profile_per_identity jane_db jane_db_reachable) jane).
  now left.
Defined.

(** * Further properties of the model and the serializers *)

(** ** More on the string primitives *)

Lemma strip_empty_iff (p : string) : Py.strip p = "" <-> Py.all_space p = true.
Proof.
  split.
  - intros He. destruct (strip_decompose p) as (l & r & Hp & Hl & Hr).
    rewrite He in Hp. simpl in Hp. rewrite Hp, all_space_app, Hl, Hr. reflexivity.
  - intros Hs. unfold Py.strip. now rewrite (lstrip_all_space p Hs).
Qed.

Lemma strip_fixpoint (t : string) : Py.trimmed t -> Py.strip t = t.
Proof.
  intros Ht. apply (strip_unique t "" t ""); try reflexivity; [|exact Ht].
  simpl. now rewrite append_nil_r.
Qed.

Lemma contains_char_app (c : ascii) (a b : string) :
  Py.contains_char c (a ++ b) = Py.contains_char c a || Py.contains_char c b.
Proof.
  induction a as [|d a IH]; simpl; [reflexivity|].
  rewrite IH. now rewrite orb_assoc.
Qed.

(** [strip] keeps a part of the string: it brings in no character. *)
Lemma strip_no_char (c : ascii) (p : string) :
  Py.contains_char c p = false -> Py.contains_char c (Py.strip p) = false.
Proof.
  intros Hp. destruct (strip_decompose p) as (l & r & Hd & _ & _).
  rewrite Hd, !contains_char_app in Hp.
  apply orb_false_elim in Hp as [_ Hp]. now apply orb_false_elim in Hp as [Hp _].
Qed.

Lemma split_no_sep_piece (sep : ascii) (p : string) :
  Py.contains_char sep p = false -> Py.split sep p = [p].
Proof.
  induction p as [|c p IH]; simpl; [reflexivity|].
  intros H. apply orb_false_elim in H as [Hc Hp].
  rewrite Hc, (IH Hp). reflexivity.
Qed.

Lemma split_piece_then_sep (sep : ascii) (p rest : string) :
  Py.contains_char sep p = false ->
  Py.split sep (p ++ String sep rest) = p :: Py.split sep rest.
Proof.
  induction p as [|c p IH]; simpl.
  - intros _. now rewrite Ascii.eqb_refl.
  - intros H. apply orb_false_elim in H as [Hc Hp].
    rewrite Hc, (IH Hp). reflexivity.
Qed.

(** Splitting what was joined gives the pieces back, when no piece
    contains the separator. *)
Lemma split_join (sep : ascii) (pieces : list string) :
  pieces <> [] ->
  Forall (fun p => Py.contains_char sep p = false) pieces ->
  Py.split sep (Py.join sep pieces) = pieces.
Proof.
  induction pieces as [|p pieces IH]; [contradiction|].
  intros _ Hall. inversion Hall as [|? ? Hp Hrest]; subst.
  destruct pieces as [|q pieces].
  - simpl. now apply split_no_sep_piece.
  - change (Py.join sep (p :: q :: pieces))
      with (p ++ String sep (Py.join sep (q :: pieces))).
    rewrite (split_piece_then_sep _ _ _ Hp). f_equal.
    apply IH; [discriminate | exact Hrest].
Qed.

Lemma head_char_app (a b : string) :
  a <> "" -> Py.head_char (a ++ b) = Py.head_char a.
Proof. destruct a; [contradiction | reflexivity]. Qed.

Lemma last_char_app (a b : string) :
  b <> "" -> Py.last_char (a ++ b) = Py.last_char b.
Proof.
  intros Hb. induction a as [|c a IH]; simpl; [reflexivity|].
  rewrite IH. destruct (a ++ b) eqn:E; [|reflexivity].
  destruct a; simpl in E; [contradiction | discriminate].
Qed.

(** ** [skills_list] *)

Lemma skills_list_of_string (self : UserProfile.t) (s : string) :
  UserProfile.skills self = Some s ->
  UserProfile.skills_list self = skills_list_spec s.
Proof.
  intros Hs. unfold UserProfile.skills_list, skills_list_spec. rewrite Hs.
  destruct s as [|c s]; [reflexivity|].
  cbn [Py.truthy]. apply comprehension_filter_map.
Qed.

Lemma skills_of_set_skills (v : option string) (self : UserProfile.t) :
  UserProfile.skills (UserProfile.set_skills v self) = v.
Proof. destruct self. reflexivity. Qed.

(** X1. Whatever the stored skills text, every entry of [skills_list] is
    not empty, has no whitespace at either end and contains no comma. *)
Theorem skills_list_entries_clean (self : UserProfile.t) (e : string) :
  In e (UserProfile.skills_list self) -> clean_tag e.
Proof.
  unfold UserProfile.skills_list.
  destruct (UserProfile.skills self) as [s|]; [|intros []].
  destruct (Py.truthy s); [|intros []].
  intros Hin. apply in_map_iff in Hin as (x & <- & Hx).
  apply filter_In in Hx as (Hx & Ht).
  repeat split.
  - intros He. rewrite He in Ht. discriminate.
  - apply strip_trimmed.
  - apply strip_trimmed.
  - apply strip_no_char. now apply (split_no_sep "," s).
Qed.

Lemma skills_list_entries_clean_witness : clean_tag "Go".
Proof.
  apply (skills_list_entries_clean
           (UserProfile.set_skills (Some "Python, Go , ,Rust") jane_profile)).
  right. now left.
Defined.

(** X2. Storing tags joined by commas and reading them back is the
    identity on lists of clean tags (not empty, trimmed, comma-free). *)
Theorem skills_list_join_round_trip (self : UserProfile.t) (tags : list string) :
  Forall clean_tag tags ->
  UserProfile.skills_list
    (UserProfile.set_skills (Some (Py.join "," tags)) self) = tags.
Proof.
  intros Hclean.
  rewrite (skills_list_of_string _ _ (skills_of_set_skills _ self)).
  unfold skills_list_spec.
  destruct tags as [|t tags]; [reflexivity|].
  rewrite split_join; [|discriminate|].
  - induction Hclean as [|x l (Hne & Htrim & _) _ IH]; [reflexivity|].
    cbn [map filter]. rewrite (strip_fixpoint x Htrim).
    apply String.eqb_neq in Hne. rewrite Hne. cbn [negb]. now rewrite IH.
  - eapply Forall_impl; [|exact Hclean]. intros x (_ & _ & Hx). exact Hx.
Qed.

Lemma skills_list_join_round_trip_witness :
  UserProfile.skills_list
    (UserProfile.set_skills (Some (Py.join "," ["Python"; "Go"; "Rust"])) jane_profile)
  = ["Python"; "Go"; "Rust"].
Proof.
  apply skills_list_join_round_trip.
  repeat constructor; try discriminate; simpl; intros c [= <-]; reflexivity.
Defined.

(** X3. [skills_list] is empty exactly when the skills column is null or
    every comma-separated piece of it is blank (so for the empty text, and
    for texts made of commas and whitespace only). *)
Theorem skills_list_empty_iff (self : UserProfile.t) :
  UserProfile.skills_list self = [] <->
  match UserProfile.skills self with
  | None => True
  | Some s => forall piece, In piece (Py.split "," s) -> Py.all_space piece = true
  end.
Proof.
  destruct (UserProfile.skills self) as [s|] eqn:Hs.
  - rewrite (skills_list_of_string self s Hs). unfold skills_list_spec.
    induction (Py.split "," s) as [|p l IH]; cbn [map filter].
    + split; [intros _ piece [] | reflexivity].
    + destruct (String.eqb (Py.strip p) "") eqn:E; cbn [negb].
      * apply String.eqb_eq, strip_empty_iff in E. rewrite IH. split.
        -- intros Hl piece [<-|Hin]; [exact E | now apply Hl].
        -- intros Hall piece Hin. apply Hall. now right.
      * split; [discriminate|]. intros Hall.
        apply String.eqb_neq in E. exfalso. apply E, strip_empty_iff, Hall.
        now left.
  - unfold UserProfile.skills_list. rewrite Hs. tauto.
Qed.

Lemma skills_list_empty_iff_witness :
  UserProfile.skills_list (UserProfile.set_skills (Some " , ,") jane_profile) = [].
Proof.
  apply (proj2 (skills_list_empty_iff
                  (UserProfile.set_skills (Some " , ,") jane_profile))).
  simpl. intros piece [<-|[<-|[<-|[]]]]; reflexivity.
Defined.

(** ** [full_name] *)

Lemma full_name_resolved (self : UserProfile.t) (u : User.t) (db : DB) :
  get_user (UserProfile.user_id self) db = Some u ->
  full_name self db = Ok (UserProfile.full_name_of u).
Proof. intros Hu. unfold full_name, profile_user. now rewrite Hu. Qed.

Lemma strip_blank_right (s r : string) :
  Py.all_space r = true -> Py.strip (s ++ r) = Py.strip s.
Proof.
  intros Hr. destruct (strip_decompose s) as (a & b & Hd & Ha & Hb).
  apply (strip_unique (s ++ r) a (Py.strip s) (b ++ r)).
  - rewrite Hd at 1. now rewrite !append_assoc.
  - exact Ha.
  - now rewrite all_space_app, Hb, Hr.
  - apply strip_trimmed.
Qed.

Lemma strip_blank_left (l s : string) :
  Py.all_space l = true -> Py.strip (l ++ s) = Py.strip s.
Proof.
  intros Hl. destruct (strip_decompose s) as (a & b & Hd & Ha & Hb).
  apply (strip_unique (l ++ s) (l ++ a) (Py.strip s) b).
  - rewrite Hd at 1. now rewrite !append_assoc.
  - now rewrite all_space_app, Hl, Ha.
  - exact Hb.
  - apply strip_trimmed.
Qed.

(** X4. When one of the two names is empty, [full_name] is the other name
    trimmed: the blank that joins them never shows at either end; when both
    are empty it is the empty string. *)
Theorem full_name_one_name_empty (self : UserProfile.t) (u : User.t) (db : DB) :
  get_user (UserProfile.user_id self) db = Some u ->
  (User.last_name u = "" -> full_name self db = Ok (Py.strip (User.first_name u)))
  /\ (User.first_name u = "" -> full_name self db = Ok (Py.strip (User.last_name u)))
  /\ (User.first_name u = "" -> User.last_name u = "" -> full_name self db = Ok "").
Proof.
  intros Hu. rewrite (full_name_resolved self u db Hu).
  unfold UserProfile.full_name_of. split; [|split].
  - intros ->. apply f_equal. now apply strip_blank_right.
  - intros ->. apply f_equal. now apply (strip_blank_left " ").
  - intros -> ->. reflexivity.
Qed.

Lemma full_name_one_name_empty_witness :
  full_name jane_profile
            (mkDB [User.mk 1 "jane" "" " Jane " "" "" true] [jane_profile] 2 2)
  = Ok "Jane".
Proof.
  apply (proj1 (full_name_one_name_empty
                  jane_profile (User.mk 1 "jane" "" " Jane " "" "" true)
                  (mkDB [User.mk 1 "jane" "" " Jane " "" "" true] [jane_profile] 2 2)
                  eq_refl)).
  reflexivity.
Defined.

(** X5. When both names are stored non-empty and without whitespace at
    their ends, [full_name] is exactly first name, one blank, last name:
    [strip] removes nothing and whitespace inside a name is kept. *)
Theorem full_name_of_trimmed_names (self : UserProfile.t) (u : User.t) (db : DB) :
  get_user (UserProfile.user_id self) db = Some u ->
  User.first_name u <> "" -> User.last_name u <> "" ->
  Py.trimmed (User.first_name u) -> Py.trimmed (User.last_name u) ->
  full_name self db = Ok (User.first_name u ++ " " ++ User.last_name u).
Proof.
  intros Hu Hf Hl (Hfh & _) (_ & Hll).
  rewrite (full_name_resolved self u db Hu). f_equal.
  unfold UserProfile.full_name_of. apply strip_fixpoint. split.
  - intros c. rewrite (head_char_app _ _ Hf). apply Hfh.
  - intros c. rewrite last_char_app by (destruct (User.last_name u); discriminate).
    rewrite (last_char_app " " _ Hl). apply Hll.
Qed.

Lemma full_name_of_trimmed_names_witness :
  full_name jane_profile jane_db = Ok "Jane Doe".
Proof.
  apply (full_name_of_trimmed_names jane_profile jane jane_db eq_refl);
    try discriminate; split; simpl; intros c [= <-]; reflexivity.
Defined.

(** ** [__str__] *)

Lemma length_append (a b : string) :
  String.length (a ++ b) = (String.length a + String.length b)%nat.
Proof. induction a as [|c a IH]; simpl; [reflexivity | now rewrite IH]. Qed.

Lemma append_cancel_r (a b s : string) : a ++ s = b ++ s -> a = b.
Proof.
  revert b. induction a as [|c a IH]; intros [|d b] He.
  - reflexivity.
  - apply (f_equal String.length) in He. simpl in He.
    rewrite length_append in He. lia.
  - apply (f_equal String.length) in He. simpl in He.
    rewrite length_append in He. lia.
  - simpl in He. injection He as -> He. f_equal. now apply IH.
Qed.

Lemma jane_bob_db_reachable : reachable jane_bob_db.
Proof.
  change jane_bob_db with (snd (register 200 bob_payload jane_db)).
  apply (reachable_step jane_db); [apply jane_db_reachable | constructor].
Qed.

Section Str.
Context `{Framework}.

(** X6. In every reachable state [__str__] returns, for every stored
    profile, the username of its identity followed by "'s Profile", and two
    different stored profiles never have the same text (usernames are
    unique and each identity has one profile). *)
Theorem str_distinguishes_profiles (db : DB) (p q : UserProfile.t) :
  reachable db -> In p (userprofiles db) -> In q (userprofiles db) ->
  exists up uq,
    get_user (UserProfile.user_id p) db = Some up /\
    get_user (UserProfile.user_id q) db = Some uq /\
    __str__ p db = Ok (User.username up ++ "'s Profile") /\
    __str__ q db = Ok (User.username uq ++ "'s Profile") /\
    (__str__ p db = __str__ q db -> p = q) /\
    (p <> q -> User.username up <> User.username uq).
Proof.
  intros Hreach Hp Hq. pose proof (reachable_consistent db Hreach) as C.
  destruct (consistent_profile_user db p C Hp) as (up & Hup & Hupin & Hupid).
  destruct (consistent_profile_user db q C Hq) as (uq & Huq & Huqin & Huqid).
  assert (Hsp : __str__ p db = Ok (User.username up ++ "'s Profile"))
    by (unfold __str__, profile_user; now rewrite Hup).
  assert (Hsq : __str__ q db = Ok (User.username uq ++ "'s Profile"))
    by (unfold __str__, profile_user; now rewrite Huq).
  assert (Hinj : User.username up = User.username uq -> p = q).
  { intros He.
    assert (up = uq)
      by (apply (NoDup_map_injective User.username up uq (users db));
          [apply (usernames_nodup db C) | assumption | assumption | exact He]).
    subst uq.
    apply (NoDup_map_injective UserProfile.user_id p q (userprofiles db));
      [apply (consistent_user_ids_nodup db C) | assumption | assumption
      | congruence]. }
  exists up, uq. split; [exact Hup|]. split; [exact Huq|].
  split; [exact Hsp|]. split; [exact Hsq|]. split.
  - rewrite Hsp, Hsq. intros [= He]. apply append_cancel_r in He. now apply Hinj.
  - intros Hne He. apply Hne. now apply Hinj.
Qed.

(** ** The hook on an identity that has no profile *)

(** X7. [save_user_profile] has no guard: on a store where an identity has
    no profile row, a save of that identity which the store accepts fails
    with [DoesNotExist] when the hook reads [instance.userprofile], and no
    profile row is created for it. *)
Theorem save_without_profile_fails (now : Z) (instance : User.t) (db : DB) :
  In (User.id instance) (map User.id (users db)) ->
  username_taken (Some (User.id instance)) (User.username instance) (users db)
  = false ->
  get_profile_of (User.id instance) db = None ->
  fst (User_save now instance None db)
  = Raise (DoesNotExist "User has no userprofile.")
  /\ userprofiles (snd (User_save now instance None db)) = userprofiles db.
Proof.
  intros Hpk Hfree Hnone. unfold User_save, bind.
  apply (existsb_key_In User.id) in Hpk. unfold has_user_pk. rewrite Hpk, Hfree.
  unfold post_save_User, create_user_profile, bind, ret, save_user_profile, bind,
    reverse_userprofile.
  unfold get_profile_of in *. cbn [userprofiles]. rewrite Hnone. split; reflexivity.
Qed.

End Str.

Lemma str_distinguishes_profiles_witness :
  __str__ jane_profile jane_bob_db = Ok "jane's Profile"
  /\ __str__ bob_profile jane_bob_db = Ok "bob's Profile"
  /\ "jane" <> "bob".
Proof.
  destruct (str_distinguishes_profiles jane_bob_db jane_profile bob_profile
              jane_bob_db_reachable (or_introl eq_refl)
              (or_intror (or_introl eq_refl)))
    as (up & uq & Hup & Huq & Hsp & Hsq & _ & Hne).
  injection Hup as <-. injection Huq as <-.
  split; [exact Hsp|]. split; [exact Hsq|]. apply Hne. discriminate.
Defined.

Lemma save_without_profile_fails_witness :
  fst (User_save 300 (User.mk 1 "jane" "jane@example.org" "Janet" "Doe"
                              "hashed$secret-pw" true)
                 None orphan_identity_db)
  = Raise (DoesNotExist "User has no userprofile.").
Proof.
  apply (save_without_profile_fails 300 _ orphan_identity_db);
    [now left | reflexivity | reflexivity].
Defined.

(** ** The login validator: missing fields *)

Section LoginMissing.
Context `{Framework}.

Import UserLoginSerializer.


End LoginMissing.


(** ** More on the profile update *)

(** Rows that are not replaced are found as before. *)
Lemma find_replace_row_other {A} (key g : A -> Z) (k : Z) (r : A) (rows : list A) :
  (forall x, In x rows -> key x = key r -> g x = g r) ->
  g r <> k ->
  find (fun x => g x =? k) (replace_row key r rows)
  = find (fun x => g x =? k) rows.
Proof.
  intros Hg Hk. unfold replace_row.
  induction rows as [|y rows IH]; simpl; [reflexivity|].
  rewrite IH by (intros x Hx; apply Hg; now right).
  destruct (key y =? key r) eqn:E; [|reflexivity].
  apply Z.eqb_eq in E.
  assert (Hy : g y = g r) by (apply Hg; [now left | exact E]).
  apply Z.eqb_neq in Hk. rewrite Hk. rewrite <- Hy in Hk. now rewrite Hk.
Qed.

Lemma find_filter_other {A} (key : A -> Z) (k k' : Z) (rows : list A) :
  k' <> k ->
  find (fun x => key x =? k') (filter (fun x => negb (key x =? k)) rows)
  = find (fun x => key x =? k') rows.
Proof.
  intros Hk. induction rows as [|y rows IH]; simpl; [reflexivity|].
  destruct (key y =? k) eqn:E; simpl.
  - apply Z.eqb_eq in E. destruct (key y =? k') eqn:E'; [|exact IH].
    apply Z.eqb_eq in E'. congruence.
  - now rewrite IH.
Qed.

Lemma given_or_idem {A} (o : option A) (s : A) :
  given_or o (given_or o s) = given_or o s.
Proof. now destruct o. Qed.

Section UpdateMore.
Context `{Framework}.

Import UserProfileUpdateSerializer.

(** X13. Without entries under [user] (the key absent, or an empty
    dictionary), [update] does not read [instance.user]: on any store it
    leaves the identity table as it is and does not fail with
    [DoesNotExist]. *)
Theorem update_without_user_entries (now : Z) (instance : UserProfile.t)
        (validated_data : validated) (db : DB) :
  pop_user validated_data = [] ->
  users (snd (update now instance validated_data db)) = users db
  /\ forall what,
      fst (update now instance validated_data db) <> Raise (DoesNotExist what).
Proof.
  intros Hpop. unfold update, bind. rewrite Hpop. cbv zeta. unfold ret.
  unfold UserProfile_save.
  destruct (integer_fits _); cbn [negb];
    [destruct (has_profile_pk _ _); destruct (user_id_taken _ _ _)|];
    cbn [fst snd users]; split; try reflexivity; intros what; discriminate.
Qed.

(** X14. An update request that the serializer accepts, on a stored
    profile in a reachable store, succeeds and never changes the key, the
    username, the email, the credential or the active flag of the identity,
    nor the key, the owner, [created_at], [resume] or [profile_picture] of
    the profile; [updated_at] becomes the time of the update. *)
Theorem update_keeps_other_columns (now : Z) (instance : UserProfile.t)
        (r : request) (validated_data : validated) (db : DB) :
  reachable db -> In instance (userprofiles db) ->
  to_internal_value r = Ok validated_data ->
  exists u u' p' db',
    get_user (UserProfile.user_id instance) db = Some u /\
    update now instance validated_data db = (Ok p', db') /\
    get_user (UserProfile.user_id instance) db' = Some u' /\
    get_profile_of (UserProfile.user_id instance) db' = Some p' /\
    (User.id u' = User.id u /\ User.username u' = User.username u /\
     User.email u' = User.email u /\ User.password u' = User.password u /\
     User.is_active u' = User.is_active u) /\
    (UserProfile.id p' = UserProfile.id instance /\
     UserProfile.user_id p' = UserProfile.user_id instance /\
     UserProfile.created_at p' = UserProfile.created_at instance /\
     UserProfile.resume p' = UserProfile.resume instance /\
     UserProfile.profile_picture p' = UserProfile.profile_picture instance) /\
    UserProfile.updated_at p' = now.
Proof.
  intros Hreach Hin Hv.
  destruct (update_request_spec now db instance r validated_data Hreach Hin Hv)
    as (u & db' & Hu & Hup & _ & Hgu & Hgp).
  exists u, (patched_user r u), (patched_profile now r instance), db'.
  split; [exact Hu|]. split; [exact Hup|]. split; [exact Hgu|].
  split; [exact Hgp|]. repeat split.
Qed.

(** X15. An update of a stored profile, on a reachable store, leaves the
    rows of every other identity and of every other profile as they are. *)
Theorem update_leaves_others (now : Z) (instance : UserProfile.t)
        (validated_data : validated) (db : DB) (pk : Z) :
  reachable db -> In instance (userprofiles db) ->
  pk <> UserProfile.user_id instance ->
  get_user pk (snd (update now instance validated_data db)) = get_user pk db
  /\ get_profile_of pk (snd (update now instance validated_data db))
     = get_profile_of pk db.
Proof.
  intros Hreach Hin Hpk. pose proof (reachable_consistent db Hreach) as C.
  destruct (consistent_profile_user db instance C Hin) as (u & Hu & Huin & Huid).
  rewrite (update_spec now instance validated_data u db C Hin Hu). cbv zeta.
  destruct (setattr_keys instance (attrs validated_data)) as (Hid & Huser & _).
  destruct (set_updated_at_keys now (fold_left setattr (attrs validated_data) instance))
    as (Hsid & Hsuser).
  destruct (set_updated_at_keys now instance) as (Hiid & Hiuser).
  assert (Husers : find (fun x => User.id x =? pk)
                        match pop_user validated_data with
                        | [] => users db
                        | d => replace_user (fold_left setattr_user d u) (users db)
                        end
                   = find (fun x => User.id x =? pk) (users db)).
  { destruct (pop_user validated_data) as [|item items]; [reflexivity|].
    destruct (setattr_user_keys u (item :: items)) as (Huk & _).
    unfold replace_user. apply find_replace_row_other; [auto | congruence]. }
  assert (Hrows : forall q,
             UserProfile.id q = UserProfile.id instance ->
             UserProfile.user_id q = UserProfile.user_id instance ->
             find (fun x => UserProfile.user_id x =? pk)
                  (replace_profile q (userprofiles db))
             = find (fun x => UserProfile.user_id x =? pk) (userprofiles db)).
  { intros q Hqid Hquser. unfold replace_profile.
    apply find_replace_row_other; [|congruence].
    intros x Hx Hk.
    rewrite (NoDup_map_injective UserProfile.id x instance (userprofiles db));
      [congruence | apply (profile_pks_nodup db C) | exact Hx | exact Hin
      | congruence]. }
  unfold get_user, get_profile_of.
  destruct (integer_fits _); cbn [snd users userprofiles].
  - split; [exact Husers|]. apply Hrows; congruence.
  - split; [exact Husers|].
    destruct (pop_user validated_data); [reflexivity|]. apply Hrows; congruence.
Qed.

End UpdateMore.

Lemma update_without_user_entries_witness :
  users (snd (UserProfileUpdateSerializer.update
                200 jane_profile
                (UserProfileUpdateSerializer.mk
                   None [UserProfileUpdateSerializer.bio (Some "hi")])
                jane_db))
  = users jane_db.
Proof.
  apply (update_without_user_entries 200 jane_profile _ jane_db). reflexivity.
Defined.

Lemma update_keeps_other_columns_witness :
  exists u' p' db',
    UserProfileUpdateSerializer.update
      200 jane_profile
      (UserProfileUpdateSerializer.mk
         (Some [UserProfileUpdateSerializer.first_name "Janet"]) [])
      jane_db
    = (Ok p', db')
    /\ get_user 1 db' = Some u'
    /\ User.username u' = "jane"
    /\ UserProfile.updated_at p' = 200.
Proof.
  destruct (update_keeps_other_columns
              200 jane_profile first_name_request
              (UserProfileUpdateSerializer.mk
                 (Some [UserProfileUpdateSerializer.first_name "Janet"]) [])
              jane_db jane_db_reachable (or_introl eq_refl) eq_refl)
    as (u & u' & p' & db' & Hu & Hup & Hgu & _ & (_ & Hname & _) & _ & Hat).
  exists u', p', db'. split; [exact Hup|]. split; [exact Hgu|].
  injection Hu as <-. split; [exact Hname | exact Hat].
Defined.

Lemma update_leaves_others_witness :
  get_user 2 (snd (UserProfileUpdateSerializer.update
                     300 jane_profile
                     (UserProfileUpdateSerializer.mk
                        (Some [UserProfileUpdateSerializer.first_name "Janet"]) [])
                     jane_bob_db))
  = Some bob.
Proof.
  destruct (update_leaves_others
              300 jane_profile
              (UserProfileUpdateSerializer.mk
                 (Some [UserProfileUpdateSerializer.first_name "Janet"]) [])
              jane_bob_db 2 jane_bob_db_reachable) as (Hgu & _).
  - now left.
  - discriminate.
  - rewrite Hgu. reflexivity.
Defined.

(** ** Updates in a row *)

Section UpdateTwice.
Context `{Framework}.

Import UserProfileUpdateSerializer.

(** Two update requests in a row on the same profile. *)
Lemma update_twice_spec (t1 t2 : Z) (db : DB) (instance : UserProfile.t)
      (r1 r2 : request) (vd1 vd2 : validated) :
  reachable db -> In instance (userprofiles db) ->
  to_internal_value r1 = Ok vd1 -> to_internal_value r2 = Ok vd2 ->
  exists u db1 db2,
    get_user (UserProfile.user_id instance) db = Some u /\
    update t1 instance vd1 db = (Ok (patched_profile t1 r1 instance), db1) /\
    get_user (UserProfile.user_id instance) db1 = Some (patched_user r1 u) /\
    update t2 (patched_profile t1 r1 instance) vd2 db1
    = (Ok (patched_profile t2 r2 (patched_profile t1 r1 instance)), db2) /\
    get_user (UserProfile.user_id instance) db2
    = Some (patched_user r2 (patched_user r1 u)) /\
    get_profile_of (UserProfile.user_id instance) db2
    = Some (patched_profile t2 r2 (patched_profile t1 r1 instance)).
Proof.
  intros Hreach Hin Hv1 Hv2.
  destruct (update_request_spec t1 db instance r1 vd1 Hreach Hin Hv1)
    as (u & db1 & Hu & Hup1 & _ & Hgu1 & Hgp1).
  assert (Hreach1 : reachable db1).
  { change db1 with (snd (Ok (patched_profile t1 r1 instance), db1)).
    rewrite <- Hup1. apply (reachable_step db); [exact Hreach | now constructor]. }
  assert (Hin1 : In (patched_profile t1 r1 instance) (userprofiles db1)).
  { unfold get_profile_of in Hgp1. now apply find_some in Hgp1 as (Hin1 & _). }
  destruct (update_request_spec t2 db1 (patched_profile t1 r1 instance) r2 vd2
              Hreach1 Hin1 Hv2)
    as (u1 & db2 & Hu1 & Hup2 & _ & Hgu2 & Hgp2).
  cbn [patched_profile UserProfile.user_id] in Hu1, Hgu2, Hgp2.
  assert (u1 = patched_user r1 u) by congruence. subst u1.
  exists u, db1, db2. auto 10.
Qed.

(** X16. Two update requests in a row that the serializer accepts compose
    by key: for every field the value stored in the end is the one the
    second request sets when it gives the key, else the one the first sets
    when it gives it, else the original one. *)
Theorem update_last_write_wins (t1 t2 : Z) (db : DB) (instance : UserProfile.t)
        (r1 r2 : request) (vd1 vd2 : validated) :
  reachable db -> In instance (userprofiles db) ->
  to_internal_value r1 = Ok vd1 -> to_internal_value r2 = Ok vd2 ->
  exists u p1 db1 u2 p2 db2,
    get_user (UserProfile.user_id instance) db = Some u /\
    update t1 instance vd1 db = (Ok p1, db1) /\
    update t2 p1 vd2 db1 = (Ok p2, db2) /\
    get_user (UserProfile.user_id instance) db2 = Some u2 /\
    get_profile_of (UserProfile.user_id instance) db2 = Some p2 /\
    forall f,
      stored u2 p2 f
      = match requested r2 f, requested r1 f with
        | Some v, _ => v
        | None, Some v => v
        | None, None => stored u instance f
        end.
Proof.
  intros Hreach Hin Hv1 Hv2.
  destruct (update_twice_spec t1 t2 db instance r1 r2 vd1 vd2 Hreach Hin Hv1 Hv2)
    as (u & db1 & db2 & Hu & Hup1 & _ & Hup2 & Hgu & Hgp).
  exists u, (patched_profile t1 r1 instance), db1,
    (patched_user r2 (patched_user r1 u)),
    (patched_profile t2 r2 (patched_profile t1 r1 instance)), db2.
  split; [exact Hu|]. split; [exact Hup1|]. split; [exact Hup2|].
  split; [exact Hgu|]. split; [exact Hgp|].
  intros f. destruct r1 as [fn1 ln1 ph1 dob1 loc1 b1 sk1 ex1 li1 gh1 rec1 co1].
  destruct r2 as [fn2 ln2 ph2 dob2 loc2 b2 sk2 ex2 li2 gh2 rec2 co2].
  destruct f;
    cbn [requested stored patched_user patched_profile
         r_first_name r_last_name r_phone_number r_date_of_birth
         r_location r_bio r_skills r_experience_years
         r_linkedin_url r_github_url r_is_recruiter r_company
         User.first_name User.last_name UserProfile.phone_number
         UserProfile.date_of_birth UserProfile.location
         UserProfile.bio UserProfile.skills
         UserProfile.experience_years UserProfile.linkedin_url
         UserProfile.github_url UserProfile.is_recruiter
         UserProfile.company];
    match goal with
    | |- context [match option_map _ ?o2 with _ => _ end] =>
        destruct o2; cbn [option_map given_or];
        match goal with
        | |- context [option_map _ ?o1] => destruct o1; reflexivity
        | |- _ => reflexivity
        end
    end.
Qed.

(** X17. An update request that the serializer accepts is idempotent: sent
    twice, it leaves the identity row and the profile row as sent once (at
    the time of the second save). *)
Theorem update_idempotent (t1 t2 : Z) (db : DB) (instance : UserProfile.t)
        (r : request) (validated_data : validated) :
  reachable db -> In instance (userprofiles db) ->
  to_internal_value r = Ok validated_data ->
  exists u p1 db1 p2 db2,
    get_user (UserProfile.user_id instance) db = Some u /\
    update t1 instance validated_data db = (Ok p1, db1) /\
    update t2 p1 validated_data db1 = (Ok p2, db2) /\
    get_user (UserProfile.user_id instance) db2
    = get_user (UserProfile.user_id instance) db1 /\
    get_profile_of (UserProfile.user_id instance) db1 = Some p1 /\
    get_profile_of (UserProfile.user_id instance) db2 = Some p2 /\
    p2 = UserProfile.mk
           (UserProfile.id p1) (UserProfile.user_id p1)
           (UserProfile.phone_number p1) (UserProfile.date_of_birth p1)
           (UserProfile.location p1) (UserProfile.bio p1) (UserProfile.skills p1)
           (UserProfile.experience_years p1) (UserProfile.linkedin_url p1)
           (UserProfile.github_url p1) (UserProfile.resume p1)
           (UserProfile.profile_picture p1) (UserProfile.is_recruiter p1)
           (UserProfile.company p1) (UserProfile.created_at p1) t2.
Proof.
  intros Hreach Hin Hv.
  destruct (update_twice_spec t1 t2 db instance r r _ _ Hreach Hin Hv Hv)
    as (u & db1 & db2 & Hu & Hup1 & Hgu1 & Hup2 & Hgu & Hgp).
  destruct (update_request_spec t1 db instance r _ Hreach Hin Hv)
    as (u0 & db1' & Hu0 & Hup1' & _ & _ & Hgp1).
  assert (db1' = db1) by congruence. subst db1'.
  assert (Hpp : patched_profile t2 r (patched_profile t1 r instance)
                = patched_profile t2 r instance).
  { unfold patched_profile.
    cbn [UserProfile.id UserProfile.user_id UserProfile.phone_number
         UserProfile.date_of_birth UserProfile.location UserProfile.bio
         UserProfile.skills UserProfile.experience_years UserProfile.linkedin_url
         UserProfile.github_url UserProfile.resume UserProfile.profile_picture
         UserProfile.is_recruiter UserProfile.company UserProfile.created_at].
    now rewrite !given_or_idem. }
  assert (Hpu : patched_user r (patched_user r u) = patched_user r u).
  { unfold patched_user.
    cbn [User.id User.username User.email User.first_name User.last_name
         User.password User.is_active].
    now rewrite !given_or_idem. }
  exists u, (patched_profile t1 r instance), db1,
    (patched_profile t2 r (patched_profile t1 r instance)), db2.
  split; [exact Hu|]. split; [exact Hup1|]. split; [exact Hup2|].
  split; [now rewrite Hgu, Hgu1, Hpu|]. split; [exact Hgp1|].
  split; [exact Hgp|]. rewrite Hpp. reflexivity.
Qed.

End UpdateTwice.

Lemma update_last_write_wins_witness :
  exists p2 db2,
    get_profile_of 1 db2 = Some p2 /\
    UserProfile.bio p2 = Some "hi" /\ UserProfile.company p2 = Some "A".
Proof.
  destruct (update_last_write_wins 200 300 jane_db jane_profile
              company_request bio_request
              (UserProfileUpdateSerializer.mk
                 None [UserProfileUpdateSerializer.company (Some "A")])
              (UserProfileUpdateSerializer.mk
                 None [UserProfileUpdateSerializer.bio (Some "hi")])
              jane_db_reachable (or_introl eq_refl) eq_refl eq_refl)
    as (u & p1 & db1 & u2 & p2 & db2 & Hu & _ & _ & _ & Hgp & Hf).
  exists p2, db2. split; [exact Hgp|].
  pose proof (Hf UserProfileUpdateSerializer.f_bio) as Hb.
  pose proof (Hf UserProfileUpdateSerializer.f_company) as Hc.
  simpl in Hb, Hc. injection Hb as ->. injection Hc as ->. split; reflexivity.
Defined.

Lemma update_idempotent_witness :
  exists p1 db1 p2 db2,
    update_profile 200 jane_profile bio_request jane_db = (Ok p1, db1) /\
    update_profile 300 p1 bio_request db1 = (Ok p2, db2) /\
    get_profile_of 1 db2 = Some p2 /\
    UserProfile.bio p2 = UserProfile.bio p1 /\
    UserProfile.updated_at p2 = 300.
Proof.
  destruct (update_idempotent 200 300 jane_db jane_profile bio_request
              (UserProfileUpdateSerializer.mk
                 None [UserProfileUpdateSerializer.bio (Some "hi")])
              jane_db_reachable (or_introl eq_refl) eq_refl)
    as (u & p1 & db1 & p2 & db2 & _ & Hup1 & Hup2 & _ & _ & Hgp & Hp2).
  exists p1, db1, p2, db2.
  split; [exact Hup1|]. split; [exact Hup2|]. split; [exact Hgp|].
  rewrite Hp2. split; reflexivity.
Defined.

(** ** Frames of deletion and of an identity save *)

(** X18. Deleting an identity touches no other identity and no other
    identity's profile, on any store. *)
Theorem delete_leaves_others (pk pk' : Z) (db : DB) :
  pk' <> pk ->
  get_user pk' (snd (User_delete pk db)) = get_user pk' db
  /\ get_profile_of pk' (snd (User_delete pk db)) = get_profile_of pk' db.
Proof.
  intros Hne. unfold User_delete, get_user, get_profile_of.
  cbn [snd users userprofiles]. split.
  - now apply (find_filter_other User.id).
  - now apply (find_filter_other UserProfile.user_id).
Qed.

Lemma delete_leaves_others_witness :
  get_user 1 (snd (User_delete 2 jane_bob_db)) = Some jane.
Proof.
  rewrite (proj1 (delete_leaves_others 2 1 jane_bob_db ltac:(discriminate))).
  reflexivity.
Defined.

Section SaveFrame.
Context `{Framework}.

(** X19. A save of a stored identity, on a reachable store, adds and
    removes no row and leaves every other identity and every other
    identity's profile as they are, whether the store accepts it or not. *)
Theorem identity_save_leaves_others (now : Z) (instance : User.t) (db : DB)
        (pk : Z) :
  reachable db ->
  In (User.id instance) (map User.id (users db)) ->
  pk <> User.id instance ->
  let db' := snd (User_save now instance None db) in
  get_user pk db' = get_user pk db
  /\ get_profile_of pk db' = get_profile_of pk db
  /\ map User.id (users db') = map User.id (users db)
  /\ map UserProfile.id (userprofiles db') = map UserProfile.id (userprofiles db).
Proof.
  intros Hreach Hpk Hne db'. subst db'.
  pose proof (reachable_consistent db Hreach) as C.
  destruct (consistent_user_profile db _ C Hpk) as (p & Hp & Hpin & Hpu).
  rewrite (User_save_existing now instance None p db C Hpk Hp Hpin).
  destruct (username_taken _ _ (users db)); [repeat split|].
  cbn [snd]. unfold get_user, get_profile_of. cbn [users userprofiles].
  destruct (set_updated_at_keys now p) as (Hsid & Hsuser).
  split; [|split; [|split]].
  - unfold replace_user. apply find_replace_row_other; [auto | congruence].
  - unfold replace_profile. apply find_replace_row_other; [|congruence].
    intros x Hx Hk.
    rewrite (NoDup_map_injective UserProfile.id x p (userprofiles db));
      [congruence | apply (profile_pks_nodup db C) | exact Hx | exact Hpin
      | congruence].
  - apply map_key_replace_row.
  - apply map_key_replace_row.
Qed.

End SaveFrame.

Lemma identity_save_leaves_others_witness :
  get_user 2 (snd (User_save 300 (User.set_last_name "Dorn" jane) None jane_bob_db))
  = Some bob.
Proof.
  destruct (identity_save_leaves_others
              300 (User.set_last_name "Dorn" jane) jane_bob_db 2
              jane_bob_db_reachable) as (Hgu & _).
  - now left.
  - discriminate.
  - rewrite Hgu. reflexivity.
Defined.

(** ** The read serializer *)

Lemma to_representation_resolved (instance : UserProfile.t) (user : User.t) (db : DB) :
  get_user (UserProfile.user_id instance) db = Some user ->
  UserProfileSerializer.to_representation instance db
  = Ok (UserProfileSerializer.mk
          (User.id user) (User.username user) (User.email user)
          (User.first_name user) (User.last_name user)
          (UserProfile.full_name_of user)
          (UserProfile.phone_number instance) (UserProfile.date_of_birth instance)
          (UserProfile.location instance) (UserProfile.bio instance)
          (UserProfile.skills instance) (UserProfile.skills_list instance)
          (UserProfile.experience_years instance)
          (UserProfile.linkedin_url instance) (UserProfile.github_url instance)
          (UserProfile.is_recruiter instance) (UserProfile.company instance)
          (UserProfile.created_at instance) (UserProfile.updated_at instance)).
Proof.
  intros Hu. unfold UserProfileSerializer.to_representation, profile_user.
  now rewrite Hu.
Qed.

(** X20. In a view the read serializer returns, the derived fields agree
    with the base fields beside them: [user_id] is the owner column of the
    profile, [full_name] is "first_name last_name" trimmed, and
    [skills_list] is the list derived from [skills]. *)
Theorem view_derived_fields (instance : UserProfile.t) (db : DB)
        (v : UserProfileSerializer.data) :
  UserProfileSerializer.to_representation instance db = Ok v ->
  UserProfileSerializer.user_id v = UserProfile.user_id instance
  /\ UserProfileSerializer.full_name v
     = Py.strip (UserProfileSerializer.first_name v ++ " "
                 ++ UserProfileSerializer.last_name v)
  /\ UserProfileSerializer.skills_list v
     = match UserProfileSerializer.skills v with
       | Some s => skills_list_spec s
       | None => []
       end.
Proof.
  unfold UserProfileSerializer.to_representation, profile_user.
  destruct (get_user (UserProfile.user_id instance) db) as [user|] eqn:Hu;
    cbn [fst]; [|discriminate].
  intros [= <-]. cbn. split; [|split].
  - unfold get_user in Hu. apply find_some in Hu as (_ & Hid).
    now apply Z.eqb_eq in Hid.
  - reflexivity.
  - destruct (UserProfile.skills instance) as [s|] eqn:Hs.
    + now apply skills_list_of_string.
    + unfold UserProfile.skills_list. now rewrite Hs.
Qed.

Lemma view_derived_fields_witness :
  exists v,
    UserProfileSerializer.to_representation jane_profile jane_db = Ok v /\
    UserProfileSerializer.full_name v = "Jane Doe".
Proof.
  eexists. split; [reflexivity|].
  rewrite (proj1 (proj2 (view_derived_fields jane_profile jane_db _ eq_refl))).
  reflexivity.
Defined.

Section ReadAfterUpdate.
Context `{Framework}.

Import UserProfileUpdateSerializer.

(** X21. Reading after writing: on a reachable store the view of a stored
    profile is defined, and after an update request that the serializer
    accepts the view of the updated profile shows, for every updatable
    field, the value the request sets when the key is present and the value
    shown before when it is absent. *)
Theorem view_after_update (now : Z) (db : DB) (instance : UserProfile.t)
        (r : request) (validated_data : validated) :
  reachable db -> In instance (userprofiles db) ->
  to_internal_value r = Ok validated_data ->
  exists v p' db' v',
    UserProfileSerializer.to_representation instance db = Ok v /\
    update now instance validated_data db = (Ok p', db') /\
    UserProfileSerializer.to_representation p' db' = Ok v' /\
    forall f, UserProfileSerializer.viewed v' f
              = match requested r f with
                | Some x => x
                | None => UserProfileSerializer.viewed v f
                end.
Proof.
  intros Hreach Hin Hv.
  destruct (update_request_spec now db instance r validated_data Hreach Hin Hv)
    as (u & db' & Hu & Hup & _ & Hgu & Hgp).
  eexists _, (patched_profile now r instance), db', _.
  split; [apply (to_representation_resolved instance u db Hu)|].
  split; [exact Hup|]. split.
  - apply (to_representation_resolved (patched_profile now r instance)
             (patched_user r u) db'). exact Hgu.
  - intros f. destruct r as [fn ln ph dob loc b sk ex li gh rec co].
    destruct f;
      cbn [requested UserProfileSerializer.viewed patched_user patched_profile
           r_first_name r_last_name r_phone_number r_date_of_birth
           r_location r_bio r_skills r_experience_years
           r_linkedin_url r_github_url r_is_recruiter r_company
           User.first_name User.last_name UserProfile.phone_number
           UserProfile.date_of_birth UserProfile.location
           UserProfile.bio UserProfile.skills
           UserProfile.experience_years UserProfile.linkedin_url
           UserProfile.github_url UserProfile.is_recruiter
           UserProfile.company
           UserProfileSerializer.first_name UserProfileSerializer.last_name
           UserProfileSerializer.phone_number UserProfileSerializer.date_of_birth
           UserProfileSerializer.location UserProfileSerializer.bio
           UserProfileSerializer.skills UserProfileSerializer.experience_years
           UserProfileSerializer.linkedin_url UserProfileSerializer.github_url
           UserProfileSerializer.is_recruiter UserProfileSerializer.company];
      match goal with
      | |- context [option_map _ ?o] => destruct o; reflexivity
      end.
Qed.

(** X22. The fields of the view that the update serializer does not
    declare are out of reach of an update request that the serializer
    accepts: [user_id], [username], [email] and [created_at] show the same
    before and after, and [updated_at] shows the time of the update. *)
Theorem view_read_only_fields (now : Z) (db : DB) (instance : UserProfile.t)
        (r : request) (validated_data : validated) :
  reachable db -> In instance (userprofiles db) ->
  to_internal_value r = Ok validated_data ->
  exists v p' db' v',
    UserProfileSerializer.to_representation instance db = Ok v /\
    update now instance validated_data db = (Ok p', db') /\
    UserProfileSerializer.to_representation p' db' = Ok v' /\
    UserProfileSerializer.user_id v' = UserProfileSerializer.user_id v /\
    UserProfileSerializer.username v' = UserProfileSerializer.username v /\
    UserProfileSerializer.email v' = UserProfileSerializer.email v /\
    UserProfileSerializer.created_at v' = UserProfileSerializer.created_at v /\
    UserProfileSerializer.updated_at v' = now.
Proof.
  intros Hreach Hin Hv.
  destruct (update_request_spec now db instance r validated_data Hreach Hin Hv)
    as (u & db' & Hu & Hup & _ & Hgu & Hgp).
  eexists _, (patched_profile now r instance), db', _.
  split; [apply (to_representation_resolved instance u db Hu)|].
  split; [exact Hup|]. split.
  - apply (to_representation_resolved (patched_profile now r instance)
             (patched_user r u) db'). exact Hgu.
  - repeat split.
Qed.

End ReadAfterUpdate.

Lemma view_after_update_witness :
  exists p' db' v',
    UserProfileUpdateSerializer.update
      200 jane_at_A
      (UserProfileUpdateSerializer.mk
         None [UserProfileUpdateSerializer.bio (Some "hi")])
      jane_at_A_db
    = (Ok p', db') /\
    UserProfileSerializer.to_representation p' db' = Ok v' /\
    UserProfileSerializer.bio v' = Some "hi" /\
    UserProfileSerializer.company v' = Some "A".
Proof.
  destruct (view_after_update
              200 jane_at_A_db jane_at_A bio_request
              (UserProfileUpdateSerializer.mk
                 None [UserProfileUpdateSerializer.bio (Some "hi")])
              jane_at_A_db_reachable (or_introl eq_refl) eq_refl)
    as (v & p' & db' & v' & Hv & Hup & Hv' & Hf).
  exists p', db', v'. split; [exact Hup|]. split; [exact Hv'|].
  pose proof (Hf UserProfileUpdateSerializer.f_bio) as Hb.
  pose proof (Hf UserProfileUpdateSerializer.f_company) as Hc.
  injection Hv as <-. simpl in Hb, Hc.
  injection Hb as ->. injection Hc as ->. split; reflexivity.
Defined.

Lemma view_read_only_fields_witness :
  exists p' db' v',
    UserProfileUpdateSerializer.update
      200 jane_profile
      (UserProfileUpdateSerializer.mk
         (Some [UserProfileUpdateSerializer.first_name "Janet"]) [])
      jane_db
    = (Ok p', db') /\
    UserProfileSerializer.to_representation p' db' = Ok v' /\
    UserProfileSerializer.username v' = "jane" /\
    UserProfileSerializer.updated_at v' = 200.
Proof.
  destruct (view_read_only_fields
              200 jane_db jane_profile first_name_request
              (UserProfileUpdateSerializer.mk
                 (Some [UserProfileUpdateSerializer.first_name "Janet"]) [])
              jane_db_reachable (or_introl eq_refl) eq_refl)
    as (v & p' & db' & v' & Hv & Hup & Hv' & _ & Hname & _ & _ & Hupd).
  exists p', db', v'. split; [exact Hup|]. split; [exact Hv'|].
  injection Hv as <-. split; [exact Hname | exact Hupd].
Defined.

(** ** An [experience_years] outside the integer range *)

Section OutOfRange.
Context `{Framework}.

Import UserProfileUpdateSerializer.


End OutOfRange.


(** ** Registration without an email *)

Section OptionalEmail.
Context `{Framework}.

Import UserRegistrationSerializer.

(** X24. The key [email] is optional and [validate_email] runs only when
    it is given: a payload without it (and acceptable otherwise) is
    registered with the email [normalize_email ""], also when an identity
    with the empty email exists; the same payload with the key given as the
    empty text is refused in that store with "A user with this email
    already exists.". *)
Theorem registration_without_email (now : Z) (db : DB) (payload : data) :
  reachable db ->
  email payload = Fields.Absent ->
  fields_acceptable payload db ->
  trimmed_or_empty (password payload) = trimmed_or_empty (password_confirm payload) ->
  (forall u, In u (users db) ->
             User.username u
             <> normalize_username (trimmed_or_empty (username payload))) ->
  (exists u db',
      register now payload db = (Ok u, db') /\
      User.email u = normalize_email "" /\
      In u (users db'))
  /\ ((exists x, In x (users db) /\ User.email x = "") ->
      let blank := mk (username payload) (Fields.Given "") (first_name payload)
                      (last_name payload) (password payload)
                      (password_confirm payload) in
      fails_with (run_validation blank db)
                 "A user with this email already exists." = true
      /\ exists d, register now blank db = (Raise (ValidationError d), db)).
Proof.
  intros Hreach Hemail Hacc Hpw Hfree.
  pose proof (reachable_consistent db Hreach) as C. split.
  - assert (Hrun : run_validation payload db = Ok (validated_of payload))
      by (apply run_validation_Ok; auto).
    assert (Htaken : username_taken
                       None (normalize_username (trimmed_or_empty (username payload)))
                       (users db) = false).
    { apply username_taken_false. intros u Hin Hu. exact (Hfree u Hin Hu). }
    eexists _, _. split; [|split].
    + unfold register. rewrite Hrun.
      rewrite (create_validated_of now payload db C (proj1 Hacc)), Htaken.
      reflexivity.
    + cbn [registered User.email]. now rewrite Hemail.
    + cbn [with_new_identity users]. apply in_or_app. right. now left.
  - intros Hex blank.
    assert (Hexists : email_exists "" db = true) by now apply email_exists_iff.
    assert (Ho : Fields.validate_method
                   (fun value => raised (validate_email value db))
                   (Fields.run_validation email_field (email blank))
                 = Fields.Invalid ["A user with this email already exists."]).
    { cbn [blank email Fields.run_validation Fields.is_blank String.eqb orb
           Fields.allow_blank email_field Fields.validate_method].
      rewrite raised_validate_email. now rewrite Hexists. }
    destruct (to_internal_value_reports blank db "email"
                ["A user with this email already exists."])
      as (reported & Ht & Hin).
    { rewrite Ho. apply in_or_app. right. apply in_or_app. left. now left. }
    split.
    + rewrite (run_validation_field_errors _ _ _ Ht).
      apply (fails_with_entry reported "email" _ _ Hin). now left.
    + eapply register_refused. exact Ht.
Qed.

(** The email a registration stores, when normalisation leaves the address
    as the field read it, is one the field [email] accepts as it is: the
    emails that registration puts in the store are of the form the
    duplicate-email check is stated for. *)
Lemma registered_email_passes (now : Z) (db db' : DB) (payload : data) (u : User.t) :
  reachable db ->
  register now payload db = (Ok u, db') ->
  normalize_email (trimmed_or_empty (email payload))
  = trimmed_or_empty (email payload) ->
  email_passes (User.email u).
Proof.
  intros Hreach Hreg Hnorm. pose proof (reachable_consistent db Hreach) as C.
  destruct (register_ok_spec now payload u db db' C Hreg)
    as ((_ & Hemail & _) & _ & _ & -> & _).
  cbn [registered User.email]. rewrite Hnorm. unfold email_passes.
  destruct Hemail as [->|(s & -> & _ & Hform)]; cbn [trimmed_or_empty].
  - split; [reflexivity | now left].
  - split; [apply strip_fixpoint, strip_trimmed|].
    destruct Hform as [He|Hv]; [now left | now right].
Qed.

End OptionalEmail.

Lemma no_email_payload_acceptable (username : string) (db : DB) :
  UserRegistrationSerializer.to_internal_value (no_email_payload username) db
  = Ok (validated_of (no_email_payload username)) ->
  fields_acceptable (no_email_payload username) db.
Proof. intros Ht. exact (proj1 (proj1 (to_internal_value_Ok _ _ _) Ht)). Qed.

Lemma registration_without_email_witness :
  exists u v db1 db2,
    register 200 (no_email_payload "bob") jane_db = (Ok u, db1)
    /\ register 300 (no_email_payload "carol") db1 = (Ok v, db2)
    /\ User.email u = "" /\ User.email v = "".
Proof.
  destruct (proj1 (registration_without_email
                     200 jane_db (no_email_payload "bob") jane_db_reachable
                     eq_refl (no_email_payload_acceptable "bob" jane_db eq_refl)
                     eq_refl
                     ltac:(intros u [<-|[]]; discriminate)))
    as (u & db1 & Hreg1 & Hmail1 & _).
  assert (Hreach1 : reachable db1).
  { change db1 with (snd (Ok u, db1)). rewrite <- Hreg1.
    apply (reachable_step jane_db); [apply jane_db_reachable | constructor]. }
  assert (Hdb1 : db1 = snd (register 200 (no_email_payload "bob") jane_db))
    by now rewrite Hreg1.
  destruct (proj1 (registration_without_email
                     300 db1 (no_email_payload "carol") Hreach1 eq_refl
                     ltac:(apply no_email_payload_acceptable; rewrite Hdb1;
                           reflexivity)
                     eq_refl
                     ltac:(rewrite Hdb1; intros x [<-|[<-|[]]]; discriminate)))
    as (v & db2 & Hreg2 & Hmail2 & _).
  exists u, v, db1, db2. auto.
Defined.
